(** * Timetable scheduler: the CP model builder and the global coordinator

    A shallow embedding of [backend/scheduler.py] (class [TimetableScheduler],
    [generate_timetable]), [backend/global_scheduler.py] (class
    [GlobalScheduler]) and the [RuleCreate] schema of [backend/schemas.py].

    Conventions.
    - Python integers are [Z]; [//] is [Z.div] and [%] is [Z.modulo] (both
      floor, as in Python for a positive divisor).
    - A [datetime.time] is kept as its hour and minute; every function of the
      source that reads a time reads only these two fields.
    - A Python dict used as a map whose order is never observed is a [gmap];
      [schedule_vars], whose iteration order drives [extract_solution], is
      the list of its keys in insertion order.
    - An exception raised by the source is [None] in the [option] monad.
    - The CP-SAT search itself is not code of the repository: the solver is
      a parameter returning a status and a valuation of the variables. *)

From stdpp Require Import gmap strings list fin_maps pretty.
From Stdlib Require Import ZArith Lia.

Local Open Scope Z_scope.

(** ** Python helpers *)

(** [range(lo, hi)]. *)
Definition range (lo hi : Z) : list Z := seqZ lo (hi - lo).

(** [len(l)]. *)
Definition len {A} (l : list A) : Z := Z.of_nat (length l).

(** [len(s)] of a [str]. The text is held as its UTF-8 bytes, and Python
    counts characters: the bytes that are not continuation bytes
    ([10xxxxxx], 128 to 191). *)
Fixpoint str_len (s : string) : Z :=
  match s with
  | EmptyString => 0
  | String c s' =>
      (if bool_decide (128 <= Z.of_N (Ascii.N_of_ascii c) < 192) then 0 else 1)
      + str_len s'
  end.

(** [l[i]] for a non-negative index (the only way the source indexes). *)
Definition index {A} (l : list A) (i : Z) : option A :=
  if bool_decide (0 <= i) then l !! Z.to_nat i else None.

(** A [for] loop whose body may raise. *)
Fixpoint for_each {A S} (l : list A) (body : S -> A -> option S) (st : S)
  : option S :=
  match l with
  | [] => Some st
  | x :: l' => match body st x with
               | Some st' => for_each l' body st'
               | None => None
               end
  end.

(** [d[k] = v] on the key list of an insertion-ordered dict: a key already
    present keeps its position. *)
Definition dict_set {K} `{EqDecision K} (k : K) (d : list K) : list K :=
  if bool_decide (k ∈ d) then d else d ++ [k].

(** ** Time grid *)

Record time := mk_time { hour : Z; minute : Z }.

#[global] Instance time_eq_dec : EqDecision time.
Proof. solve_decision. Defined.

Definition time_minutes (t : time) : Z := hour t * 60 + minute t.

(** [(datetime.combine(today, time(0,0)) + timedelta(minutes=m)).time()]:
    the date part is dropped, so the result wraps around midnight. *)
Definition time_of_minutes (m : Z) : time :=
  let m' := m mod 1440 in mk_time (m' / 60) (m' mod 60).

Definition start_hour : Z := 8.
Definition end_hour : Z := 18.
Definition slot_duration : Z := 55.
Definition num_days : Z := 5.
Definition num_slots_per_day : Z := (end_hour - start_hour) * 60 / slot_duration.
Definition total_time_slots : Z := num_days * num_slots_per_day.

Definition _slot_to_time (slot : Z) : time :=
  let minutes_from_start := slot * slot_duration in
  time_of_minutes (start_hour * 60 + minutes_from_start).

Definition _add_minutes_to_time (start_time : time) (minutes : Z) : time :=
  time_of_minutes (time_minutes start_time + minutes).

Definition _time_to_slot (time_obj : time) : Z :=
  let time_minutes := hour time_obj * 60 + minute time_obj in
  let start_minutes := start_hour * 60 in
  (time_minutes - start_minutes) / slot_duration.

(** ** Enumerations ([models.py]) *)

Inductive RoomType := LECTURE | LAB | COMPUTER_LAB | CONFERENCE.
Inductive CourseType := CT_LECTURE | CT_LAB.

#[global] Instance RoomType_eq_dec : EqDecision RoomType.
Proof. solve_decision. Defined.
#[global] Instance CourseType_eq_dec : EqDecision CourseType.
Proof. solve_decision. Defined.

(** [RoomType.value]. *)
Definition RoomType_value (r : RoomType) : string :=
  match r with
  | LECTURE => "lecture"
  | LAB => "lab"
  | COMPUTER_LAB => "computer_lab"
  | CONFERENCE => "conference"
  end.

(** ** JSON values of [rule_data] (floats are not represented) *)

#[local] Set Warnings "-register-all".

Inductive json :=
| JNull
| JBool (b : bool)
| JInt (n : Z)
| JStr (s : string)
| JList (l : list json)
| JObj (o : list (string * json)).

(** [o.get(k)] on a parsed object; [json.loads] yields unique keys. *)
Fixpoint obj_get (o : list (string * json)) (k : string) : option json :=
  match o with
  | [] => None
  | (k', v) :: o' => if String.eqb k' k then Some v else obj_get o' k
  end.

(** A value usable where Python needs an [int] ([bool] is a subclass of
    [int]); anything else raises [TypeError]. *)
Definition as_int (j : json) : option Z :=
  match j with
  | JInt n => Some n
  | JBool b => Some (if b then 1 else 0)
  | _ => None
  end.

(** [j is None]. *)
Definition is_None (j : json) : bool :=
  match j with JNull => true | _ => false end.

(** Python truthiness. *)
Definition truthy (j : json) : bool :=
  match j with
  | JNull => false
  | JBool b => b
  | JInt n => negb (n =? 0)
  | JStr s => negb (String.eqb s "")
  | JList l => match l with [] => false | _ => true end
  | JObj o => match o with [] => false | _ => true end
  end.

(** ** Rows of the store ([models.py]) *)

Record Teacher := mk_Teacher {
  teacher_id : Z;
  teacher_name : string;
  teacher_department : string;
  teacher_user_id : Z;
  max_hours_per_day : Z;
  (** the JSON text column, parsed; [None] is NULL (or the empty text) *)
  availability : option (list (list bool));
  days_off : option (list Z)
}.

Record Course := mk_Course {
  course_id : Z;
  course_name : string;
  course_type : CourseType;
  duration_minutes : Z;
  sessions_per_week : Z;
  course_room_type : RoomType;
  course_department : string;
  course_user_id : Z
}.

Record Classroom := mk_Classroom {
  classroom_id : Z;
  room_id : string;
  classroom_room_type : RoomType;
  capacity : Z;
  classroom_department : string;
  classroom_user_id : Z
}.

Record Assignment := mk_Assignment {
  assignment_id : Z;
  assignment_course_id : Z;
  assignment_section_id : Z;
  assignment_teacher_id : Z;
  group_id : option string;
  assignment_department : string;
  assignment_user_id : Z
}.

Record Rule := mk_Rule {
  rule_id : Z;
  rule_name : string;
  rule_type : string;
  (** the JSON text column, parsed: always an object *)
  rule_data : list (string * json);
  rule_department : string;
  rule_user_id : Z
}.

(** [StatusName] of the CP-SAT statuses. *)
Inductive solver_status := OPTIMAL | FEASIBLE | INFEASIBLE | MODEL_INVALID | UNKNOWN.

#[global] Instance solver_status_eq_dec : EqDecision solver_status.
Proof. solve_decision. Defined.

(** The two texts written to [generation_log], by their cause:
    ["Solver failed: <status name>"] and ["Generation error: <exception>"]. *)
Inductive generation_log_text :=
| Solver_failed (st : solver_status)
| Generation_error.

#[global] Instance generation_log_text_eq_dec : EqDecision generation_log_text.
Proof. solve_decision. Defined.

Record DeptTimetable := mk_DeptTimetable {
  timetable_id : Z;
  timetable_name : string;
  timetable_department : string;
  timetable_user_id : Z;
  status : string;
  generation_log : option generation_log_text;
  (** [json.dumps] of the solver statistics, kept as text *)
  solver_stats : option string;
  updated_at : Z
}.

Record ScheduledSlot := mk_ScheduledSlot {
  slot_id : Z;
  dept_timetable_id : Z;
  slot_assignment_id : Z;
  slot_classroom_id : Z;
  day_of_week : Z;
  start_time : time;
  end_time : time;
  slot_department : string;
  is_global_slot : bool
}.

#[global] Instance DeptTimetable_eq_dec : EqDecision DeptTimetable.
Proof. solve_decision. Defined.
#[global] Instance ScheduledSlot_eq_dec : EqDecision ScheduledSlot.
Proof. solve_decision. Defined.

(** The store: one list of rows per relation, and the sequence that numbers
    new [scheduled_slots] rows. *)
Record Storage := mk_Storage {
  teachers : list Teacher;
  courses : list Course;
  classrooms : list Classroom;
  assignments : list Assignment;
  rules : list Rule;
  dept_timetables : list DeptTimetable;
  scheduled_slots : list ScheduledSlot;
  slot_seq : Z;
  rule_seq : Z
}.

Definition with_dept_timetables (l : list DeptTimetable) (db : Storage) : Storage :=
  {| teachers := teachers db; courses := courses db;
     classrooms := classrooms db; assignments := assignments db;
     rules := rules db; dept_timetables := l;
     scheduled_slots := scheduled_slots db;
     slot_seq := slot_seq db; rule_seq := rule_seq db |}.

Definition with_scheduled_slots (l : list ScheduledSlot) (seq : Z) (db : Storage)
  : Storage :=
  {| teachers := teachers db; courses := courses db;
     classrooms := classrooms db; assignments := assignments db;
     rules := rules db; dept_timetables := dept_timetables db;
     scheduled_slots := l; slot_seq := seq; rule_seq := rule_seq db |}.

Definition with_rules (l : list Rule) (seq : Z) (db : Storage) : Storage :=
  {| teachers := teachers db; courses := courses db;
     classrooms := classrooms db; assignments := assignments db;
     rules := l; dept_timetables := dept_timetables db;
     scheduled_slots := scheduled_slots db;
     slot_seq := slot_seq db; rule_seq := seq |}.

(** [UPDATE scheduled_slots SET is_global_slot = b] on one row. *)
Definition set_global (b : bool) (r : ScheduledSlot) : ScheduledSlot :=
  {| slot_id := slot_id r; dept_timetable_id := dept_timetable_id r;
     slot_assignment_id := slot_assignment_id r;
     slot_classroom_id := slot_classroom_id r;
     day_of_week := day_of_week r; start_time := start_time r;
     end_time := end_time r; slot_department := slot_department r;
     is_global_slot := b |}.

(** ** [scheduler.py]: class [TimetableScheduler] *)

Module TimetableScheduler.

(** The data structures filled by [load_data]. The dicts it builds copy the
    fields of the rows, so the rows themselves are kept; for a teacher the
    parsed [days_off] is [teacher_days_off]. *)
Record snapshot := mk_snapshot {
  self_assignments : list Assignment;
  self_teachers : list Teacher;
  self_courses : list Course;
  self_classrooms : list Classroom;
  self_rules : list Rule
}.

(** [json.loads(teacher.days_off) if teacher.days_off else []]. *)
Definition teacher_days_off (t : Teacher) : list Z := default [] (days_off t).

Definition load_data (db : Storage) (department : string) (user_id : Z)
  : snapshot :=
  {| self_assignments :=
       filter (fun a => assignment_department a = department
                        /\ assignment_user_id a = user_id) (assignments db);
     self_teachers :=
       filter (fun t => teacher_department t = department
                        /\ teacher_user_id t = user_id) (teachers db);
     self_courses :=
       filter (fun c => course_department c = department
                        /\ course_user_id c = user_id) (courses db);
     self_classrooms :=
       filter (fun c => classroom_department c = department
                        /\ classroom_user_id c = user_id) (classrooms db);
     self_rules :=
       filter (fun r => rule_department r = department
                        /\ rule_user_id r = user_id) (rules db) |}.

(** [(assignment_id, classroom_id, day, slot)], a key of [schedule_vars]. *)
Definition key : Type := Z * Z * Z * Z.

(** The boolean variables of the model. A schedule variable is named by its
    key (the dict holds one variable per key) and a gap indicator by the
    teacher, day and slot it was created for. The [teacher_vars] and
    [room_vars] families are created by the source and occur in no
    constraint and no objective term. *)
Inductive var :=
| schedule_var (k : key)
| teacher_var (teacher day slot : Z)
| room_var (classroom day slot : Z)
| gap_var (teacher day slot : Z).

#[global] Instance var_eq_dec : EqDecision var.
Proof. solve_decision. Defined.

Inductive constraint :=
| SumEq (vs : list var) (k : Z)   (** [Add(sum(vs) == k)] *)
| SumLe (vs : list var) (k : Z)   (** [Add(sum(vs) <= k)] *)
| VarZero (v : var)               (** [Add(v == 0)] *)
| VarEq (v w : var).              (** [Add(v == w)] *)

Record cp_model := mk_model {
  constraints : list constraint;
  (** [Minimize(sum(objective_terms))], set only for a non-empty list *)
  objective : option (list (var * Z))
}.

(** [_is_room_compatible]; both arguments are enum members, so the strings
    compared are their values. *)
Definition _is_room_compatible (course_room_type classroom_room_type : RoomType)
  : bool :=
  let course_type_str := RoomType_value course_room_type in
  let classroom_type_str := RoomType_value classroom_room_type in
  if String.eqb course_type_str classroom_type_str then true
  else if String.eqb course_type_str "lecture"
          && String.eqb classroom_type_str "conference" then true
  else if String.eqb course_type_str "lab"
          && String.eqb classroom_type_str "computer_lab" then true
  else false.

(** [next(c for c in self.courses if c['id'] == course_id)]; [None] is
    [StopIteration]. *)
Definition next_course (sn : snapshot) (cid : Z) : option Course :=
  List.find (fun c => bool_decide (course_id c = cid)) (self_courses sn).

Definition next_assignment (sn : snapshot) (aid : Z) : option Assignment :=
  List.find (fun a => bool_decide (assignment_id a = aid)) (self_assignments sn).

Definition next_classroom (sn : snapshot) (cid : Z) : option Classroom :=
  List.find (fun c => bool_decide (classroom_id c = cid)) (self_classrooms sn).

Definition days : list Z := range 0 num_days.
Definition slots : list Z := range 0 num_slots_per_day.

Definition create_decision_variables (sn : snapshot) : option (list key) :=
  for_each (self_assignments sn) (fun vars assignment =>
    for_each (self_classrooms sn) (fun vars classroom =>
      course ← next_course sn (assignment_course_id assignment);
      if _is_room_compatible (course_room_type course)
                             (classroom_room_type classroom)
      then Some (foldl (fun vars day =>
                   foldl (fun vars slot =>
                     dict_set (assignment_id assignment,
                               classroom_id classroom, day, slot) vars)
                     vars slots)
                   vars days)
      else Some vars) vars) [].

(** [key in self.schedule_vars]. *)
Definition has_key (vars : list key) (k : key) : bool := bool_decide (k ∈ vars).

(** The variables of one assignment at a (day, slot), over all classrooms. *)
Definition classroom_vars (vars : list key) (sn : snapshot)
    (assignment : Assignment) (day slot : Z) : list var :=
  c ← self_classrooms sn;
  let k := (assignment_id assignment, classroom_id c, day, slot) in
  if has_key vars k then [schedule_var k] else [].

(** The variables of one teacher at a (day, slot): the inner two loops shared
    by the teacher blocks. *)
Definition teacher_slot_vars (vars : list key) (sn : snapshot)
    (teacher : Teacher) (day slot : Z) : list var :=
  a ← self_assignments sn;
  if bool_decide (assignment_teacher_id a = teacher_id teacher)
  then classroom_vars vars sn a day slot
  else [].

(** Block 1: each assignment is scheduled [sessions_per_week] times. *)
Definition session_count_constraints (vars : list key) (sn : snapshot)
  : option (list constraint) :=
  for_each (self_assignments sn) (fun cs assignment =>
    course ← next_course sn (assignment_course_id assignment);
    let sessions_needed := sessions_per_week course in
    let assignment_vars :=
      filter (fun k : key => k.1.1.1 = assignment_id assignment) vars in
    Some (match assignment_vars with
          | [] => cs
          | _ => cs ++ [SumEq (schedule_var <$> assignment_vars) sessions_needed]
          end)) [].

(** Block 2: no teacher is in two places at once. *)
Definition teacher_overlap_constraints (vars : list key) (sn : snapshot)
  : list constraint :=
  teacher ← self_teachers sn; day ← days; slot ← slots;
  match teacher_slot_vars vars sn teacher day slot with
  | [] => []
  | teacher_assignments => [SumLe teacher_assignments 1]
  end.

(** Block 3: no classroom holds two classes at once. *)
Definition room_overlap_constraints (vars : list key) (sn : snapshot)
  : list constraint :=
  classroom ← self_classrooms sn; day ← days; slot ← slots;
  match (a ← self_assignments sn;
         let k := (assignment_id a, classroom_id classroom, day, slot) in
         if has_key vars k then [schedule_var k] else []) with
  | [] => []
  | room_assignments => [SumLe room_assignments 1]
  end.

(** Block 4: teacher availability. The whole block, days off included, is
    under [if teacher['availability']]: a missing or empty matrix skips it. *)
Definition availability_constraints (vars : list key) (sn : snapshot)
  : list constraint :=
  teacher ← self_teachers sn;
  match availability teacher with
  | None | Some [] => []
  | Some matrix =>
      day ← days;
      if bool_decide (day ∈ teacher_days_off teacher)
      then
        a ← self_assignments sn;
        if bool_decide (assignment_teacher_id a = teacher_id teacher)
        then
          c ← self_classrooms sn; slot ← slots;
          let k := (assignment_id a, classroom_id c, day, slot) in
          if has_key vars k then [VarZero (schedule_var k)] else []
        else []
      else
        if bool_decide (day < len matrix)
        then
          match index matrix day with
          | Some day_availability =>
              slot ← range 0 (Z.min (len day_availability) num_slots_per_day);
              match index day_availability slot with
              | Some false =>
                  VarZero <$> teacher_slot_vars vars sn teacher day slot
              | _ => []
              end
          | None => []
          end
        else []
  end.

(** Block 5: maximum hours per day per teacher. *)
Definition daily_load_constraints (vars : list key) (sn : snapshot)
  : list constraint :=
  teacher ← self_teachers sn;
  let max_hours := max_hours_per_day teacher in
  let max_slots := max_hours * 60 / slot_duration in
  day ← days;
  match (a ← self_assignments sn;
         if bool_decide (assignment_teacher_id a = teacher_id teacher)
         then
           c ← self_classrooms sn; slot ← slots;
           let k := (assignment_id a, classroom_id c, day, slot) in
           if has_key vars k then [schedule_var k] else []
         else []) with
  | [] => []
  | daily_assignments => [SumLe daily_assignments max_slots]
  end.

(** [group_assignments[g].append(a)] on an insertion-ordered dict. *)
Fixpoint group_append (g : string) (a : Assignment)
    (groups : list (string * list Assignment)) : list (string * list Assignment) :=
  match groups with
  | [] => [(g, [a])]
  | (g', l) :: rest =>
      if String.eqb g' g then (g', l ++ [a]) :: rest
      else (g', l) :: group_append g a rest
  end.

Definition group_assignments (sn : snapshot) : list (string * list Assignment) :=
  foldl (fun groups a =>
           match group_id a with
           | Some g => if String.eqb g "" then groups else group_append g a groups
           | None => groups
           end) [] (self_assignments sn).

(** [(l[i], l[i+1]) for i in range(len(l) - 1)]. *)
Definition adjacent {A} (l : list A) : list (A * A) := zip l (tail l).

(** Block 6: the assignments of a group are scheduled together. *)
Definition group_constraints (vars : list key) (sn : snapshot)
  : list constraint :=
  '(_, group) ← group_assignments sn;
  if bool_decide (1 < len group)
  then
    day ← days; slot ← slots;
    let group_vars := a ← group; classroom_vars vars sn a day slot in
    if bool_decide (1 < len group_vars)
    then (fun p => VarEq p.1 p.2) <$> adjacent group_vars
    else []
  else [].

Definition add_hard_constraints (vars : list key) (sn : snapshot)
  : option (list constraint) :=
  c1 ← session_count_constraints vars sn;
  Some (c1 ++ teacher_overlap_constraints vars sn
           ++ room_overlap_constraints vars sn
           ++ availability_constraints vars sn
           ++ daily_load_constraints vars sn
           ++ group_constraints vars sn).

(** [_add_lunch_window_constraint]. The slot range and the product with the
    penalty are evaluated inside the loops, so a non-integer value raises
    only when the loop reaches it. *)
Definition _add_lunch_window_constraint (vars : list key) (sn : snapshot)
    (rule_data : list (string * json)) (objective_terms : list (var * Z))
  : option (list (var * Z)) :=
  let lunch_start := default (JInt 5) (obj_get rule_data "start_slot") in
  let lunch_end := default (JInt 6) (obj_get rule_data "end_slot") in
  let penalty := default (JInt 20) (obj_get rule_data "penalty") in
  for_each (self_assignments sn) (fun terms assignment =>
    for_each (self_classrooms sn) (fun terms c =>
      for_each days (fun terms day =>
        lo ← as_int lunch_start;
        hi ← as_int lunch_end;
        for_each (range lo (hi + 1)) (fun terms slot =>
          let k := (assignment_id assignment, classroom_id c, day, slot) in
          if has_key vars k
          then p ← as_int penalty; Some (terms ++ [(schedule_var k, p)])
          else Some terms) terms) terms) terms) objective_terms.

(** [_add_gap_preference_constraint]: a placeholder, [pass]. *)
Definition _add_gap_preference_constraint (rule_data : list (string * json))
    (objective_terms : list (var * Z)) : list (var * Z) := objective_terms.

(** A component of a tuple looked up in [schedule_vars]: [None] when it is
    unhashable ([TypeError]); otherwise the integer it is equal to, if any. *)
Definition hashable_int (j : json) : option (option Z) :=
  match j with
  | JInt n => Some (Some n)
  | JBool b => Some (Some (if b then 1 else 0))
  | JNull | JStr _ => Some None
  | JList _ | JObj _ => None
  end.

(** The elements a [for] loop draws from a JSON value; a string or an object
    yields strings, on which [pair.get] raises. *)
Definition iterate (j : json) : option (list json) :=
  match j with
  | JList l => Some l
  | JStr s => Some (if String.eqb s "" then [] else [JStr s])
  | JObj o => Some ((fun p => JStr p.1) <$> o)
  | _ => None
  end.

(** [_add_forbidden_time_pairs_constraint]. *)
Definition _add_forbidden_time_pairs_constraint (vars : list key)
    (sn : snapshot) (rule_data : list (string * json)) (cs : list constraint)
  : option (list constraint) :=
  forbidden_pairs ← iterate (default (JList []) (obj_get rule_data "pairs"));
  for_each forbidden_pairs (fun cs pair =>
    match pair with
    | JObj o =>
        let assignment_id := default JNull (obj_get o "assignment_id") in
        let forbidden_day := default JNull (obj_get o "day") in
        let forbidden_slot := default JNull (obj_get o "slot") in
        if truthy assignment_id
           && negb (is_None forbidden_day)
           && negb (is_None forbidden_slot)
        then
          for_each (self_classrooms sn) (fun cs c =>
            a ← hashable_int assignment_id;
            d ← hashable_int forbidden_day;
            s ← hashable_int forbidden_slot;
            match a, d, s with
            | Some a, Some d, Some s =>
                let k := (a, classroom_id c, d, s) in
                Some (if has_key vars k then cs ++ [VarZero (schedule_var k)]
                      else cs)
            | _, _, _ => Some cs
            end) cs
        else Some cs
    | _ => None
    end) cs.

(** Objective block 1: one free gap indicator per (teacher, day, slot) whose
    three variable lists are non-empty. The sums [has_current], [has_next]
    and [has_gap_slot] are computed and dropped: no constraint mentions the
    indicator. *)
Definition gap_terms (vars : list key) (sn : snapshot) : list (var * Z) :=
  let gap_penalty := 10 in
  teacher ← self_teachers sn; day ← days;
  slot ← range 0 (num_slots_per_day - 2);
  let teacher_vars_current := teacher_slot_vars vars sn teacher day slot in
  let teacher_vars_next := teacher_slot_vars vars sn teacher day (slot + 2) in
  let teacher_vars_gap := teacher_slot_vars vars sn teacher day (slot + 1) in
  match teacher_vars_current, teacher_vars_next, teacher_vars_gap with
  | _ :: _, _ :: _, _ :: _ =>
      [(gap_var (teacher_id teacher) day slot, gap_penalty)]
  | _, _, _ => []
  end.

(** Objective block 2: first and last slot of the day. *)
Definition time_preference_terms (vars : list key) (sn : snapshot)
  : list (var * Z) :=
  let time_preference_penalty := 5 in
  a ← self_assignments sn; c ← self_classrooms sn; day ← days;
  slot ← [0; num_slots_per_day - 1];
  let k := (assignment_id a, classroom_id c, day, slot) in
  if has_key vars k then [(schedule_var k, time_preference_penalty)] else [].

(** [add_soft_constraints]: the hard constraints added by the rules, and the
    objective. *)
Definition add_soft_constraints (vars : list key) (sn : snapshot)
  : option (list constraint * option (list (var * Z))) :=
  let objective_terms := gap_terms vars sn ++ time_preference_terms vars sn in
  '(cs, objective_terms) ←
    for_each (self_rules sn) (fun '(cs, terms) rule =>
      if String.eqb (rule_type rule) "lunch_window"
      then terms' ← _add_lunch_window_constraint vars sn (rule_data rule) terms;
           Some (cs, terms')
      else if String.eqb (rule_type rule) "gap_preference"
      then Some (cs, _add_gap_preference_constraint (rule_data rule) terms)
      else if String.eqb (rule_type rule) "forbidden_time_pairs"
      then cs' ← _add_forbidden_time_pairs_constraint vars sn (rule_data rule) cs;
           Some (cs', terms)
      else Some (cs, terms)) ([], objective_terms);
  Some (cs, match objective_terms with [] => None | _ => Some objective_terms end).

(** The model after [create_decision_variables], [add_hard_constraints] and
    [add_soft_constraints]. *)
Definition build_model (sn : snapshot) : option (list key * cp_model) :=
  vars ← create_decision_variables sn;
  hard ← add_hard_constraints vars sn;
  '(soft, obj) ← add_soft_constraints vars sn;
  Some (vars, {| constraints := hard ++ soft; objective := obj |}).

(** *** Meaning of a model *)

Definition valuation : Type := var -> bool.

Definition value (v : valuation) (x : var) : Z := if v x then 1 else 0.

Definition sum_vars (v : valuation) (xs : list var) : Z :=
  foldr (fun x acc => value v x + acc) 0 xs.

Definition holds (v : valuation) (c : constraint) : bool :=
  match c with
  | SumEq xs k => sum_vars v xs =? k
  | SumLe xs k => sum_vars v xs <=? k
  | VarZero x => value v x =? 0
  | VarEq x y => value v x =? value v y
  end.

Definition feasible (v : valuation) (m : cp_model) : bool :=
  forallb (holds v) (constraints m).

Definition cost_terms (v : valuation) (terms : list (var * Z)) : Z :=
  foldr (fun t acc => value v t.1 * t.2 + acc) 0 terms.

Definition cost (v : valuation) (m : cp_model) : Z :=
  cost_terms v (default [] (objective m)).

(** What [self.solver.Solve(self.model)] leaves behind: the status, the
    values read by [self.solver.Value] and the result of
    [json.dumps(self.solver_stats)] ([None] when it raises). *)
Record solver_result := mk_result {
  res_status : solver_status;
  res_value : valuation;
  res_stats : option string
}.

Definition solver : Type := cp_model -> solver_result.


(** A solver that answers as CP-SAT is documented to: a reported solution
    satisfies the constraints, an optimal one has least cost, and
    infeasibility is reported only for a model without solution. *)
Definition sound (solve : solver) : Prop :=
  forall m,
    (res_status (solve m) = OPTIMAL \/ res_status (solve m) = FEASIBLE ->
     feasible (res_value (solve m)) m = true)
    /\ (res_status (solve m) = OPTIMAL ->
        forall v, feasible v m = true -> cost (res_value (solve m)) m <= cost v m)
    /\ (res_status (solve m) = INFEASIBLE -> forall v, feasible v m = false).

(** [success = status in [OPTIMAL, FEASIBLE]]. *)
Definition success (st : solver_status) : bool :=
  match st with OPTIMAL | FEASIBLE => true | _ => false end.

(** A dict of [extract_solution]; [section_code] and [teacher_name], read
    through the ORM objects for display only, are left out. *)
Record scheduled := mk_scheduled {
  sch_assignment_id : Z;
  sch_classroom_id : Z;
  sch_day_of_week : Z;
  sch_start_time : time;
  sch_end_time : time;
  sch_course_name : string;
  sch_room_id : string
}.

Definition extract_solution (vars : list key) (sn : snapshot) (v : valuation)
  : option (list scheduled) :=
  for_each vars (fun scheduled_slots k =>
    if v (schedule_var k)
    then
      let '(assignment_id, classroom_id, day, slot) := k in
      assignment ← next_assignment sn assignment_id;
      classroom ← next_classroom sn classroom_id;
      course ← next_course sn (assignment_course_id assignment);
      let start_time := _slot_to_time slot in
      let end_time := _add_minutes_to_time start_time (duration_minutes course) in
      Some (scheduled_slots ++
            [{| sch_assignment_id := assignment_id;
                sch_classroom_id := classroom_id;
                sch_day_of_week := day;
                sch_start_time := start_time;
                sch_end_time := end_time;
                sch_course_name := course_name course;
                sch_room_id := room_id classroom |}])
    else Some scheduled_slots) [].

(** The rows added by [save_solution], numbered from the sequence. *)
Fixpoint new_rows (department : string) (timetable : Z) (next : Z)
    (l : list scheduled) : list ScheduledSlot :=
  match l with
  | [] => []
  | slot_data :: l' =>
      {| slot_id := next;
         dept_timetable_id := timetable;
         slot_assignment_id := sch_assignment_id slot_data;
         slot_classroom_id := sch_classroom_id slot_data;
         day_of_week := sch_day_of_week slot_data;
         start_time := sch_start_time slot_data;
         end_time := sch_end_time slot_data;
         slot_department := department;
         is_global_slot := false |} :: new_rows department timetable (next + 1) l'
  end.

(** An attribute update on [query(DeptTimetable).filter(id == tid).first()],
    skipped when there is no such row. *)
Definition update_timetable (tid : Z) (f : DeptTimetable -> DeptTimetable)
    (db : Storage) : Storage :=
  with_dept_timetables
    ((fun t => if bool_decide (timetable_id t = tid) then f t else t)
       <$> dept_timetables db) db.

Definition set_status (st : string) (log : option generation_log_text)
    (stats : option string) (now : Z) (t : DeptTimetable) : DeptTimetable :=
  {| timetable_id := timetable_id t; timetable_name := timetable_name t;
     timetable_department := timetable_department t;
     timetable_user_id := timetable_user_id t;
     status := st; generation_log := log; solver_stats := stats;
     updated_at := now |}.

(** [save_solution]: one transaction. [json.dumps] is called only under
    [if timetable:]; when it raises, the transaction is rolled back and
    [False] is returned. Errors of the store are not represented (a store
    that enforces the foreign key of [dept_timetable_id] refuses the commit
    of rows for an id without timetable). *)
Definition save_solution (department : string) (tid : Z)
    (scheduled_slots0 : list scheduled) (stats : option string) (now : Z)
    (db : Storage) : bool * Storage :=
  let kept := filter (fun r => dept_timetable_id r <> tid) (scheduled_slots db) in
  let added := new_rows department tid (slot_seq db) scheduled_slots0 in
  let db' :=
    with_scheduled_slots (kept ++ added)
      (slot_seq db + len scheduled_slots0) db in
  match List.find (fun t => bool_decide (timetable_id t = tid))
                  (dept_timetables db) with
  | Some _ =>
      match stats with
      | None => (false, db)
      | Some dumped =>
          (true,
           update_timetable tid
             (fun t => set_status "completed" (generation_log t) (Some dumped)
                         now t)
             db')
      end
  | None => (true, db')
  end.

End TimetableScheduler.

(** ** [scheduler.py]: [generate_timetable] *)

Import TimetableScheduler.

(** The message returned to the caller, by its cause. *)
Inductive generation_message :=
| Generated_successfully (n : Z)
| Solution_found_but_failed_to_save
| Failed_to_generate (st : solver_status)
| Timetable_generation_failed.

(** The exception handler of [generate_timetable]. *)
Definition generation_failed (tid : Z) (now : Z) (db : Storage)
  : bool * generation_message * Storage :=
  (false, Timetable_generation_failed,
   update_timetable tid
     (fun t => set_status "failed" (Some Generation_error) (solver_stats t) now t)
     db).

(** The first transaction of [generate_timetable]: the status becomes
    ['generating'], with no test of what it was. *)
Definition mark_generating (tid : Z) (now : Z) (db : Storage) : Storage :=
  update_timetable tid
    (fun t => set_status "generating" (generation_log t) (solver_stats t) now t)
    db.

Definition generate_timetable (solve : solver) (now : Z)
    (department : string) (user_id : Z) (tid : Z) (db : Storage)
  : bool * generation_message * Storage :=
  let db := mark_generating tid now db in
  let sn := load_data db department user_id in
  match build_model sn with
  | None => generation_failed tid now db
  | Some (vars, model) =>
      let r := solve model in
      if success (res_status r)
      then
        match extract_solution vars sn (res_value r) with
        | None => generation_failed tid now db
        | Some scheduled_slots0 =>
            let '(save_success, db') :=
              save_solution department tid scheduled_slots0 (res_stats r) now db in
            if save_success
            then (true, Generated_successfully (len scheduled_slots0), db')
            else (false, Solution_found_but_failed_to_save, db')
        end
      else
        match List.find (fun t => bool_decide (timetable_id t = tid))
                        (dept_timetables db) with
        | Some _ =>
            match res_stats r with
            | None => generation_failed tid now db
            | Some dumped =>
                (false, Failed_to_generate (res_status r),
                 update_timetable tid
                   (set_status "failed" (Some (Solver_failed (res_status r)))
                               (Some dumped) now)
                   db)
            end
        | None => (false, Failed_to_generate (res_status r), db)
        end
  end.

(** ** [global_scheduler.py]: class [GlobalScheduler] *)

Module GlobalScheduler.

(** A value of [shared_resources]. *)
Record resource_info := mk_resource {
  res_room_id : string;
  res_room_type : RoomType;
  res_capacity : Z;
  res_departments : list string
}.

#[global] Instance resource_info_eq_dec : EqDecision resource_info.
Proof. solve_decision. Defined.

(** [(classroom_id, day, slot)]. *)
Definition cell_key : Type := Z * Z * Z.

(** The coordinator's in-memory state. *)
Record t := mk_scheduler {
  global_slots : gmap cell_key string;
  department_timetables : gmap string (list DeptTimetable);
  shared_resources : gmap Z resource_info
}.

(** [__init__]. *)
Definition init : t :=
  {| global_slots := ∅; department_timetables := ∅; shared_resources := ∅ |}.

(** [(slot.classroom_id, slot.day_of_week, self._time_to_slot(slot.start_time))]. *)
Definition cell (slot : ScheduledSlot) : cell_key :=
  (slot_classroom_id slot, day_of_week slot, _time_to_slot (start_time slot)).

Definition load_global_state (self : t) (db : Storage) : t :=
  let global_slots0 :=
    filter (fun s => is_global_slot s = true) (scheduled_slots db) in
  let timetables :=
    filter (fun tt => status tt = "completed") (dept_timetables db) in
  let shared_classrooms :=
    filter (fun c => classroom_department c = "Shared") (classrooms db) in
  {| global_slots :=
       foldl (fun g slot => <[cell slot := slot_department slot]> g)
             (global_slots self) global_slots0;
     department_timetables :=
       foldl (fun reg tt =>
                let d := timetable_department tt in
                <[d := default [] (reg !! d) ++ [tt]]> reg)
             (department_timetables self) timetables;
     shared_resources :=
       foldl (fun sh c =>
                <[classroom_id c :=
                    {| res_room_id := room_id c;
                       res_room_type := classroom_room_type c;
                       res_capacity := capacity c;
                       res_departments := [] |}]> sh)
             (shared_resources self) shared_classrooms |}.

Definition with_global_slots (g : gmap cell_key string) (self : t) : t :=
  {| global_slots := g;
     department_timetables := department_timetables self;
     shared_resources := shared_resources self |}.

(** [query(ScheduledSlot).filter(where).update({'is_global_slot': b})]. *)
Definition update_is_global (where_ : ScheduledSlot -> bool) (b : bool)
    (db : Storage) : Storage :=
  with_scheduled_slots
    ((fun r => if where_ r then set_global b r else r) <$> scheduled_slots db)
    (slot_seq db) db.

(** [and_(dept_timetable_id == tid, id.in_(slot_ids))]. *)
Definition named_slot (tid : Z) (slot_ids : list Z) (r : ScheduledSlot) : bool :=
  bool_decide (dept_timetable_id r = tid) && bool_decide (slot_id r ∈ slot_ids).

(** [and_(dept_timetable_id == tid, is_global_slot == True)]. *)
Definition global_slot_of (tid : Z) (r : ScheduledSlot) : bool :=
  bool_decide (dept_timetable_id r = tid) && is_global_slot r.

(** [reserve_global_slots]; errors of the store are not represented, so the
    [except] branch is never taken. *)
Definition reserve_global_slots (self : t) (db : Storage)
    (department : string) (tid : Z) (slot_ids : list Z) : bool * t * Storage :=
  let db' := update_is_global (named_slot tid slot_ids) true db in
  let reserved_slots :=
    filter (fun r => named_slot tid slot_ids r && is_global_slot r = true)
           (scheduled_slots db') in
  let g := foldl (fun g slot => <[cell slot := department]> g)
                 (global_slots self) reserved_slots in
  (true, with_global_slots g self, db').

(** [release_global_slots]. *)
Definition release_global_slots (self : t) (db : Storage)
    (department : string) (tid : Z) : bool * t * Storage :=
  let slots_to_release :=
    filter (fun r => global_slot_of tid r = true) (scheduled_slots db) in
  let db' := update_is_global (global_slot_of tid) false db in
  let g := foldl (fun g slot =>
                    if bool_decide (g !! cell slot = Some department)
                    then delete (cell slot) g else g)
                 (global_slots self) slots_to_release in
  (true, with_global_slots g self, db').

(** The cells [_attempt_reschedule] tries, in order, with those it rejects
    left out. *)
Definition free_cells (self : t) (teacher : Teacher)
    (matrix : list (list bool)) (classroom : Z) : list (Z * Z) :=
  day ← range 0 5;
  if bool_decide (day ∈ teacher_days_off teacher) then []
  else if bool_decide (day < len matrix)
  then
    match index matrix day with
    | Some day_availability =>
        time_slot ← range 0 (len day_availability);
        match index day_availability time_slot with
        | Some true =>
            if bool_decide (global_slots self !! (classroom, day, time_slot) = None)
            then [(day, time_slot)] else []
        | _ => []
        end
    | None => []
    end
  else [].

(** [_attempt_reschedule]: the new row and the store once the session is
    flushed ([db.delete(slot)], [db.add(new_slot)]). *)
Definition _attempt_reschedule (self : t) (db : Storage) (slot : ScheduledSlot)
  : option (ScheduledSlot * Storage) :=
  assignment ←
    List.find (fun a => bool_decide (assignment_id a = slot_assignment_id slot))
              (assignments db);
  teacher ←
    List.find (fun te => bool_decide (teacher_id te = assignment_teacher_id assignment))
              (teachers db);
  matrix ← availability teacher;
  '(day, time_slot) ← head (free_cells self teacher matrix (slot_classroom_id slot));
  let new_slot :=
    {| slot_id := slot_seq db;
       dept_timetable_id := dept_timetable_id slot;
       slot_assignment_id := slot_assignment_id slot;
       slot_classroom_id := slot_classroom_id slot;
       day_of_week := day;
       start_time := _slot_to_time time_slot;
       end_time := _slot_to_time (time_slot + 1);
       slot_department := slot_department slot;
       is_global_slot := is_global_slot slot |} in
  Some (new_slot,
        with_scheduled_slots
          (filter (fun r => slot_id r <> slot_id slot) (scheduled_slots db)
             ++ [new_slot])
          (slot_seq db + 1) db).

(** [validate_global_consistency]. *)
Definition validate_global_consistency (self : t) (db : Storage)
  : bool * list string :=
  let global_slots_in_db :=
    filter (fun s => is_global_slot s = true) (scheduled_slots db) in
  let db_slot_keys : gset cell_key := list_to_set (cell <$> global_slots_in_db) in
  let memory_slot_keys : gset cell_key := dom (global_slots self) in
  let orphaned_in_memory := memory_slot_keys ∖ db_slot_keys in
  let orphaned_in_db := db_slot_keys ∖ memory_slot_keys in
  let errors1 :=
    if bool_decide (orphaned_in_memory = ∅) then []
    else ["Found " +:+ pretty (size orphaned_in_memory)
            +:+ " orphaned slots in memory"] in
  let errors2 :=
    if bool_decide (orphaned_in_db = ∅) then []
    else ["Found " +:+ pretty (size orphaned_in_db)
            +:+ " orphaned slots in database"] in
  let slot_count : gmap cell_key Z :=
    foldl (fun m slot => <[cell slot := default 0 (m !! cell slot) + 1]> m)
          ∅ global_slots_in_db in
  let double_booked := filter (fun p => 1 < p.2) (map_to_list slot_count) in
  let errors3 :=
    match double_booked with
    | [] => []
    | _ => ["Found " +:+ pretty (length double_booked) +:+ " double-booked slots"]
    end in
  let errors := errors1 ++ errors2 ++ errors3 in
  (bool_decide (len errors = 0), errors).

(** [validate_global_state()] on the process-wide instance. *)
Definition validate_global_state := validate_global_consistency.

(** A request to the coordinator, and a run of requests. *)
Inductive request :=
| Reserve (department : string) (tid : Z) (slot_ids : list Z)
| Release (department : string) (tid : Z).

Definition request_department (r : request) : string :=
  match r with Reserve d _ _ | Release d _ => d end.

Definition request_timetable (r : request) : Z :=
  match r with Reserve _ tid _ | Release _ tid => tid end.

Definition serve (st : t * Storage) (r : request) : t * Storage :=
  match r with
  | Reserve d tid ids =>
      let '(_, g, db) := reserve_global_slots st.1 st.2 d tid ids in (g, db)
  | Release d tid =>
      let '(_, g, db) := release_global_slots st.1 st.2 d tid in (g, db)
  end.

Definition serve_all (st : t * Storage) (rs : list request) : t * Storage :=
  foldl serve st rs.

End GlobalScheduler.

(** ** [schemas.py]: [RuleCreate], and the route that stores rules *)

Module Schemas.

Record RuleCreate := mk_RuleCreate {
  rc_name : string;
  rc_rule_type : string;
  rc_rule_data : list (string * json)
}.

(** [pattern="^(lunch_window|max_lectures_per_day|gap_preference|forbidden_time_pairs)$"]. *)
Definition rule_type_pattern (s : string) : bool :=
  String.eqb s "lunch_window" || String.eqb s "max_lectures_per_day"
  || String.eqb s "gap_preference" || String.eqb s "forbidden_time_pairs".

(** Validation of one [RuleCreate] from a request body; [None] is a
    [ValidationError]. The three declared fields are all that is checked:
    [name] by its length in characters, [rule_type] by pattern, [rule_data]
    as a dict with string keys and values of any kind. *)
Definition validate_RuleCreate (raw : json) : option RuleCreate :=
  match raw with
  | JObj o =>
      match obj_get o "name", obj_get o "rule_type", obj_get o "rule_data" with
      | Some (JStr name), Some (JStr rule_type), Some (JObj rule_data) =>
          if bool_decide (2 <= str_len name <= 100)
             && rule_type_pattern rule_type
          then Some (mk_RuleCreate name rule_type rule_data)
          else None
      | _, _, _ => None
      end
  | _ => None
  end.

(** [Step6RulesRequest] built from a dict: the rules under ["rules"], each
    validated as a [RuleCreate]. *)
Definition validate_Step6RulesRequest (data : list (string * json))
  : option (list RuleCreate) :=
  match obj_get data "rules" with
  | Some (JList l) => mapM validate_RuleCreate l
  | _ => None
  end.

(** [create_rules_step6] for a caller of the given department: the HTTP
    status and the store afterwards. An empty body is refused with 400, a
    body that is not a dict makes the call of the schema raise (500), a
    body that fails validation is refused with 400. *)
Definition create_rules_step6 (department : string) (user_id : Z)
    (data : json) (db : Storage) : Z * Storage :=
  if negb (truthy data) then (400, db)
  else
    match data with
    | JObj o =>
        match validate_Step6RulesRequest o with
        | None => (400, db)
        | Some rules_request =>
            (201,
             foldl (fun db rule_data0 =>
                      let existing :=
                        List.find
                          (fun r => bool_decide (rule_name r = rc_name rule_data0)
                                    && bool_decide (rule_department r = department)
                                    && bool_decide (rule_user_id r = user_id))
                          (rules db) in
                      match existing with
                      | Some _ => db
                      | None =>
                          with_rules
                            (rules db ++
                               [{| rule_id := rule_seq db;
                                   rule_name := rc_name rule_data0;
                                   rule_type := rc_rule_type rule_data0;
                                   rule_data := rc_rule_data rule_data0;
                                   rule_department := department;
                                   rule_user_id := user_id |}])
                            (rule_seq db + 1) db
                      end) db rules_request)
        end
    | _ => (500, db)
    end.

End Schemas.

(** ** The room-type table of the specification *)

(** The classroom types a course of room type [c] may occupy. *)
Definition acceptable_rooms (c : RoomType) : list RoomType :=
  match c with
  | LECTURE => [LECTURE; CONFERENCE]
  | LAB => [LAB; COMPUTER_LAB]
  | COMPUTER_LAB => [COMPUTER_LAB]
  | CONFERENCE => [CONFERENCE]
  end.

(** ** Abbreviations used in the statements *)

Import TimetableScheduler.

(** Where a key of [schedule_vars] comes from: an assignment and a classroom
    of the snapshot whose room types are compatible, and a cell of the grid. *)
Definition var_origin (sn : snapshot) (k : key) : Prop :=
  exists a c course,
    a ∈ self_assignments sn /\ c ∈ self_classrooms sn
    /\ next_course sn (assignment_course_id a) = Some course
    /\ _is_room_compatible (course_room_type course) (classroom_room_type c) = true
    /\ k.1.1.1 = assignment_id a /\ k.1.1.2 = classroom_id c
    /\ k.1.2 ∈ days /\ k.2 ∈ slots.

(** ** A one-teacher department

    One lecture course of one weekly session, one lecture room, one teacher
    without availability matrix whose day off is Monday. *)

Definition cs_teacher : Teacher :=
  {| teacher_id := 1; teacher_name := "Turing"; teacher_department := "CS";
     teacher_user_id := 7; max_hours_per_day := 8;
     availability := None; days_off := Some [0] |}.

Definition cs_course : Course :=
  {| course_id := 1; course_name := "Algorithms"; course_type := CT_LECTURE;
     duration_minutes := 55; sessions_per_week := 1;
     course_room_type := LECTURE;
     course_department := "CS"; course_user_id := 7 |}.

Definition cs_room : Classroom :=
  {| classroom_id := 1; room_id := "R1"; classroom_room_type := LECTURE;
     capacity := 30; classroom_department := "CS"; classroom_user_id := 7 |}.

Definition cs_assignment : Assignment :=
  {| assignment_id := 1; assignment_course_id := 1; assignment_section_id := 1;
     assignment_teacher_id := 1; group_id := None;
     assignment_department := "CS"; assignment_user_id := 7 |}.

Definition cs_timetable (st : string) : DeptTimetable :=
  {| timetable_id := 1; timetable_name := "Autumn";
     timetable_department := "CS"; timetable_user_id := 7;
     status := st; generation_log := None; solver_stats := None;
     updated_at := 0 |}.

Definition cs_db : Storage :=
  {| teachers := [cs_teacher]; courses := [cs_course];
     classrooms := [cs_room]; assignments := [cs_assignment]; rules := [];
     dept_timetables := [cs_timetable "draft"]; scheduled_slots := [];
     slot_seq := 1; rule_seq := 1 |}.

Definition cs_snapshot : snapshot := load_data cs_db "CS" 7.

Definition cs_vars : list key :=
  default [] (create_decision_variables cs_snapshot).

(** The session on Monday, second slot. *)
Definition monday_valuation : valuation :=
  fun x => match x with
           | schedule_var k => bool_decide (k = (1, 1, 0, 1))
           | _ => false
           end.

Definition monday_slots : list scheduled :=
  default [] (extract_solution cs_vars cs_snapshot monday_valuation).

(** ** A department whose course lasts ninety minutes

    The teacher is available in every cell; the slot to move is the session
    of Monday, fourth slot, 10:45 to 12:15. *)

Definition math_teacher : Teacher :=
  {| teacher_id := 2; teacher_name := "Noether"; teacher_department := "Mathematics";
     teacher_user_id := 8; max_hours_per_day := 8;
     availability := Some (replicate 5 (replicate 10 true)); days_off := None |}.

Definition math_course : Course :=
  {| course_id := 2; course_name := "Algebra"; course_type := CT_LECTURE;
     duration_minutes := 90; sessions_per_week := 1;
     course_room_type := LECTURE;
     course_department := "Mathematics"; course_user_id := 8 |}.

Definition math_assignment : Assignment :=
  {| assignment_id := 2; assignment_course_id := 2; assignment_section_id := 2;
     assignment_teacher_id := 2; group_id := None;
     assignment_department := "Mathematics"; assignment_user_id := 8 |}.

Definition math_slot : ScheduledSlot :=
  {| slot_id := 5; dept_timetable_id := 2; slot_assignment_id := 2;
     slot_classroom_id := 9; day_of_week := 0;
     start_time := mk_time 10 45; end_time := mk_time 12 15;
     slot_department := "Mathematics"; is_global_slot := true |}.

Definition math_db : Storage :=
  {| teachers := [math_teacher]; courses := [math_course]; classrooms := [];
     assignments := [math_assignment]; rules := []; dept_timetables := [];
     scheduled_slots := [math_slot]; slot_seq := 6; rule_seq := 1 |}.

(** The row [_attempt_reschedule] creates for [math_slot]: Monday, first
    slot, 08:00 to 08:55. *)
Definition math_slot_moved : ScheduledSlot :=
  {| slot_id := 6; dept_timetable_id := 2; slot_assignment_id := 2;
     slot_classroom_id := 9; day_of_week := 0;
     start_time := mk_time 8 0; end_time := mk_time 8 55;
     slot_department := "Mathematics"; is_global_slot := true |}.

(** A solver that answers every model with the given status and values; as
    for every result of [solve], its statistics cannot be dumped. *)
Definition answering (st : solver_status) (v : valuation) : solver :=
  fun _ => {| res_status := st; res_value := v; res_stats := None |}.

(** The status of the timetable of the given id, as
    [query(DeptTimetable).filter(id == tid).first()] reads it. *)
Definition status_of (tid : Z) (db : Storage) : option string :=
  status <$> List.find (fun t => bool_decide (timetable_id t = tid))
                       (dept_timetables db).

(** The rows of [scheduled_slots] for one assignment. *)
Definition slots_of_assignment (aid : Z) (db : Storage) : list ScheduledSlot :=
  filter (fun r => slot_assignment_id r = aid) (scheduled_slots db).

Definition cs_model : cp_model :=
  default (mk_model [] None) (snd <$> build_model cs_snapshot).

(** ** A department without a room for its course

    The course needs a lab; the only classroom is a lecture room. *)

Definition physics_teacher : Teacher :=
  {| teacher_id := 3; teacher_name := "Curie"; teacher_department := "Physics";
     teacher_user_id := 9; max_hours_per_day := 8;
     availability := None; days_off := None |}.

Definition physics_course : Course :=
  {| course_id := 3; course_name := "Optics lab"; course_type := CT_LAB;
     duration_minutes := 55; sessions_per_week := 1;
     course_room_type := LAB;
     course_department := "Physics"; course_user_id := 9 |}.

Definition physics_room : Classroom :=
  {| classroom_id := 3; room_id := "P1"; classroom_room_type := LECTURE;
     capacity := 40; classroom_department := "Physics"; classroom_user_id := 9 |}.

Definition physics_assignment : Assignment :=
  {| assignment_id := 3; assignment_course_id := 3; assignment_section_id := 3;
     assignment_teacher_id := 3; group_id := None;
     assignment_department := "Physics"; assignment_user_id := 9 |}.

Definition physics_db : Storage :=
  {| teachers := [physics_teacher]; courses := [physics_course];
     classrooms := [physics_room]; assignments := [physics_assignment];
     rules := [];
     dept_timetables :=
       [{| timetable_id := 3; timetable_name := "Autumn";
           timetable_department := "Physics"; timetable_user_id := 9;
           status := "draft"; generation_log := None; solver_stats := None;
           updated_at := 0 |}];
     scheduled_slots := []; slot_seq := 1; rule_seq := 1 |}.

(** ** A department whose course meets twice a week *)

Definition eng_teacher : Teacher :=
  {| teacher_id := 4; teacher_name := "Lovelace"; teacher_department := "Engineering";
     teacher_user_id := 10; max_hours_per_day := 8;
     availability := None; days_off := None |}.

Definition eng_course : Course :=
  {| course_id := 4; course_name := "Statics"; course_type := CT_LECTURE;
     duration_minutes := 55; sessions_per_week := 2;
     course_room_type := LECTURE;
     course_department := "Engineering"; course_user_id := 10 |}.

Definition eng_room : Classroom :=
  {| classroom_id := 4; room_id := "E1"; classroom_room_type := LECTURE;
     capacity := 60; classroom_department := "Engineering";
     classroom_user_id := 10 |}.

Definition eng_assignment : Assignment :=
  {| assignment_id := 4; assignment_course_id := 4; assignment_section_id := 4;
     assignment_teacher_id := 4; group_id := None;
     assignment_department := "Engineering"; assignment_user_id := 10 |}.

Definition eng_snapshot : snapshot :=
  {| self_assignments := [eng_assignment]; self_teachers := [eng_teacher];
     self_courses := [eng_course]; self_classrooms := [eng_room];
     self_rules := [] |}.

Definition eng_vars : list key :=
  default [] (create_decision_variables eng_snapshot).

Definition eng_model : cp_model :=
  default (mk_model [] None) (snd <$> build_model eng_snapshot).

(** Monday, slots 1 and 3: the teacher is idle at slot 2. *)
Definition gapped : valuation :=
  fun x => match x with
           | schedule_var k =>
               bool_decide (k = (4, 4, 0, 1)) || bool_decide (k = (4, 4, 0, 3))
           | _ => false
           end.

(** Monday, slots 1 and 2. *)
Definition compact : valuation :=
  fun x => match x with
           | schedule_var k =>
               bool_decide (k = (4, 4, 0, 1)) || bool_decide (k = (4, 4, 0, 2))
           | _ => false
           end.

(** ** Teacher gaps, as the specification counts them (O3) *)

(** Teacher [t] is busy at (d, s): some variable placing one of its
    assignments there has value 1. *)
Definition teacher_busy (vars : list key) (sn : snapshot) (v : valuation)
    (teacher : Teacher) (d s : Z) : bool :=
  existsb v (teacher_slot_vars vars sn teacher d s).

(** The number of (t, d, s) with [s <= S - 3] where [t] is busy at [s] and
    [s + 2] and idle at [s + 1]. *)
Definition teacher_gaps (vars : list key) (sn : snapshot) (v : valuation) : Z :=
  len (teacher ← self_teachers sn; d ← days;
       s ← range 0 (num_slots_per_day - 2);
       if teacher_busy vars sn v teacher d s
          && teacher_busy vars sn v teacher d (s + 2)
          && negb (teacher_busy vars sn v teacher d (s + 1))
       then [(teacher_id teacher, d, s)] else []).

(** ** A timetable already being generated *)



(** ** A lunch window whose start comes after its end *)

Definition inverted_lunch_window : json :=
  JObj [("name", JStr "Lunch");
        ("rule_type", JStr "lunch_window");
        ("rule_data", JObj [("start_slot", JInt 6); ("end_slot", JInt 4)])].

Definition inverted_lunch_rule : Rule :=
  {| rule_id := 1; rule_name := "Lunch"; rule_type := "lunch_window";
     rule_data := [("start_slot", JInt 6); ("end_slot", JInt 4)];
     rule_department := "CS"; rule_user_id := 7 |}.

(** ** A store with one completed timetable, and a coordinator holding a
    reservation that the store does not have *)

Definition completed_db : Storage :=
  with_dept_timetables [cs_timetable "completed"] cs_db.

Definition stale_scheduler : GlobalScheduler.t :=
  GlobalScheduler.with_global_slots {[ (1, 0, 3) := "CS" ]} GlobalScheduler.init.

(** ** Consistency of the coordinator with the store *)

(** The index holds exactly the cells of the global rows, each under the
    department of its row. *)
Definition consistent (self : GlobalScheduler.t) (db : Storage) : Prop :=
  forall k d,
    GlobalScheduler.global_slots self !! k = Some d
    <-> exists r, r ∈ scheduled_slots db /\ is_global_slot r = true
                  /\ GlobalScheduler.cell r = k /\ slot_department r = d.

(** The row is named by one of the reserve requests. *)
Definition named_by (rs : list GlobalScheduler.request) (r : ScheduledSlot)
  : bool :=
  existsb (fun q => match q with
                    | GlobalScheduler.Reserve _ tid ids =>
                        GlobalScheduler.named_slot tid ids r
                    | GlobalScheduler.Release _ _ => false
                    end) rs.

(** The rows that are reserved or that the requests will reserve. *)
Definition reserved_rows (rs : list GlobalScheduler.request) (db : Storage)
  : list ScheduledSlot :=
  filter (fun r => is_global_slot r || named_by rs r = true) (scheduled_slots db).

(** No two of these rows occupy the same (classroom, day, slot). *)
Definition distinct_cells (rs : list GlobalScheduler.request) (db : Storage)
  : Prop :=
  NoDup (GlobalScheduler.cell <$> reserved_rows rs db).

(** Every request names the department of the rows of its timetable. *)
Definition own_department (rs : list GlobalScheduler.request) (db : Storage)
  : Prop :=
  forall q r,
    q ∈ rs -> r ∈ scheduled_slots db ->
    dept_timetable_id r = GlobalScheduler.request_timetable q ->
    slot_department r = GlobalScheduler.request_department q.

(** ** Two timetables of one department using the same cell *)

Definition monday_first (id tid : Z) : ScheduledSlot :=
  {| slot_id := id; dept_timetable_id := tid; slot_assignment_id := 1;
     slot_classroom_id := 1; day_of_week := 0;
     start_time := mk_time 8 0; end_time := mk_time 8 55;
     slot_department := "CS"; is_global_slot := false |}.

Definition two_timetables_db : Storage :=
  with_scheduled_slots [monday_first 1 1; monday_first 2 2] 3 cs_db.

(** Requests on the first of the two timetables only. *)
Definition reserve_release_reserve : list GlobalScheduler.request :=
  [GlobalScheduler.Reserve "CS" 1 [1]; GlobalScheduler.Release "CS" 1;
   GlobalScheduler.Reserve "CS" 1 [1]].

(** ** The variables a constraint mentions *)

Definition constraint_vars (c : constraint) : list var :=
  match c with
  | SumEq vs _ | SumLe vs _ => vs
  | VarZero v => [v]
  | VarEq v w => [v; w]
  end.

Definition is_schedule_var (x : var) : bool :=
  match x with schedule_var _ => true | _ => false end.

(** The same schedule with every gap indicator at 0. *)
Definition without_gaps (v : valuation) : valuation :=
  fun x => match x with gap_var _ _ _ => false | _ => v x end.

(** Every variable of every constraint is a schedule variable. *)
Definition schedule_only (cs : list constraint) : Prop :=
  forall c x, c ∈ cs -> x ∈ constraint_vars c -> is_schedule_var x = true.

(** Every term of the objective is on a schedule variable or has a
    non-negative weight. *)
Definition gap_weights (terms : list (var * Z)) : Prop :=
  forall t, t ∈ terms -> is_schedule_var t.1 = true \/ 0 <= t.2.

(** ** The dict built for one key of [schedule_vars] *)

(** The body of the loop of [extract_solution] for a key whose variable has
    value 1. *)
Definition scheduled_of (sn : snapshot) (k : key) : option scheduled :=
  let '(assignment_id, classroom_id, day, slot) := k in
  assignment ← next_assignment sn assignment_id;
  classroom ← next_classroom sn classroom_id;
  course ← next_course sn (assignment_course_id assignment);
  let start_time := _slot_to_time slot in
  let end_time := _add_minutes_to_time start_time (duration_minutes course) in
  Some {| sch_assignment_id := assignment_id;
          sch_classroom_id := classroom_id;
          sch_day_of_week := day;
          sch_start_time := start_time;
          sch_end_time := end_time;
          sch_course_name := course_name course;
          sch_room_id := room_id classroom |}.

(** The keys whose variable has value 1, in the order of the dict. *)
Definition chosen (vars : list key) (v : valuation) : list key :=
  filter (fun k => v (schedule_var k) = true) vars.

(** ** A department whose teacher has an availability matrix

    The teacher is unavailable on Monday, has Friday off, and teaches at
    most one hour a day; the course meets once a week. *)

Definition chem_teacher : Teacher :=
  {| teacher_id := 5; teacher_name := "Franklin"; teacher_department := "Chemistry";
     teacher_user_id := 11; max_hours_per_day := 1;
     availability := Some (replicate 10 false :: replicate 4 (replicate 10 true));
     days_off := Some [4] |}.

Definition chem_course : Course :=
  {| course_id := 5; course_name := "Kinetics"; course_type := CT_LECTURE;
     duration_minutes := 55; sessions_per_week := 1;
     course_room_type := LECTURE;
     course_department := "Chemistry"; course_user_id := 11 |}.

Definition chem_room : Classroom :=
  {| classroom_id := 5; room_id := "C1"; classroom_room_type := LECTURE;
     capacity := 25; classroom_department := "Chemistry";
     classroom_user_id := 11 |}.

Definition chem_assignment : Assignment :=
  {| assignment_id := 5; assignment_course_id := 5; assignment_section_id := 5;
     assignment_teacher_id := 5; group_id := None;
     assignment_department := "Chemistry"; assignment_user_id := 11 |}.

Definition chem_snapshot : snapshot :=
  {| self_assignments := [chem_assignment]; self_teachers := [chem_teacher];
     self_courses := [chem_course]; self_classrooms := [chem_room];
     self_rules := [] |}.

Definition chem_vars : list key :=
  default [] (create_decision_variables chem_snapshot).

Definition chem_model : cp_model :=
  default (mk_model [] None) (snd <$> build_model chem_snapshot).

(** The session on Tuesday, first slot. *)
Definition tuesday_valuation : valuation :=
  fun x => match x with
           | schedule_var k => bool_decide (k = (5, 5, 1, 0))
           | _ => false
           end.

Definition tuesday_slots : list scheduled :=
  default [] (extract_solution chem_vars chem_snapshot tuesday_valuation).

Definition gapped_slots : list scheduled :=
  default [] (extract_solution eng_vars eng_snapshot gapped).

(** ** A department with two assignments in one group

    Both assignments are for the same course and can use the only room. *)

Definition art_teacher : Teacher :=
  {| teacher_id := 6; teacher_name := "Kahlo"; teacher_department := "Art";
     teacher_user_id := 12; max_hours_per_day := 8;
     availability := None; days_off := None |}.

Definition art_course : Course :=
  {| course_id := 6; course_name := "Studio"; course_type := CT_LECTURE;
     duration_minutes := 55; sessions_per_week := 1;
     course_room_type := LECTURE;
     course_department := "Art"; course_user_id := 12 |}.

Definition art_room : Classroom :=
  {| classroom_id := 6; room_id := "A1"; classroom_room_type := LECTURE;
     capacity := 20; classroom_department := "Art"; classroom_user_id := 12 |}.

Definition art_drawing : Assignment :=
  {| assignment_id := 6; assignment_course_id := 6; assignment_section_id := 6;
     assignment_teacher_id := 6; group_id := Some "studio";
     assignment_department := "Art"; assignment_user_id := 12 |}.

Definition art_painting : Assignment :=
  {| assignment_id := 7; assignment_course_id := 6; assignment_section_id := 7;
     assignment_teacher_id := 6; group_id := Some "studio";
     assignment_department := "Art"; assignment_user_id := 12 |}.

Definition art_snapshot : snapshot :=
  {| self_assignments := [art_drawing; art_painting];
     self_teachers := [art_teacher]; self_courses := [art_course];
     self_classrooms := [art_room]; self_rules := [] |}.

Definition art_vars : list key :=
  default [] (create_decision_variables art_snapshot).

Definition art_model : cp_model :=
  default (mk_model [] None) (snd <$> build_model art_snapshot).

(** ** A rule that forbids Monday, second slot, to the assignment of the
    one-teacher department *)

Definition forbidden_monday_rule : Rule :=
  {| rule_id := 2; rule_name := "No Monday"; rule_type := "forbidden_time_pairs";
     rule_data :=
       [("pairs", JList [JObj [("assignment_id", JInt 1); ("day", JInt 0);
                               ("slot", JInt 1)]])];
     rule_department := "CS"; rule_user_id := 7 |}.

Definition forbidden_snapshot : snapshot :=
  {| self_assignments := [cs_assignment]; self_teachers := [cs_teacher];
     self_courses := [cs_course]; self_classrooms := [cs_room];
     self_rules := [forbidden_monday_rule] |}.

Definition forbidden_model : cp_model :=
  default (mk_model [] None) (snd <$> build_model forbidden_snapshot).

(** The session on Tuesday, second slot. *)
Definition tuesday_second : valuation :=
  fun x => match x with
           | schedule_var k => bool_decide (k = (1, 1, 1, 1))
           | _ => false
           end.

Definition tuesday_second_slots : list scheduled :=
  default [] (extract_solution cs_vars forbidden_snapshot tuesday_second).

(** ** Rules that [add_soft_constraints] acts on *)

(** The rule types with a branch that does something: [gap_preference] has
    a branch that passes, any other type has none. *)
Definition acting_rule (r : Rule) : bool :=
  String.eqb (rule_type r) "lunch_window"
  || String.eqb (rule_type r) "forbidden_time_pairs".

Definition with_self_rules (rs : list Rule) (sn : snapshot) : snapshot :=
  {| self_assignments := self_assignments sn; self_teachers := self_teachers sn;
     self_courses := self_courses sn; self_classrooms := self_classrooms sn;
     self_rules := rs |}.

(** ** Solvers and stores used as examples *)




(** The number of elements of the list with the given key. *)
Definition occurrences {A K} `{EqDecision K} (f : A -> K) (k : K) (l : list A)
  : Z :=
  len (filter (fun x => f x = k) l).

(** ** A reserved cell, as two indexes record it *)

Definition reserved_db : Storage :=
  with_scheduled_slots [set_global true (monday_first 1 1)] 2 cs_db.

Definition cs_held : GlobalScheduler.t :=
  GlobalScheduler.with_global_slots {[ (1, 0, 0) := "CS" ]} GlobalScheduler.init.

Definition math_held : GlobalScheduler.t :=
  GlobalScheduler.with_global_slots {[ (1, 0, 0) := "Mathematics" ]}
    GlobalScheduler.init.

(** The assignment of the given id is taught by the teacher: some
    assignment of the snapshot has that id and that teacher. *)
Definition taught_by (sn : snapshot) (teacher : Teacher) (aid : Z) : bool :=
  existsb (fun a => bool_decide (assignment_id a = aid)
                    && bool_decide (assignment_teacher_id a = teacher_id teacher))
          (self_assignments sn).

(** ** [global_scheduler.py]: [check_resource_conflicts] *)

(** A dict of the list of conflicts. The two times are kept as times
    rather than as their ['%H:%M'] text, and [section_code], read through a
    table that the store does not hold, is left out. *)
Record conflict := mk_conflict {
  conflict_slot_id : Z;
  conflict_classroom_id : Z;
  conflict_room_id : string;
  conflict_day_of_week : Z;
  conflict_start_time : time;
  conflict_end_time : time;
  requesting_department : string;
  occupying_department : string;
  conflict_course_name : string
}.

Definition check_resource_conflicts (self : GlobalScheduler.t) (db : Storage)
    (department : string) (timetable_id : Z) : bool * list conflict :=
  let scheduled_slots0 :=
    filter (fun r => dept_timetable_id r = timetable_id) (scheduled_slots db) in
  let conflicts :=
    slot ← scheduled_slots0;
    match GlobalScheduler.global_slots self !! GlobalScheduler.cell slot with
    | Some occupying_dept =>
        if bool_decide (occupying_dept <> department)
        then
          let classroom :=
            List.find (fun c => bool_decide (classroom_id c = slot_classroom_id slot))
                      (classrooms db) in
          let assignment :=
            List.find (fun a => bool_decide (assignment_id a = slot_assignment_id slot))
                      (assignments db) in
          let course :=
            a ← assignment;
            List.find (fun c => bool_decide (course_id c = assignment_course_id a))
                      (courses db) in
          [{| conflict_slot_id := slot_id slot;
              conflict_classroom_id := slot_classroom_id slot;
              conflict_room_id := default "Unknown" (room_id <$> classroom);
              conflict_day_of_week := day_of_week slot;
              conflict_start_time := start_time slot;
              conflict_end_time := end_time slot;
              requesting_department := department;
              occupying_department := occupying_dept;
              conflict_course_name := default "Unknown" (course_name <$> course) |}]
        else []
    | None => []
    end in
  (bool_decide (len conflicts = 0), conflicts).

(** ** [global_scheduler.py]: [_detect_inter_department_conflicts] *)

(** [{'department': department, 'slot': slot}]. *)
Record usage := mk_usage {
  usage_department : string;
  usage_slot : ScheduledSlot
}.

Record inter_conflict := mk_inter_conflict {
  ic_classroom_id : Z;
  ic_day_of_week : Z;
  ic_time_slot : Z;
  conflicting_departments : list string;
  conflicting_slots : list ScheduledSlot
}.

(** [if key not in slot_usage: slot_usage[key] = []] and
    [slot_usage[key].append(u)] on an insertion-ordered dict. *)
Fixpoint usage_append (k : GlobalScheduler.cell_key) (u : usage)
    (slot_usage : list (GlobalScheduler.cell_key * list usage))
  : list (GlobalScheduler.cell_key * list usage) :=
  match slot_usage with
  | [] => [(k, [u])]
  | (k', l) :: rest =>
      if bool_decide (k' = k) then (k', l ++ [u]) :: rest
      else (k', l) :: usage_append k u rest
  end.

(** The dict [slot_usage] after the first loop; [department_slots] is a
    dict, given by its items in insertion order. *)
Definition slot_usage_of (department_slots : list (string * list ScheduledSlot))
  : list (GlobalScheduler.cell_key * list usage) :=
  foldl (fun slot_usage '(department, slots) =>
           foldl (fun slot_usage slot =>
                    usage_append (GlobalScheduler.cell slot)
                      {| usage_department := department; usage_slot := slot |}
                      slot_usage)
                 slot_usage slots)
        [] department_slots.

Definition _detect_inter_department_conflicts
    (department_slots : list (string * list ScheduledSlot))
  : list inter_conflict :=
  '(k, usage_list) ← slot_usage_of department_slots;
  if bool_decide (1 < len usage_list)
  then
    let '(classroom_id, day, time_slot) := k in
    [{| ic_classroom_id := classroom_id; ic_day_of_week := day;
        ic_time_slot := time_slot;
        conflicting_departments := usage_department <$> usage_list;
        conflicting_slots := usage_slot <$> usage_list |}]
  else [].

(** The key of a reported conflict. *)
Definition ic_key (c : inter_conflict) : GlobalScheduler.cell_key :=
  (ic_classroom_id c, ic_day_of_week c, ic_time_slot c).

(** ** [scheduler.py]: [validate_scheduling_data] *)

Definition validate_scheduling_data (db : Storage) (department : string)
    (user_id : Z) : bool * list string :=
  let assignments_count :=
    len (filter (fun a => assignment_department a = department
                          /\ assignment_user_id a = user_id) (assignments db)) in
  let errors1 :=
    if bool_decide (assignments_count = 0)
    then ["No assignments found for scheduling"] else [] in
  let teachers_count :=
    len (filter (fun t => teacher_department t = department
                          /\ teacher_user_id t = user_id) (teachers db)) in
  let errors2 :=
    if bool_decide (teachers_count = 0)
    then ["No teachers found for scheduling"] else [] in
  let classrooms_count :=
    len (filter (fun c => classroom_department c = department
                          /\ classroom_user_id c = user_id) (classrooms db)) in
  let errors3 :=
    if bool_decide (classrooms_count = 0)
    then ["No classrooms found for scheduling"] else [] in
  let courses_count :=
    len (filter (fun c => course_department c = department
                          /\ course_user_id c = user_id) (courses db)) in
  let errors4 :=
    if bool_decide (courses_count = 0)
    then ["No courses found for scheduling"] else [] in
  let errors := errors1 ++ errors2 ++ errors3 ++ errors4 in
  (bool_decide (len errors = 0), errors).

(** ** [schemas.py]: [Step7ReviewRequest], and the route that generates *)




(** ** A timetable with two rows, both in cells that another department
    holds *)

Definition monday_second (id tid : Z) : ScheduledSlot :=
  {| slot_id := id; dept_timetable_id := tid; slot_assignment_id := 1;
     slot_classroom_id := 1; day_of_week := 0;
     start_time := mk_time 8 55; end_time := mk_time 9 50;
     slot_department := "CS"; is_global_slot := false |}.

Definition two_rows_db : Storage :=
  with_scheduled_slots [monday_first 1 1; monday_second 2 1] 3 cs_db.

Definition math_held_both : GlobalScheduler.t :=
  GlobalScheduler.with_global_slots
    {[ (1, 0, 0) := "Mathematics"; (1, 0, 1) := "Mathematics" ]}
    GlobalScheduler.init.

(** The conflict reported for the second row. *)
Definition second_row_conflict : conflict :=
  {| conflict_slot_id := 2; conflict_classroom_id := 1;
     conflict_room_id := "R1"; conflict_day_of_week := 0;
     conflict_start_time := mk_time 8 55; conflict_end_time := mk_time 9 50;
     requesting_department := "CS"; occupying_department := "Mathematics";
     conflict_course_name := "Algorithms" |}.

(** The usages in the order in which the first loop of
    [_detect_inter_department_conflicts] meets them. *)
Definition usages_of (department_slots : list (string * list ScheduledSlot))
  : list usage :=
  '(department, slots) ← department_slots; mk_usage department <$> slots.

(** The usages of one cell. *)
Definition usages_at (k : GlobalScheduler.cell_key) (us : list usage)
  : list usage :=
  filter (fun u => GlobalScheduler.cell (usage_slot u) = k) us.

(** The dict [slot_usage] groups the usages met so far by cell. *)
Definition grouped (su : list (GlobalScheduler.cell_key * list usage))
    (us : list usage) : Prop :=
  NoDup su.*1
  /\ forall k l, (k, l) ∈ su <-> l = usages_at k us /\ l <> [].

(** ** Rules by name *)

(** What [create_rules_step6] compares to decide that a rule exists. *)
Definition rule_owner_name (r : Rule) : string * string * Z :=
  (rule_name r, rule_department r, rule_user_id r).

(** One turn of the loop of [create_rules_step6]. *)
Definition add_rule (department : string) (user_id : Z) (db : Storage)
    (rule_data0 : Schemas.RuleCreate) : Storage :=
  match List.find
          (fun r => bool_decide (rule_name r = Schemas.rc_name rule_data0)
                    && bool_decide (rule_department r = department)
                    && bool_decide (rule_user_id r = user_id))
          (rules db) with
  | Some _ => db
  | None =>
      with_rules
        (rules db ++
           [{| rule_id := rule_seq db;
               rule_name := Schemas.rc_name rule_data0;
               rule_type := Schemas.rc_rule_type rule_data0;
               rule_data := Schemas.rc_rule_data rule_data0;
               rule_department := department;
               rule_user_id := user_id |}])
        (rule_seq db + 1) db
  end.

(** * Properties *)

(** ** Loops *)

Lemma for_each_inv {A S} (P : S -> Prop) (l : list A)
    (body : S -> A -> option S) (st r : S) :
  P st ->
  (forall st x st', x ∈ l -> P st -> body st x = Some st' -> P st') ->
  for_each l body st = Some r -> P r.
Proof.
  revert st. induction l as [|x l IH]; intros st Hst Hbody; simpl.
  - intros [= <-]. exact Hst.
  - destruct (body st x) as [st'|] eqn:E; [|discriminate].
    apply IH.
    + eapply Hbody; eauto. left.
    + intros st0 y st1 Hy. apply Hbody. by right.
Qed.

Lemma foldl_inv {A S} (P : S -> Prop) (l : list A) (f : S -> A -> S) (st : S) :
  P st ->
  (forall st x, x ∈ l -> P st -> P (f st x)) ->
  P (foldl f st l).
Proof.
  revert st. induction l as [|x l IH]; intros st Hst Hf; simpl; [done|].
  apply IH.
  - apply Hf; [left | done].
  - intros st0 y Hy. apply Hf. by right.
Qed.

Lemma elem_of_dict_set {K} `{EqDecision K} (k k' : K) (d : list K) :
  k' ∈ dict_set k d <-> k' = k \/ k' ∈ d.
Proof.
  unfold dict_set. case_bool_decide as Hk.
  - split; [by right | intros [-> | ?]; done].
  - rewrite elem_of_app, list_elem_of_singleton. tauto.
Qed.

Lemma elem_of_range (lo hi x : Z) : x ∈ range lo hi <-> lo <= x < hi.
Proof. unfold range. rewrite elem_of_seqZ. lia. Qed.

Lemma find_Some_elem {A} (p : A -> bool) (l : list A) (x : A) :
  List.find p l = Some x -> x ∈ l /\ p x = true.
Proof.
  intros H. apply List.find_some in H as [Hin Hp].
  split; [by apply list_elem_of_In | done].
Qed.

Lemma find_None_iff {A} (p : A -> bool) (l : list A) :
  List.find p l = None <-> forall x, x ∈ l -> p x = false.
Proof.
  induction l as [|y l IH]; cbn [List.find].
  - split; [by intros _ x ?%elem_of_nil|done].
  - destruct (p y) eqn:Hy.
    + split; [done|]. intros Hall. rewrite Hall in Hy by left. done.
    + rewrite IH. split.
      * intros Hall x [->|Hx]%elem_of_cons; [done|by apply Hall].
      * intros Hall x Hx. apply Hall. by right.
Qed.

(** ** Room-type compatibility *)

Lemma _is_room_compatible_table (c r : RoomType) :
  _is_room_compatible c r = bool_decide (r ∈ acceptable_rooms c).
Proof. destruct c, r; vm_compute; reflexivity. Qed.

Lemma create_decision_variables_origin sn vars :
  create_decision_variables sn = Some vars ->
  forall k, k ∈ vars -> var_origin sn k.
Proof.
  unfold create_decision_variables.
  apply (for_each_inv (fun vars => forall k, k ∈ vars -> var_origin sn k)).
  { intros k Hk. by apply elem_of_nil in Hk. }
  intros vars0 a vars1 Ha Hinv.
  apply (for_each_inv (fun vars => forall k, k ∈ vars -> var_origin sn k)); [done|].
  intros vars2 c vars3 Hc Hinv2 Hbody.
  destruct (next_course sn (assignment_course_id a)) as [course|] eqn:Hcourse;
    cbn [mbind option_bind] in Hbody; [|discriminate].
  destruct (_is_room_compatible _ _) eqn:Hcompat;
    apply (inj Some) in Hbody; subst vars3; [|exact Hinv2].
  apply (foldl_inv (fun vars => forall k, k ∈ vars -> var_origin sn k)); [done|].
  intros vars4 d Hd Hinv4.
  apply (foldl_inv (fun vars => forall k, k ∈ vars -> var_origin sn k)); [done|].
  intros vars5 s Hs Hinv5 k Hk.
  apply elem_of_dict_set in Hk as [-> | Hk]; [|by apply Hinv5].
  exists a, c, course. cbn [fst snd]. repeat split; assumption.
Qed.

(** Every dict of [extract_solution] comes from a key whose variable has
    value 1, with the times computed from the slot and the course. *)
Lemma extract_solution_origin vars sn v out :
  extract_solution vars sn v = Some out ->
  forall s, s ∈ out ->
    exists k course,
      k ∈ vars /\ v (schedule_var k) = true
      /\ sch_assignment_id s = k.1.1.1 /\ sch_classroom_id s = k.1.1.2
      /\ sch_day_of_week s = k.1.2
      /\ sch_start_time s = _slot_to_time k.2
      /\ (exists a, next_assignment sn k.1.1.1 = Some a
                    /\ next_course sn (assignment_course_id a) = Some course)
      /\ sch_end_time s
         = _add_minutes_to_time (_slot_to_time k.2) (duration_minutes course).
Proof.
  unfold extract_solution.
  apply (for_each_inv (fun out => forall s, s ∈ out -> _)).
  { intros s Hs. by apply elem_of_nil in Hs. }
  intros out0 k out1 Hk Hinv Hbody s Hs.
  destruct (v (schedule_var k)) eqn:Hv;
    [|apply (inj Some) in Hbody; subst out1; by apply Hinv].
  destruct k as [[[aid cid] d] sl].
  destruct (next_assignment sn aid) as [a|] eqn:Ha;
    cbn [mbind option_bind] in Hbody; [|discriminate].
  destruct (next_classroom sn cid) as [c|] eqn:Hc;
    cbn [mbind option_bind] in Hbody; [|discriminate].
  destruct (next_course sn (assignment_course_id a)) as [course|] eqn:Hco;
    cbn [mbind option_bind] in Hbody; [|discriminate].
  apply (inj Some) in Hbody; subst out1.
  apply elem_of_app in Hs as [Hs | Hs]; [by apply Hinv|].
  apply list_elem_of_singleton in Hs as ->.
  exists (aid, cid, d, sl), course. cbn [fst snd]. repeat split; eauto.
Qed.

(** C7. [_is_room_compatible] is the table of the specification on all
    sixteen pairs of room types: lecture courses go to lecture and conference
    rooms, lab courses to lab and computer-lab rooms, computer-lab courses to
    computer-lab rooms only, conference courses to conference rooms only.
    Hence every slot extracted from a solution pairs an assignment and a
    classroom of the snapshot whose room types the table accepts. *)
Theorem room_compatibility_is_the_table sn vars v out :
  create_decision_variables sn = Some vars ->
  extract_solution vars sn v = Some out ->
  (forall c r, _is_room_compatible c r = bool_decide (r ∈ acceptable_rooms c))
  /\ forall s, s ∈ out ->
       exists a course room,
         a ∈ self_assignments sn
         /\ assignment_id a = sch_assignment_id s
         /\ next_course sn (assignment_course_id a) = Some course
         /\ room ∈ self_classrooms sn
         /\ classroom_id room = sch_classroom_id s
         /\ classroom_room_type room ∈ acceptable_rooms (course_room_type course).
Proof.
  intros Hvars Hout. split; [apply _is_room_compatible_table|].
  intros s Hs.
  destruct (extract_solution_origin _ _ _ _ Hout s Hs)
    as (k & _ & Hk & _ & Ha & Hc & _).
  destruct (create_decision_variables_origin _ _ Hvars k Hk)
    as (a & room & course & Hain & Hrin & Hcourse & Hcompat & Hka & Hkc & _).
  exists a, course, room.
  rewrite _is_room_compatible_table in Hcompat.
  apply bool_decide_eq_true in Hcompat.
  repeat split; try assumption; congruence.
Qed.

Lemma room_compatibility_is_the_table_witness :
  create_decision_variables cs_snapshot = Some cs_vars
  /\ extract_solution cs_vars cs_snapshot monday_valuation = Some monday_slots
  /\ forall s, s ∈ monday_slots ->
       exists a course room,
         a ∈ self_assignments cs_snapshot
         /\ assignment_id a = sch_assignment_id s
         /\ next_course cs_snapshot (assignment_course_id a) = Some course
         /\ room ∈ self_classrooms cs_snapshot
         /\ classroom_id room = sch_classroom_id s
         /\ classroom_room_type room ∈ acceptable_rooms (course_room_type course).
Proof.
  split; [vm_compute; reflexivity|].
  split; [vm_compute; reflexivity|].
  apply (room_compatibility_is_the_table cs_snapshot cs_vars monday_valuation
           monday_slots); vm_compute; reflexivity.
Defined.

(** ** Start and end times *)

Lemma time_minutes_of_minutes (m : Z) :
  0 <= m < 1440 -> time_minutes (time_of_minutes m) = m.
Proof.
  intros Hm. unfold time_minutes, time_of_minutes. cbn [hour minute].
  rewrite (Z.mod_small m 1440) by lia.
  pose proof (Z.div_mod m 60). lia.
Qed.

Lemma _slot_to_time_minutes (slot : Z) :
  0 <= slot < num_slots_per_day ->
  time_minutes (_slot_to_time slot) = 480 + 55 * slot.
Proof.
  change num_slots_per_day with 10. intros Hs.
  unfold _slot_to_time, start_hour, slot_duration.
  rewrite time_minutes_of_minutes; lia.
Qed.

(** The materializer keeps [end_time = start_time + duration_minutes] for
    every course of thirty minutes to three hours. *)
Lemma extract_solution_end_time sn vars v out :
  create_decision_variables sn = Some vars ->
  extract_solution vars sn v = Some out ->
  forall s, s ∈ out ->
    exists a course,
      next_assignment sn (sch_assignment_id s) = Some a
      /\ next_course sn (assignment_course_id a) = Some course
      /\ (30 <= duration_minutes course <= 180 ->
          time_minutes (sch_end_time s)
          = time_minutes (sch_start_time s) + duration_minutes course).
Proof.
  intros Hvars Hout s Hs.
  destruct (extract_solution_origin _ _ _ _ Hout s Hs)
    as (k & course & Hk & _ & Ha & _ & _ & Hstart & (a & Hna & Hnc) & Hend).
  exists a, course. rewrite Ha. repeat split; try assumption.
  intros Hdur.
  destruct (create_decision_variables_origin _ _ Hvars k Hk)
    as (_ & _ & _ & _ & _ & _ & _ & _ & _ & _ & Hslot).
  apply elem_of_range in Hslot.
  rewrite Hend, Hstart. unfold _add_minutes_to_time.
  rewrite _slot_to_time_minutes by exact Hslot.
  change num_slots_per_day with 10 in Hslot.
  rewrite time_minutes_of_minutes; lia.
Qed.

(** Whatever the course, the row created by [_attempt_reschedule] ends where
    the next slot of the grid begins. *)
Lemma _attempt_reschedule_times self db slot new db' :
  GlobalScheduler._attempt_reschedule self db slot = Some (new, db') ->
  exists time_slot,
    start_time new = _slot_to_time time_slot
    /\ end_time new = _slot_to_time (time_slot + 1).
Proof.
  unfold GlobalScheduler._attempt_reschedule. intros H.
  destruct (List.find _ (assignments db)) as [a|];
    cbn [mbind option_bind] in H; [|discriminate].
  destruct (List.find _ (teachers db)) as [te|];
    cbn [mbind option_bind] in H; [|discriminate].
  destruct (availability te) as [matrix|];
    cbn [mbind option_bind] in H; [|discriminate].
  destruct (head _) as [[day time_slot]|];
    cbn [mbind option_bind] in H; [|discriminate].
  apply (inj Some) in H. apply (f_equal fst) in H. cbn [fst] in H. subst new.
  exists time_slot. split; reflexivity.
Qed.

(** C3. The materializer keeps [end_time = start_time + duration_minutes]
    ([extract_solution_end_time]); [_attempt_reschedule] does not: moving the
    ninety-minute session of [math_slot] yields a row from 08:00 to 08:55,
    fifty-five minutes long. *)
Theorem attempt_reschedule_breaks_duration :
  (exists db',
     GlobalScheduler._attempt_reschedule GlobalScheduler.init math_db math_slot
     = Some (math_slot_moved, db'))
  /\ List.find (fun a => bool_decide (assignment_id a = slot_assignment_id math_slot_moved))
               (assignments math_db) = Some math_assignment
  /\ List.find (fun c => bool_decide (course_id c = assignment_course_id math_assignment))
               (courses math_db) = Some math_course
  /\ 30 <= duration_minutes math_course <= 180
  /\ time_minutes (end_time math_slot)
     = time_minutes (start_time math_slot) + duration_minutes math_course
  /\ time_minutes (end_time math_slot_moved)
     <> time_minutes (start_time math_slot_moved) + duration_minutes math_course.
Proof.
  split; [eexists; vm_compute; reflexivity|].
  repeat split; vm_compute; congruence.
Qed.

(** ** Cost of a valuation *)

Lemma cost_terms_nonneg (v : valuation) (terms : list (var * Z)) :
  forallb (fun t => 0 <=? t.2) terms = true -> 0 <= cost_terms v terms.
Proof.
  induction terms as [|[x w] terms IH]; intros Hall.
  - reflexivity.
  - apply andb_prop in Hall as [Hw Hrest]. apply Z.leb_le in Hw.
    specialize (IH Hrest). cbn [snd] in Hw.
    change (0 <= value v x * w + cost_terms v terms).
    unfold value. destruct (v x); lia.
Qed.

Lemma cost_nonneg (v : valuation) (m : cp_model) :
  forallb (fun t => 0 <=? t.2) (default [] (objective m)) = true ->
  0 <= cost v m.
Proof. apply cost_terms_nonneg. Qed.

(** ** Session counts *)

Lemma feasible_holds v m c :
  feasible v m = true -> c ∈ constraints m -> holds v c = true.
Proof.
  unfold feasible. rewrite forallb_forall. intros Hall Hc.
  apply Hall. by apply list_elem_of_In.
Qed.

(** The loop of block 1 from any list of constraints: it only appends, and
    it appends the constraint of every assignment that has variables. *)
Lemma session_count_loop vars sn l :
  let body := fun (cs : list constraint) (assignment : Assignment) =>
    course ← next_course sn (assignment_course_id assignment);
    let assignment_vars :=
      filter (fun k : key => k.1.1.1 = assignment_id assignment) vars in
    Some (match assignment_vars with
          | [] => cs
          | _ => cs ++ [SumEq (schedule_var <$> assignment_vars)
                              (sessions_per_week course)]
          end) in
  forall cs0 cs1,
    for_each l body cs0 = Some cs1 ->
    (forall c, c ∈ cs0 -> c ∈ cs1)
    /\ forall a course k ks,
         a ∈ l ->
         next_course sn (assignment_course_id a) = Some course ->
         filter (fun k : key => k.1.1.1 = assignment_id a) vars = k :: ks ->
         SumEq (schedule_var <$> k :: ks) (sessions_per_week course) ∈ cs1.
Proof.
  intros body. induction l as [|b l IH]; intros cs0 cs1; cbn [for_each].
  - intros H. apply (inj Some) in H. subst cs1. split; [done|].
    intros a course k ks Ha. by apply elem_of_nil in Ha.
  - destruct (body cs0 b) as [cs'|] eqn:Hb; [|discriminate].
    intros H. destruct (IH _ _ H) as [Hmono Hall].
    assert (Hcs' : forall c, c ∈ cs0 -> c ∈ cs').
    { unfold body in Hb.
      destruct (next_course sn (assignment_course_id b)) as [cb|];
        cbn [mbind option_bind] in Hb; [|discriminate].
      apply (inj Some) in Hb. subst cs'. intros c Hc. cbv zeta.
      destruct (filter _ vars); [done|]. apply elem_of_app. by left. }
    split; [by auto|].
    intros a course k ks [->|Ha]%elem_of_cons Hcourse Hf; [|by eapply Hall].
    apply Hmono. unfold body in Hb. rewrite Hcourse in Hb.
    cbn [mbind option_bind] in Hb. cbv zeta in Hb. rewrite Hf in Hb.
    apply (inj Some) in Hb. subst cs'. apply elem_of_app. right. left.
Qed.

(** An assignment with at least one variable is scheduled exactly
    [sessions_per_week] times by every feasible valuation. *)
Lemma session_count_enforced_with_room sn vars m v a course k ks :
  build_model sn = Some (vars, m) ->
  feasible v m = true ->
  a ∈ self_assignments sn ->
  next_course sn (assignment_course_id a) = Some course ->
  filter (fun k : key => k.1.1.1 = assignment_id a) vars = k :: ks ->
  sum_vars v (schedule_var <$> k :: ks) = sessions_per_week course.
Proof.
  intros Hm Hv Ha Hcourse Hf.
  assert (Hin : SumEq (schedule_var <$> k :: ks) (sessions_per_week course)
                ∈ constraints m).
  { revert Hm. unfold build_model.
    destruct (create_decision_variables sn) as [vars0|];
      cbn [mbind option_bind]; [|discriminate].
    unfold add_hard_constraints.
    destruct (session_count_constraints vars0 sn) as [c1|] eqn:Hc1;
      cbn [mbind option_bind]; [|discriminate].
    destruct (add_soft_constraints vars0 sn) as [[soft obj]|];
      cbn [mbind option_bind]; [|discriminate].
    intros Hm. apply (inj Some) in Hm. injection Hm as <- <-.
    cbn [constraints]. rewrite !elem_of_app. left. left.
    by eapply (session_count_loop vars0 sn (self_assignments sn) [] c1 Hc1). }
  apply (feasible_holds _ _ _ Hv) in Hin. cbn [holds] in Hin.
  by apply Z.eqb_eq in Hin.
Qed.

(** C1. An assignment with a variable is scheduled [sessions_per_week]
    times ([session_count_enforced_with_room]). With no classroom compatible
    with its course, no variable and no constraint is created for it: every
    valuation is an optimal solution of the model, so that no sound solver
    reports infeasibility, and the solution extracted has no slot for the
    assignment, whose course asks for one session a week. When the solver
    answers so, the run ends with a solution that it fails to save and with
    the status left at ['generating'], not with a failure status. *)
Theorem no_compatible_room_not_infeasible (v : valuation) (now : Z) :
  (forall room, room ∈ classrooms physics_db ->
     _is_room_compatible (course_room_type physics_course)
                         (classroom_room_type room) = false)
  /\ build_model (load_data (mark_generating 3 now physics_db) "Physics" 9)
     = Some ([], mk_model [] None)
  /\ feasible v (mk_model [] None) = true
  /\ (forall v', cost v (mk_model [] None) <= cost v' (mk_model [] None))
  /\ (forall solve, sound solve ->
        res_status (solve (mk_model [] None)) <> INFEASIBLE)
  /\ extract_solution []
       (load_data (mark_generating 3 now physics_db) "Physics" 9) v = Some []
  /\ sessions_per_week physics_course = 1
  /\ exists db',
       generate_timetable (answering OPTIMAL v) now "Physics" 9 3 physics_db
       = (false, Solution_found_but_failed_to_save, db')
       /\ status_of 3 db' = Some "generating"
       /\ scheduled_slots db' = [].
Proof.
  split.
  { intros room Hroom. apply list_elem_of_singleton in Hroom as ->. reflexivity. }
  split; [vm_compute; reflexivity|].
  split; [reflexivity|].
  split; [intros v'; vm_compute; congruence|].
  split.
  { intros solve Hsound Hst. destruct (Hsound (mk_model [] None)) as (_ & _ & Hno).
    specialize (Hno Hst v). discriminate Hno. }
  split; [reflexivity|].
  split; [reflexivity|].
  eexists. split; [vm_compute; reflexivity|].
  split; reflexivity.
Qed.

(** ** Days off *)

Lemma build_model_availability sn vars m c :
  build_model sn = Some (vars, m) ->
  c ∈ availability_constraints vars sn -> c ∈ constraints m.
Proof.
  unfold build_model.
  destruct (create_decision_variables sn) as [vars0|];
    cbn [mbind option_bind]; [|discriminate].
  unfold add_hard_constraints.
  destruct (session_count_constraints vars0 sn) as [c1|];
    cbn [mbind option_bind]; [|discriminate].
  destruct (add_soft_constraints vars0 sn) as [[soft obj]|];
    cbn [mbind option_bind]; [|discriminate].
  intros Hm. apply (inj Some) in Hm. injection Hm as <- <-.
  intros Hc. cbn [constraints]. rewrite !elem_of_app. tauto.
Qed.

(** With an availability matrix, the days off do reach the model: a feasible
    valuation places no session of the teacher on a day off. *)
Lemma days_off_respected_with_matrix sn vars m v teacher a c day slot :
  build_model sn = Some (vars, m) ->
  feasible v m = true ->
  teacher ∈ self_teachers sn -> a ∈ self_assignments sn ->
  c ∈ self_classrooms sn ->
  assignment_teacher_id a = teacher_id teacher ->
  (exists row matrix, availability teacher = Some (row :: matrix)) ->
  day ∈ days -> day ∈ teacher_days_off teacher -> slot ∈ slots ->
  (assignment_id a, classroom_id c, day, slot) ∈ vars ->
  v (schedule_var (assignment_id a, classroom_id c, day, slot)) = false.
Proof.
  intros Hm Hv Ht Ha Hc Hat (row & matrix & Hav) Hday Hoff Hslot Hk.
  assert (Hin : VarZero (schedule_var (assignment_id a, classroom_id c, day, slot))
                ∈ availability_constraints vars sn).
  { unfold availability_constraints.
    apply list_elem_of_bind. exists teacher. split; [|done]. rewrite Hav.
    apply list_elem_of_bind. exists day. split; [|done].
    rewrite bool_decide_eq_true_2 by done.
    apply list_elem_of_bind. exists a. split; [|done].
    rewrite bool_decide_eq_true_2 by done.
    apply list_elem_of_bind. exists c. split; [|done].
    apply list_elem_of_bind. exists slot. split; [|done].
    unfold has_key. rewrite bool_decide_eq_true_2 by done. left. }
  apply (build_model_availability _ _ _ _ Hm) in Hin.
  apply (feasible_holds _ _ _ Hv) in Hin. cbn [holds] in Hin.
  unfold value in Hin. by destruct (v _).
Qed.

(** C2. With an availability matrix the days off are enforced
    ([days_off_respected_with_matrix]). For a teacher without matrix they
    are not passed to the model: the schedule that places the session of
    [cs_teacher] on Monday, its day off, is an optimal solution, and the
    slots extracted from it hold that session on Monday. (The run that gets
    this answer then fails to save it, as every run on a stored timetable
    does: the statistics cannot be dumped.) *)
Theorem day_off_ignored_without_matrix (now : Z) :
  assignment_teacher_id cs_assignment = teacher_id cs_teacher
  /\ availability cs_teacher = None
  /\ 0 ∈ teacher_days_off cs_teacher
  /\ build_model (load_data (mark_generating 1 now cs_db) "CS" 7)
     = Some (cs_vars, cs_model)
  /\ feasible monday_valuation cs_model = true
  /\ (forall v', cost monday_valuation cs_model <= cost v' cs_model)
  /\ (exists s,
        extract_solution cs_vars
          (load_data (mark_generating 1 now cs_db) "CS" 7) monday_valuation
        = Some [s]
        /\ sch_assignment_id s = assignment_id cs_assignment
        /\ sch_day_of_week s = 0)
  /\ exists db',
       generate_timetable (answering OPTIMAL monday_valuation) now "CS" 7 1 cs_db
       = (false, Solution_found_but_failed_to_save, db')
       /\ status_of 1 db' = Some "generating"
       /\ scheduled_slots db' = [].
Proof.
  split; [reflexivity|].
  split; [reflexivity|].
  split; [vm_compute; left|].
  split; [vm_compute; reflexivity|].
  split; [vm_compute; reflexivity|].
  split.
  { intros v'. transitivity 0; [vm_compute; congruence|].
    apply cost_nonneg. vm_compute. reflexivity. }
  split.
  { eexists. split; [vm_compute; reflexivity|]. split; reflexivity. }
  eexists. split; [vm_compute; reflexivity|].
  split; reflexivity.
Qed.

(** ** No constraint mentions a gap indicator *)

Lemma schedule_only_nil : schedule_only [].
Proof. intros c x Hc. by apply elem_of_nil in Hc. Qed.

Lemma schedule_only_app cs1 cs2 :
  schedule_only cs1 -> schedule_only cs2 -> schedule_only (cs1 ++ cs2).
Proof.
  intros H1 H2 c x [Hc|Hc]%elem_of_app; [by apply H1 | by apply H2].
Qed.

Lemma classroom_vars_schedule vars sn a d s x :
  x ∈ classroom_vars vars sn a d s -> is_schedule_var x = true.
Proof.
  unfold classroom_vars. intros (c & Hx & _)%list_elem_of_bind.
  destruct (has_key _ _); [|by apply elem_of_nil in Hx].
  by apply list_elem_of_singleton in Hx as ->.
Qed.

Lemma teacher_slot_vars_schedule vars sn t d s x :
  x ∈ teacher_slot_vars vars sn t d s -> is_schedule_var x = true.
Proof.
  unfold teacher_slot_vars. intros (a & Hx & _)%list_elem_of_bind.
  case_bool_decide; [|by apply elem_of_nil in Hx].
  by eapply classroom_vars_schedule.
Qed.

(** A constraint [SumLe l k] emitted for a non-empty list [l]. *)
Lemma guarded_SumLe_schedule (l : list var) (k : Z) c x :
  (forall y, y ∈ l -> is_schedule_var y = true) ->
  c ∈ match l with [] => [] | y :: l' => [SumLe (y :: l') k] end ->
  x ∈ constraint_vars c -> is_schedule_var x = true.
Proof.
  intros Hl Hc Hx. destruct l as [|y l]; [by apply elem_of_nil in Hc|].
  apply list_elem_of_singleton in Hc as ->. by apply Hl.
Qed.

Lemma session_count_constraints_schedule vars sn cs :
  session_count_constraints vars sn = Some cs -> schedule_only cs.
Proof.
  unfold session_count_constraints.
  apply (for_each_inv schedule_only); [apply schedule_only_nil|].
  intros cs0 a cs1 _ Hcs0 Hbody.
  destruct (next_course sn (assignment_course_id a)) as [course|];
    cbn [mbind option_bind] in Hbody; [|discriminate].
  apply (inj Some) in Hbody. subst cs1.
  destruct (filter _ vars) as [|k ks] eqn:Hf; [done|].
  apply schedule_only_app; [done|].
  intros c x Hc%list_elem_of_singleton Hx. subst c. cbn [constraint_vars] in Hx.
  apply list_elem_of_fmap in Hx as (k' & -> & _). reflexivity.
Qed.

Lemma teacher_overlap_constraints_schedule vars sn :
  schedule_only (teacher_overlap_constraints vars sn).
Proof.
  intros c x Hc Hx. unfold teacher_overlap_constraints in Hc.
  apply list_elem_of_bind in Hc as (t & Hc & _).
  apply list_elem_of_bind in Hc as (d & Hc & _).
  apply list_elem_of_bind in Hc as (s & Hc & _).
  eapply guarded_SumLe_schedule; [|exact Hc|exact Hx].
  apply teacher_slot_vars_schedule.
Qed.

Lemma key_var_schedule vars k x :
  x ∈ (if has_key vars k then [schedule_var k] else []) ->
  is_schedule_var x = true.
Proof.
  destruct (has_key vars k); [|by intros ?%elem_of_nil].
  by intros ->%list_elem_of_singleton.
Qed.

Lemma room_overlap_constraints_schedule vars sn :
  schedule_only (room_overlap_constraints vars sn).
Proof.
  intros c x Hc Hx. unfold room_overlap_constraints in Hc.
  apply list_elem_of_bind in Hc as (r & Hc & _).
  apply list_elem_of_bind in Hc as (d & Hc & _).
  apply list_elem_of_bind in Hc as (s & Hc & _).
  eapply guarded_SumLe_schedule; [|exact Hc|exact Hx].
  intros y (a & Hy & _)%list_elem_of_bind. by eapply key_var_schedule.
Qed.

Lemma availability_constraints_schedule vars sn :
  schedule_only (availability_constraints vars sn).
Proof.
  intros c x Hc Hx. unfold availability_constraints in Hc.
  apply list_elem_of_bind in Hc as (t & Hc & _).
  destruct (availability t) as [[|row matrix]|];
    [by apply elem_of_nil in Hc| |by apply elem_of_nil in Hc].
  apply list_elem_of_bind in Hc as (d & Hc & _).
  case_bool_decide.
  - apply list_elem_of_bind in Hc as (a & Hc & _).
    case_bool_decide; [|by apply elem_of_nil in Hc].
    apply list_elem_of_bind in Hc as (r & Hc & _).
    apply list_elem_of_bind in Hc as (s & Hc & _).
    destruct (has_key _ _); [|by apply elem_of_nil in Hc].
    apply list_elem_of_singleton in Hc as ->.
    by apply list_elem_of_singleton in Hx as ->.
  - case_bool_decide; [|by apply elem_of_nil in Hc].
    destruct (index _ d) as [day_availability|]; [|by apply elem_of_nil in Hc].
    apply list_elem_of_bind in Hc as (s & Hc & _).
    destruct (index day_availability s) as [[|]|];
      try by apply elem_of_nil in Hc.
    apply list_elem_of_fmap in Hc as (y & -> & Hy).
    apply list_elem_of_singleton in Hx as ->.
    by eapply teacher_slot_vars_schedule.
Qed.

Lemma daily_load_constraints_schedule vars sn :
  schedule_only (daily_load_constraints vars sn).
Proof.
  intros c x Hc Hx. unfold daily_load_constraints in Hc.
  apply list_elem_of_bind in Hc as (t & Hc & _).
  apply list_elem_of_bind in Hc as (d & Hc & _).
  eapply guarded_SumLe_schedule; [|exact Hc|exact Hx].
  intros y (a & Hy & _)%list_elem_of_bind.
  case_bool_decide; [|by apply elem_of_nil in Hy].
  apply list_elem_of_bind in Hy as (r & Hy & _).
  apply list_elem_of_bind in Hy as (s & Hy & _).
  by eapply key_var_schedule.
Qed.

Lemma elem_of_zip_pair {A B} (l : list A) (k : list B) (p : A * B) :
  p ∈ zip l k -> p.1 ∈ l /\ p.2 ∈ k.
Proof.
  revert k. induction l as [|a l IH]; intros [|b k] Hp;
    try by apply elem_of_nil in Hp.
  apply elem_of_cons in Hp as [->|Hp].
  - split; left.
  - destruct (IH _ Hp). split; by right.
Qed.

Lemma group_constraints_schedule vars sn :
  schedule_only (group_constraints vars sn).
Proof.
  intros c x Hc Hx. unfold group_constraints in Hc.
  apply list_elem_of_bind in Hc as ([g group] & Hc & _).
  case_bool_decide; [|by apply elem_of_nil in Hc].
  apply list_elem_of_bind in Hc as (d & Hc & _).
  apply list_elem_of_bind in Hc as (s & Hc & _).
  case_bool_decide; [|by apply elem_of_nil in Hc].
  apply list_elem_of_fmap in Hc as (p & -> & Hp).
  apply elem_of_zip_pair in Hp as [H1 H2].
  assert (Hg : forall y, y ∈ (a ← group; classroom_vars vars sn a d s) ->
                         is_schedule_var y = true).
  { intros y (a & Hy & _)%list_elem_of_bind. by eapply classroom_vars_schedule. }
  cbn [constraint_vars] in Hx.
  apply elem_of_cons in Hx as [->|Hx]; [by apply Hg|].
  apply list_elem_of_singleton in Hx as ->.
  apply Hg. destruct (_ ≫= _); [by apply elem_of_nil in H2 | by right].
Qed.

Lemma add_hard_constraints_schedule vars sn cs :
  add_hard_constraints vars sn = Some cs -> schedule_only cs.
Proof.
  unfold add_hard_constraints.
  destruct (session_count_constraints vars sn) as [c1|] eqn:H1;
    cbn [mbind option_bind]; [|discriminate].
  intros Hcs. apply (inj Some) in Hcs. subst cs.
  repeat apply schedule_only_app.
  - by eapply session_count_constraints_schedule.
  - apply teacher_overlap_constraints_schedule.
  - apply room_overlap_constraints_schedule.
  - apply availability_constraints_schedule.
  - apply daily_load_constraints_schedule.
  - apply group_constraints_schedule.
Qed.

Lemma _add_forbidden_time_pairs_constraint_schedule vars sn data cs cs' :
  schedule_only cs ->
  _add_forbidden_time_pairs_constraint vars sn data cs = Some cs' ->
  schedule_only cs'.
Proof.
  intros Hcs. unfold _add_forbidden_time_pairs_constraint.
  destruct (iterate _) as [pairs|]; cbn [mbind option_bind]; [|discriminate].
  apply (for_each_inv schedule_only); [done|].
  intros cs0 pair cs1 _ Hcs0.
  destruct pair as [| | | | |o]; try discriminate.
  destruct (_ && _ && _);
    [|intros Hb; apply (inj Some) in Hb; by subst cs1].
  apply (for_each_inv schedule_only); [done|].
  intros cs2 c cs3 _ Hcs2.
  intros Hbody.
  destruct (hashable_int (default JNull (obj_get o "assignment_id"))) as [a|];
    cbn [mbind option_bind] in Hbody; [|discriminate].
  destruct (hashable_int (default JNull (obj_get o "day"))) as [d|];
    cbn [mbind option_bind] in Hbody; [|discriminate].
  destruct (hashable_int (default JNull (obj_get o "slot"))) as [s|];
    cbn [mbind option_bind] in Hbody; [|discriminate].
  destruct a as [a|], d as [d|], s as [s|];
    apply (inj Some) in Hbody; subst cs3; try done.
  destruct (has_key _ _); [|done].
  apply schedule_only_app; [done|].
  intros c0 x ->%list_elem_of_singleton ->%list_elem_of_singleton. reflexivity.
Qed.

Lemma gap_weights_app t1 t2 :
  gap_weights t1 -> gap_weights t2 -> gap_weights (t1 ++ t2).
Proof. intros H1 H2 t [Ht|Ht]%elem_of_app; [by apply H1 | by apply H2]. Qed.

Lemma gap_terms_weights vars sn : gap_weights (gap_terms vars sn).
Proof.
  intros t Ht. unfold gap_terms in Ht.
  apply list_elem_of_bind in Ht as (te & Ht & _).
  apply list_elem_of_bind in Ht as (d & Ht & _).
  apply list_elem_of_bind in Ht as (s & Ht & _).
  destruct (teacher_slot_vars vars sn te d s); [by apply elem_of_nil in Ht|].
  destruct (teacher_slot_vars vars sn te d (s + 2)); [by apply elem_of_nil in Ht|].
  destruct (teacher_slot_vars vars sn te d (s + 1)); [by apply elem_of_nil in Ht|].
  apply list_elem_of_singleton in Ht as ->. right. cbn. lia.
Qed.

Lemma time_preference_terms_weights vars sn :
  gap_weights (time_preference_terms vars sn).
Proof.
  intros t Ht. unfold time_preference_terms in Ht.
  apply list_elem_of_bind in Ht as (a & Ht & _).
  apply list_elem_of_bind in Ht as (c & Ht & _).
  apply list_elem_of_bind in Ht as (d & Ht & _).
  apply list_elem_of_bind in Ht as (s & Ht & _).
  destruct (has_key _ _); [|by apply elem_of_nil in Ht].
  apply list_elem_of_singleton in Ht as ->. by left.
Qed.

Lemma _add_lunch_window_constraint_weights vars sn data terms terms' :
  gap_weights terms ->
  _add_lunch_window_constraint vars sn data terms = Some terms' ->
  gap_weights terms'.
Proof.
  intros Hterms. unfold _add_lunch_window_constraint.
  apply (for_each_inv gap_weights); [done|]. intros t0 a t1 _ Ht0.
  apply (for_each_inv gap_weights); [done|]. intros t2 c t3 _ Ht2.
  apply (for_each_inv gap_weights); [done|]. intros t4 d t5 _ Ht4.
  destruct (as_int (default (JInt 5) (obj_get data "start_slot"))) as [lo|];
    cbn [mbind option_bind]; [|discriminate].
  destruct (as_int (default (JInt 6) (obj_get data "end_slot"))) as [hi|];
    cbn [mbind option_bind]; [|discriminate].
  apply (for_each_inv gap_weights); [done|]. intros t6 s t7 _ Ht6.
  destruct (has_key _ _);
    [|intros Hb; apply (inj Some) in Hb; by subst t7].
  destruct (as_int _) as [p|]; cbn [mbind option_bind]; [|discriminate].
  intros Hbody. apply (inj Some) in Hbody. subst t7.
  apply gap_weights_app; [done|].
  intros t ->%list_elem_of_singleton. by left.
Qed.

Lemma add_soft_constraints_schedule vars sn cs obj :
  add_soft_constraints vars sn = Some (cs, obj) ->
  schedule_only cs /\ gap_weights (default [] obj).
Proof.
  unfold add_soft_constraints.
  destruct (for_each (self_rules sn) _ _) as [[cs0 terms]|] eqn:Hloop;
    cbn [mbind option_bind]; [|discriminate].
  intros Hres. apply (inj Some) in Hres.
  assert (Hinv : schedule_only cs0 /\ gap_weights terms).
  { revert Hloop.
    apply (for_each_inv (fun st => schedule_only st.1 /\ gap_weights st.2)).
    { split; [apply schedule_only_nil|].
      apply gap_weights_app;
        [apply gap_terms_weights | apply time_preference_terms_weights]. }
    intros [cs1 t1] rule [cs2 t2] _ [Hcs1 Ht1]. cbn [fst snd] in *.
    destruct (String.eqb _ "lunch_window").
    { destruct (_add_lunch_window_constraint _ _ _ _) as [t'|] eqn:Hl;
        cbn [mbind option_bind]; [|discriminate].
      intros Hb. apply (inj Some) in Hb. injection Hb as <- <-. split; [done|].
      by eapply _add_lunch_window_constraint_weights. }
    destruct (String.eqb _ "gap_preference").
    { intros Hb. apply (inj Some) in Hb. by injection Hb as <- <-. }
    destruct (String.eqb _ "forbidden_time_pairs").
    { destruct (_add_forbidden_time_pairs_constraint _ _ _ _) as [c'|] eqn:Hf;
        cbn [mbind option_bind]; [|discriminate].
      intros Hb. apply (inj Some) in Hb. injection Hb as <- <-. split; [|done].
      by eapply _add_forbidden_time_pairs_constraint_schedule. }
    intros Hb. apply (inj Some) in Hb. by injection Hb as <- <-. }
  destruct Hinv as [Hcs Ht]. injection Hres as <- <-. split; [done|].
  destruct terms; [|done]. intros t Hx. by apply elem_of_nil in Hx.
Qed.

Lemma forallb_ext_elem {A} (f g : A -> bool) (l : list A) :
  (forall x, x ∈ l -> f x = g x) -> forallb f l = forallb g l.
Proof.
  induction l as [|x l IH]; intros Hl; [done|]. cbn [forallb].
  rewrite (Hl x) by left. f_equal. apply IH. intros y Hy. apply Hl. by right.
Qed.

Lemma existsb_ext_elem {A} (f g : A -> bool) (l : list A) :
  (forall x, x ∈ l -> f x = g x) -> existsb f l = existsb g l.
Proof.
  induction l as [|x l IH]; intros Hl; [done|]. cbn [existsb].
  rewrite (Hl x) by left. f_equal. apply IH. intros y Hy. apply Hl. by right.
Qed.

Lemma sum_vars_without_gaps (v : valuation) (xs : list var) :
  (forall x, x ∈ xs -> is_schedule_var x = true) ->
  sum_vars (without_gaps v) xs = sum_vars v xs.
Proof.
  induction xs as [|x xs IH]; intros Hxs; [done|].
  cbn [sum_vars foldr]. unfold sum_vars in IH. rewrite IH.
  - f_equal. assert (Hx : is_schedule_var x = true) by (apply Hxs; left).
    by destruct x.
  - intros y Hy. apply Hxs. by right.
Qed.

Lemma holds_without_gaps (v : valuation) (c : constraint) :
  (forall x, x ∈ constraint_vars c -> is_schedule_var x = true) ->
  holds (without_gaps v) c = holds v c.
Proof.
  intros Hc. destruct c as [xs k|xs k|x|x y]; cbn [holds constraint_vars] in *.
  - by rewrite sum_vars_without_gaps.
  - by rewrite sum_vars_without_gaps.
  - assert (is_schedule_var x = true) by (apply Hc; left). by destruct x.
  - assert (is_schedule_var x = true) by (apply Hc; left).
    assert (is_schedule_var y = true) by (apply Hc; right; left).
    by destruct x, y.
Qed.

Lemma cost_terms_without_gaps (v : valuation) (terms : list (var * Z)) :
  gap_weights terms ->
  cost_terms (without_gaps v) terms <= cost_terms v terms.
Proof.
  induction terms as [|[x w] terms IH]; intros Hw; [done|].
  change (value (without_gaps v) x * w + cost_terms (without_gaps v) terms
          <= value v x * w + cost_terms v terms).
  assert (cost_terms (without_gaps v) terms <= cost_terms v terms) as Hrest.
  { apply IH. intros t Ht. apply Hw. by right. }
  destruct (Hw (x, w)) as [Hs | Hpos]; [left| |]; cbn [fst snd] in *.
  - replace (value (without_gaps v) x) with (value v x) by (by destruct x).
    lia.
  - assert (value (without_gaps v) x * w <= value v x * w); [|lia].
    destruct x as [k|t d s|r d s|t d s].
    1-3: apply Z.le_refl.
    change (value (without_gaps v) (gap_var t d s)) with 0.
    unfold value. destruct (v _); lia.
Qed.

(** In every model the builder produces, the gap indicators are free: a
    feasible valuation stays feasible, and costs no more, once they are all
    set to 0, whatever gaps the schedule has. *)
Lemma gap_indicators_free sn vars m v :
  build_model sn = Some (vars, m) ->
  feasible (without_gaps v) m = feasible v m
  /\ cost (without_gaps v) m <= cost v m
  /\ teacher_gaps vars sn (without_gaps v) = teacher_gaps vars sn v.
Proof.
  unfold build_model.
  destruct (create_decision_variables sn) as [vars0|];
    cbn [mbind option_bind]; [|discriminate].
  destruct (add_hard_constraints vars0 sn) as [hard|] eqn:Hhard;
    cbn [mbind option_bind]; [|discriminate].
  destruct (add_soft_constraints vars0 sn) as [[soft obj]|] eqn:Hsoft;
    cbn [mbind option_bind]; [|discriminate].
  intros Hm. apply (inj Some) in Hm. injection Hm as <- <-.
  apply add_hard_constraints_schedule in Hhard.
  apply add_soft_constraints_schedule in Hsoft as [Hsoft Hobj].
  pose proof (schedule_only_app _ _ Hhard Hsoft) as Hcs.
  split; [|split].
  - unfold feasible. cbn [constraints]. apply forallb_ext_elem.
    intros c Hc. apply holds_without_gaps. intros x Hx. by eapply Hcs.
  - unfold cost. cbn [objective]. by apply cost_terms_without_gaps.
  - unfold teacher_gaps. apply (f_equal len).
    assert (Hbusy : forall t d s,
              teacher_busy vars0 sn (without_gaps v) t d s
              = teacher_busy vars0 sn v t d s).
    { intros t d s. unfold teacher_busy. apply existsb_ext_elem.
      intros x Hx%teacher_slot_vars_schedule. by destruct x. }
    apply list_bind_ext; [|done]. intros t.
    apply list_bind_ext; [|done]. intros d.
    apply list_bind_ext; [|done]. intros s.
    by rewrite !Hbusy.
Qed.

(** ** Teacher gaps *)

(** C8. The gap indicators of the objective are free variables: no
    constraint ties them to the schedule ([gap_indicators_free]). Of two
    schedules of the same teacher on the same day and in the same room, one
    with a gap and one without, both are feasible at cost 0, the least cost
    there is. *)
Theorem gap_costs_nothing :
  build_model eng_snapshot = Some (eng_vars, eng_model)
  /\ feasible gapped eng_model = true
  /\ feasible compact eng_model = true
  /\ teacher_gaps eng_vars eng_snapshot gapped = 1
  /\ teacher_gaps eng_vars eng_snapshot compact = 0
  /\ cost gapped eng_model = 0
  /\ cost compact eng_model = 0
  /\ (forall v, 0 <= cost v eng_model)
  /\ (gap_var (teacher_id eng_teacher) 0 1, 10) ∈ default [] (objective eng_model).
Proof.
  split; [vm_compute; reflexivity|].
  split; [vm_compute; reflexivity|].
  split; [vm_compute; reflexivity|].
  split; [vm_compute; reflexivity|].
  split; [vm_compute; reflexivity|].
  split; [vm_compute; reflexivity|].
  split; [vm_compute; reflexivity|].
  split; [intros v; apply cost_nonneg; vm_compute; reflexivity|].
  apply list_elem_of_lookup. exists 1%nat. vm_compute. reflexivity.
Qed.

(** ** Starting a generation *)







(** ** Lunch windows *)

Lemma for_each_unchanged {A S} (l : list A) (body : S -> A -> option S) (st : S) :
  (forall x, x ∈ l -> body st x = Some st) -> for_each l body st = Some st.
Proof.
  induction l as [|x l IH]; intros Hbody; [reflexivity|].
  cbn [for_each]. rewrite Hbody by left.
  apply IH. intros y Hy. apply Hbody. by right.
Qed.

Lemma range_empty (lo hi : Z) : hi <= lo -> range lo hi = [].
Proof.
  intros H. unfold range, seqZ.
  replace (Z.to_nat (hi - lo)) with 0%nat by lia. reflexivity.
Qed.

(** A window whose start comes after its end has an empty slot range. *)
Lemma _add_lunch_window_constraint_inverted vars sn data lo hi terms :
  obj_get data "start_slot" = Some (JInt lo) ->
  obj_get data "end_slot" = Some (JInt hi) ->
  hi < lo ->
  _add_lunch_window_constraint vars sn data terms = Some terms.
Proof.
  intros Hlo Hhi Hlt. unfold _add_lunch_window_constraint.
  rewrite Hlo, Hhi. cbn [default as_int from_option id].
  apply for_each_unchanged. intros a _.
  apply for_each_unchanged. intros c _.
  apply for_each_unchanged. intros day _.
  cbn [mbind option_bind as_int id].
  rewrite range_empty by lia. reflexivity.
Qed.

Lemma counterexample_inverted_lunch_window_accepted :
  Schemas.validate_RuleCreate inverted_lunch_window
  = Some (Schemas.mk_RuleCreate "Lunch" "lunch_window"
            [("start_slot", JInt 6); ("end_slot", JInt 4)])
  /\ exists db',
       Schemas.create_rules_step6 "CS" 7
         (JObj [("rules", JList [inverted_lunch_window])]) cs_db = (201, db')
       /\ self_rules (load_data db' "CS" 7) = [inverted_lunch_rule]
       /\ is_Some (add_soft_constraints cs_vars (load_data db' "CS" 7)).
Proof.
  split; [vm_compute; reflexivity|].
  eexists. split; [vm_compute; reflexivity|].
  split; [vm_compute; reflexivity|].
  vm_compute. eexists. reflexivity.
Qed.

(** ** The coordinator: loading the state *)

Section foldl_insert.
Context {K V A : Type} `{Countable K} (key_of : A -> K) (val_of : A -> V).

(** A loop of dict assignments, as one union. *)
Lemma foldl_insert_union (l : list A) (m : gmap K V) :
  foldl (fun m x => <[key_of x := val_of x]> m) m l
  = list_to_map (reverse ((fun x => (key_of x, val_of x)) <$> l)) ∪ m.
Proof.
  revert m. induction l as [|x l IH]; intros m; cbn [foldl].
  - cbn. by rewrite (left_id_L ∅ (∪)).
  - rewrite IH. rewrite fmap_cons, reverse_cons, list_to_map_app.
    cbn [list_to_map foldr]. rewrite insert_empty.
    rewrite <- (assoc_L (∪)). by rewrite <- insert_union_singleton_l.
Qed.

(** Running the loop a second time changes nothing. *)
Lemma foldl_insert_twice (l : list A) (m : gmap K V) :
  let run := foldl (fun m x => <[key_of x := val_of x]> m) in
  run (run m l) l = run m l.
Proof.
  cbn zeta. rewrite !foldl_insert_union.
  rewrite (assoc_L (∪)). by rewrite (idemp_L (∪)).
Qed.
End foldl_insert.

(** The reservation index and the shared-resource catalog are the same after
    a second load. *)
Lemma load_global_state_twice_slots self db :
  let once := GlobalScheduler.load_global_state self db in
  let twice := GlobalScheduler.load_global_state once db in
  GlobalScheduler.global_slots twice = GlobalScheduler.global_slots once
  /\ GlobalScheduler.shared_resources twice = GlobalScheduler.shared_resources once.
Proof.
  cbn zeta. unfold GlobalScheduler.load_global_state.
  cbn [GlobalScheduler.global_slots GlobalScheduler.shared_resources].
  split.
  - apply (foldl_insert_twice GlobalScheduler.cell slot_department).
  - apply (foldl_insert_twice classroom_id
             (fun c => {| GlobalScheduler.res_room_id := room_id c;
                          GlobalScheduler.res_room_type := classroom_room_type c;
                          GlobalScheduler.res_capacity := capacity c;
                          GlobalScheduler.res_departments := [] |})).
Qed.

(** C6. [load_global_state] is not idempotent on the registry of department
    timetables: it appends to the lists it finds, so a second load of a
    store with one completed timetable registers that timetable twice. Nor
    does it start from an empty index: a reservation held in memory and
    absent from the store survives the load. *)
Theorem load_global_state_twice_duplicates :
  let once := GlobalScheduler.load_global_state GlobalScheduler.init completed_db in
  let twice := GlobalScheduler.load_global_state once completed_db in
  GlobalScheduler.department_timetables once !! "CS"
  = Some [cs_timetable "completed"]
  /\ GlobalScheduler.department_timetables twice !! "CS"
     = Some [cs_timetable "completed"; cs_timetable "completed"]
  /\ filter (fun r => is_global_slot r = true) (scheduled_slots completed_db) = []
  /\ GlobalScheduler.global_slots
       (GlobalScheduler.load_global_state stale_scheduler completed_db)
       !! (1, 0, 3) = Some "CS".
Proof. cbn zeta. repeat split; vm_compute; reflexivity. Qed.

(** ** The coordinator: reserving slots *)

(** C10. [reserve_global_slots] returns [True] and changes nothing in the
    store but the [is_global_slot] field of the rows of the named timetable
    whose id is in [slot_ids]; when no row is named the store is unchanged
    and the call still returns [True]. *)
Theorem reserve_global_slots_frame (self : GlobalScheduler.t) (db : Storage)
    (department : string) (tid : Z) (slot_ids : list Z) :
  exists self' db',
    GlobalScheduler.reserve_global_slots self db department tid slot_ids
    = (true, self', db')
    /\ teachers db' = teachers db /\ courses db' = courses db
    /\ classrooms db' = classrooms db /\ assignments db' = assignments db
    /\ rules db' = rules db /\ dept_timetables db' = dept_timetables db
    /\ slot_seq db' = slot_seq db /\ rule_seq db' = rule_seq db
    /\ length (scheduled_slots db') = length (scheduled_slots db)
    /\ (forall i r, scheduled_slots db !! i = Some r ->
          exists r',
            scheduled_slots db' !! i = Some r'
            /\ slot_id r' = slot_id r
            /\ dept_timetable_id r' = dept_timetable_id r
            /\ slot_assignment_id r' = slot_assignment_id r
            /\ slot_classroom_id r' = slot_classroom_id r
            /\ day_of_week r' = day_of_week r
            /\ start_time r' = start_time r /\ end_time r' = end_time r
            /\ slot_department r' = slot_department r
            /\ (dept_timetable_id r = tid /\ slot_id r ∈ slot_ids ->
                is_global_slot r' = true)
            /\ (~ (dept_timetable_id r = tid /\ slot_id r ∈ slot_ids) -> r' = r))
    /\ ((forall r, r ∈ scheduled_slots db ->
           ~ (dept_timetable_id r = tid /\ slot_id r ∈ slot_ids)) ->
        db' = db).
Proof.
  unfold GlobalScheduler.reserve_global_slots. eexists _, _.
  split; [reflexivity|].
  unfold GlobalScheduler.update_is_global, GlobalScheduler.named_slot.
  cbn [with_scheduled_slots teachers courses classrooms assignments rules
       dept_timetables scheduled_slots slot_seq rule_seq].
  repeat (split; [reflexivity|]).
  split; [by rewrite length_fmap|].
  split.
  - intros i r Hr. eexists. rewrite list_lookup_fmap, Hr. cbn [fmap option_fmap option_map].
    split; [reflexivity|].
    destruct (bool_decide (dept_timetable_id r = tid)) eqn:E1;
      destruct (bool_decide (slot_id r ∈ slot_ids)) eqn:E2; cbn [andb];
      do 8 (split; [reflexivity|]);
      try apply bool_decide_eq_true in E1; try apply bool_decide_eq_false in E1;
      try apply bool_decide_eq_true in E2; try apply bool_decide_eq_false in E2;
      split; intros HH; first [reflexivity | exfalso; tauto].
  - intros Hnone. destruct db as [? ? ? ? ? ? rows ? ?].
    unfold with_scheduled_slots.
    cbn [teachers courses classrooms assignments rules dept_timetables
         scheduled_slots slot_seq rule_seq] in *.
    f_equal. rewrite <- (list_fmap_id rows) at 2.
    apply list_fmap_ext. intros _ r Hr%list_elem_of_lookup_2. cbn [id].
    destruct (bool_decide (dept_timetable_id r = tid)) eqn:E1;
      destruct (bool_decide (slot_id r ∈ slot_ids)) eqn:E2; cbn [andb]; try reflexivity.
    apply bool_decide_eq_true in E1. apply bool_decide_eq_true in E2.
    exfalso. by apply (Hnone r Hr).
Qed.

(** ** The coordinator: consistency with the store *)

Import GlobalScheduler.

Section dict_loops.
Context {K V A : Type} `{Countable K} `{EqDecision V} (key_of : A -> K).

(** [for x in l: d[key_of(x)] = v]. *)
Lemma lookup_foldl_insert (v : V) (l : list A) (m : gmap K V) (k : K) :
  foldl (fun m x => <[key_of x := v]> m) m l !! k
  = if bool_decide (k ∈ key_of <$> l) then Some v else m !! k.
Proof.
  revert m. induction l as [|x l IH]; intros m; cbn [foldl]; [done|].
  rewrite IH, fmap_cons. case_bool_decide as Hl.
  - rewrite bool_decide_eq_true_2; [done | by right].
  - destruct (decide (k = key_of x)) as [->|Hne].
    + rewrite lookup_insert_eq, bool_decide_eq_true_2; [done | left].
    + rewrite lookup_insert_ne by done.
      rewrite bool_decide_eq_false_2; [done|].
      intros [?|?]%elem_of_cons; done.
Qed.

(** [for x in l: if d.get(key_of(x)) == v: del d[key_of(x)]]. *)
Lemma lookup_foldl_delete (v : V) (l : list A) (m : gmap K V) (k : K) :
  foldl (fun m x => if bool_decide (m !! key_of x = Some v)
                    then delete (key_of x) m else m) m l !! k
  = if bool_decide (k ∈ key_of <$> l /\ m !! k = Some v) then None else m !! k.
Proof.
  revert m. induction l as [|x l IH]; intros m; cbn [foldl].
  { rewrite bool_decide_eq_false_2; [done|]. intros [[]%elem_of_nil _]. }
  rewrite IH, fmap_cons. clear IH.
  destruct (decide (m !! key_of x = Some v)) as [Hx|Hx].
  - rewrite (bool_decide_eq_true_2 _ Hx).
    destruct (decide (k = key_of x)) as [->|Hne].
    + rewrite lookup_delete_eq.
      rewrite (bool_decide_eq_true_2 (_ ∈ _ :: _ /\ _)); [|split; [left|done]].
      by case_bool_decide.
    + rewrite lookup_delete_ne by done.
      case_bool_decide as H1; case_bool_decide as H2; try done.
      * destruct H2. destruct H1. split; [by right|done].
      * destruct H1. destruct H2 as [[?|?]%elem_of_cons ?]; done.
  - rewrite (bool_decide_eq_false_2 _ Hx).
    case_bool_decide as H1; case_bool_decide as H2; try done.
    + destruct H2. destruct H1. split; [by right|done].
    + destruct H1. destruct H2 as [[->|?]%elem_of_cons ?]; done.
Qed.
End dict_loops.

Lemma NoDup_fmap_elem_eq {A B} (f : A -> B) (l : list A) (x y : A) :
  NoDup (f <$> l) -> x ∈ l -> y ∈ l -> f x = f y -> x = y.
Proof.
  induction l as [|z l IH]; intros Hnd Hx Hy Hf.
  { by apply elem_of_nil in Hx. }
  rewrite fmap_cons in Hnd. apply NoDup_cons in Hnd as [Hz Hnd].
  apply elem_of_cons in Hx as [->|Hx]; apply elem_of_cons in Hy as [->|Hy].
  - done.
  - destruct Hz. rewrite Hf. by apply list_elem_of_fmap_2.
  - destruct Hz. rewrite <- Hf. by apply list_elem_of_fmap_2.
  - by apply IH.
Qed.

Section update_is_global.
Variables (where_ : ScheduledSlot -> bool) (b : bool) (db : Storage).

Lemma scheduled_slots_update_is_global :
  scheduled_slots (update_is_global where_ b db)
  = (fun r => if where_ r then set_global b r else r) <$> scheduled_slots db.
Proof. reflexivity. Qed.

Lemma update_is_global_cells :
  cell <$> scheduled_slots (update_is_global where_ b db)
  = cell <$> scheduled_slots db.
Proof.
  rewrite scheduled_slots_update_is_global, <- list_fmap_compose.
  apply list_fmap_ext. intros _ r _. cbn [compose].
  by destruct (where_ r).
Qed.

(** A row after the update: the row before, with its flag set where the
    filter holds. *)
Lemma elem_of_update_is_global (r' : ScheduledSlot) :
  r' ∈ scheduled_slots (update_is_global where_ b db)
  <-> exists r, r ∈ scheduled_slots db
                /\ ((where_ r = true /\ r' = set_global b r)
                    \/ (where_ r = false /\ r' = r)).
Proof.
  rewrite scheduled_slots_update_is_global, list_elem_of_fmap.
  split.
  - intros (r & -> & Hr). exists r. destruct (where_ r); eauto.
  - intros (r & Hr & [[Hw ->] | [Hw ->]]); exists r; by rewrite Hw.
Qed.
End update_is_global.

(** Rows kept by a filter after an update that preserves [f], when every
    row kept afterwards was kept by a filter before. *)
Lemma NoDup_fmap_filter_update {A B} (f : A -> B) (upd : A -> A)
    (P Q : A -> Prop) `{forall x, Decision (P x)} `{forall x, Decision (Q x)}
    (l : list A) :
  (forall x, x ∈ l -> f (upd x) = f x) ->
  (forall x, x ∈ l -> Q (upd x) -> P x) ->
  NoDup (f <$> filter P l) -> NoDup (f <$> filter Q (upd <$> l)).
Proof.
  induction l as [|x l IH]; intros Hf HQ; [done|].
  rewrite fmap_cons, !filter_cons.
  assert (IH' : NoDup (f <$> filter P l) -> NoDup (f <$> filter Q (upd <$> l))).
  { apply IH; intros y Hy; [apply Hf | apply HQ]; by right. }
  destruct (decide (Q (upd x))) as [Hq|Hq].
  - rewrite decide_True by (apply HQ; [left|done]).
    rewrite !fmap_cons. intros [Hx Hl]%NoDup_cons.
    apply NoDup_cons. split; [|by apply IH'].
    intros (y' & Hy' & [Hqy Hin]%list_elem_of_filter)%list_elem_of_fmap.
    apply list_elem_of_fmap in Hin as (y & -> & Hy).
    apply Hx. apply list_elem_of_fmap. exists y. split.
    + rewrite <- (Hf x) by left. rewrite Hy'. apply Hf. by right.
    + apply list_elem_of_filter. split; [|done]. apply HQ; [by right|done].
  - destruct (decide (P x)); [|done].
    rewrite fmap_cons. intros [_ Hl]%NoDup_cons. by apply IH'.
Qed.

Lemma distinct_cells_global rs db :
  distinct_cells rs db ->
  NoDup (cell <$> filter (fun s => is_global_slot s = true) (scheduled_slots db)).
Proof.
  intros Hnd. rewrite <- (list_fmap_id (scheduled_slots db)) at 1.
  apply (NoDup_fmap_filter_update cell id
           (fun r => is_global_slot r || named_by rs r = true)
           (fun s => is_global_slot s = true)); [done| |done].
  intros r _ Hg. cbn [id] in Hg. by rewrite Hg.
Qed.

(** Two reserved rows in the same cell are the same row. *)
Lemma distinct_cells_eq rs db r1 r2 :
  distinct_cells rs db ->
  r1 ∈ scheduled_slots db -> r2 ∈ scheduled_slots db ->
  is_global_slot r1 || named_by rs r1 = true ->
  is_global_slot r2 || named_by rs r2 = true ->
  cell r1 = cell r2 -> r1 = r2.
Proof.
  intros Hnd H1 H2 Hp1 Hp2.
  apply (NoDup_fmap_elem_eq cell _ _ _ Hnd); by apply list_elem_of_filter.
Qed.

Lemma consistent_reserve self db department tid slot_ids rs :
  distinct_cells (Reserve department tid slot_ids :: rs) db ->
  consistent self db ->
  (forall r, r ∈ scheduled_slots db -> dept_timetable_id r = tid ->
             slot_department r = department) ->
  consistent (serve (self, db) (Reserve department tid slot_ids)).1
             (serve (self, db) (Reserve department tid slot_ids)).2.
Proof.
  intros Hnd Hinv Hown.
  change (consistent
    (with_global_slots
       (foldl (fun g slot => <[cell slot := department]> g) (global_slots self)
          (filter (fun r => named_slot tid slot_ids r && is_global_slot r = true)
             (scheduled_slots (update_is_global (named_slot tid slot_ids) true db))))
       self)
    (update_is_global (named_slot tid slot_ids) true db)).
  assert (Htid : forall r, named_slot tid slot_ids r = true -> dept_timetable_id r = tid).
  { intros r [H1 _]%andb_prop. by apply bool_decide_eq_true in H1. }
  assert (Hsame : forall r, named_slot tid slot_ids (set_global true r)
                            = named_slot tid slot_ids r) by reflexivity.
  set (p := named_slot tid slot_ids) in *.
  intros k d. cbn [global_slots with_global_slots].
  rewrite lookup_foldl_insert.
  assert (Hres : k ∈ cell <$> filter (fun r => p r && is_global_slot r = true)
                                      (scheduled_slots (update_is_global p true db))
                 <-> exists r, r ∈ scheduled_slots db /\ p r = true /\ cell r = k).
  { rewrite list_elem_of_fmap. split.
    - intros (r' & -> & [Hsel Hr']%list_elem_of_filter).
      apply andb_prop in Hsel as [Hsel _].
      apply elem_of_update_is_global in Hr' as (r & Hr & [[Hw ->] | [Hw ->]]).
      + exists r. done.
      + congruence.
    - intros (r & Hr & Hsel & <-). exists (set_global true r). split; [done|].
      apply list_elem_of_filter. split; [by rewrite Hsame, Hsel|].
      apply elem_of_update_is_global. eauto. }
  split.
  - case_bool_decide as Hk.
    + intros [= <-]. apply Hres in Hk as (r & Hr & Hsel & <-).
      exists (set_global true r).
      split; [apply elem_of_update_is_global; eauto|].
      repeat split. change (slot_department r = department). by apply Hown, Htid.
    + intros Hg. apply Hinv in Hg as (r & Hr & Hglob & <- & <-).
      destruct (p r) eqn:Hsel.
      * exists (set_global true r).
        split; [apply elem_of_update_is_global; eauto|done].
      * exists r. split; [apply elem_of_update_is_global; eauto|done].
  - intros (r' & Hr' & Hglob & <- & <-).
    apply elem_of_update_is_global in Hr' as (r & Hr & [[Hw ->] | [Hw ->]]).
    + rewrite bool_decide_eq_true_2 by (apply Hres; exists r; done).
      f_equal. symmetry. change (slot_department r = department).
      by apply Hown, Htid.
    + rewrite bool_decide_eq_false_2.
      * apply Hinv. eauto.
      * intros (r2 & Hr2 & Hsel2 & Hcell)%Hres.
        assert (r2 = r) as ->; [|congruence].
        apply (distinct_cells_eq _ _ _ _ Hnd); try done.
        -- change (named_by (Reserve department tid slot_ids :: rs) r2)
             with (p r2 || named_by rs r2).
           rewrite Hsel2. by rewrite orb_true_r.
        -- by rewrite Hglob.
Qed.

Lemma consistent_release self db department tid rs :
  distinct_cells (Release department tid :: rs) db ->
  consistent self db ->
  (forall r, r ∈ scheduled_slots db -> dept_timetable_id r = tid ->
             slot_department r = department) ->
  consistent (serve (self, db) (Release department tid)).1
             (serve (self, db) (Release department tid)).2.
Proof.
  intros Hnd Hinv Hown.
  change (consistent
    (with_global_slots
       (foldl (fun g slot => if bool_decide (g !! cell slot = Some department)
                             then delete (cell slot) g else g)
              (global_slots self)
              (filter (fun r => global_slot_of tid r = true) (scheduled_slots db)))
       self)
    (update_is_global (global_slot_of tid) false db)).
  assert (Htid : forall r, global_slot_of tid r = true ->
                           dept_timetable_id r = tid /\ is_global_slot r = true).
  { intros r [H1 H2]%andb_prop. by apply bool_decide_eq_true in H1. }
  generalize dependent (global_slot_of tid). intros p Htid.
  intros k d. cbn [global_slots with_global_slots].
  rewrite lookup_foldl_delete.
  assert (Hrel : k ∈ cell <$> filter (fun r => p r = true) (scheduled_slots db)
                 <-> exists r, r ∈ scheduled_slots db /\ p r = true /\ cell r = k).
  { rewrite list_elem_of_fmap. split.
    - intros (r & -> & [Hsel Hr]%list_elem_of_filter). eauto.
    - intros (r & Hr & Hsel & <-). exists r. split; [done|].
      by apply list_elem_of_filter. }
  split.
  - case_bool_decide as Hk; [done|]. intros Hg.
    pose proof Hg as (r & Hr & Hglob & <- & <-)%Hinv.
    destruct (p r) eqn:Hsel.
    + destruct Hk. split; [apply Hrel; eauto|].
      rewrite Hg. f_equal. by apply Hown, Htid.
    + exists r. split; [apply elem_of_update_is_global; eauto|done].
  - intros (r' & Hr' & Hglob & <- & <-).
    apply elem_of_update_is_global in Hr' as (r & Hr & [[Hw ->] | [Hw ->]]);
      [done|].
    rewrite bool_decide_eq_false_2.
    + apply Hinv. eauto.
    + intros [(r2 & Hr2 & Hsel2 & Hcell)%Hrel _].
      assert (r2 = r) as ->; [|congruence].
      apply (distinct_cells_eq _ _ _ _ Hnd); try done.
      * destruct (Htid r2 Hsel2) as [_ ->]. done.
      * by rewrite Hglob.
Qed.

Lemma filter_none {A} (P : A -> Prop) `{forall x, Decision (P x)} (l : list A) :
  (forall x, x ∈ l -> ~ P x) -> filter P l = [].
Proof.
  induction l as [|x l IH]; intros Hl; [done|].
  rewrite filter_cons. destruct (decide (P x)) as [Hx|_].
  - destruct (Hl x); [left | done].
  - apply IH. intros y Hy. apply Hl. by right.
Qed.

(** The counting loop of [validate_global_consistency] on rows of distinct
    cells counts every cell once. *)
Lemma slot_count_distinct (l : list ScheduledSlot) (m : gmap cell_key Z) :
  NoDup (cell <$> l) ->
  (forall r, r ∈ l -> m !! cell r = None) ->
  forall k c,
    foldl (fun m slot => <[cell slot := default 0 (m !! cell slot) + 1]> m) m l
      !! k = Some c ->
    m !! k = Some c \/ c = 1.
Proof.
  revert m. induction l as [|x l IH]; intros m Hnd Hfresh k c; cbn [foldl].
  { by left. }
  rewrite fmap_cons in Hnd. apply NoDup_cons in Hnd as [Hx Hnd].
  rewrite (Hfresh x) by left. cbn [default from_option id].
  intros Hc.
  assert (Hfresh' : forall r, r ∈ l -> <[cell x := 0 + 1]> m !! cell r = None).
  { intros r Hr. rewrite lookup_insert_ne.
    - apply Hfresh. by right.
    - intros Heq. apply Hx. rewrite Heq. by apply list_elem_of_fmap_2. }
  destruct (IH _ Hnd Hfresh' k c Hc) as [Hc' | ->]; [|by right].
  destruct (decide (cell x = k)) as [<-|Hne].
  - rewrite lookup_insert_eq in Hc'. right. apply (inj Some) in Hc'. lia.
  - rewrite lookup_insert_ne in Hc' by done. by left.
Qed.

Lemma validate_consistent self db rs :
  distinct_cells rs db -> consistent self db ->
  validate_global_consistency self db = (true, []).
Proof.
  intros Hnd Hinv. unfold validate_global_consistency.
  set (rows := filter (fun s => is_global_slot s = true) (scheduled_slots db)).
  assert (Hdom : dom (global_slots self) = list_to_set (cell <$> rows)).
  { apply set_eq. intros k.
    rewrite elem_of_dom, elem_of_list_to_set, list_elem_of_fmap. split.
    - intros [d (r & Hr & Hg & <- & _)%Hinv]. exists r. split; [done|].
      by apply list_elem_of_filter.
    - intros (r & -> & [Hg Hr]%list_elem_of_filter).
      exists (slot_department r). apply Hinv. eauto. }
  assert (Hcount :
    filter (fun p : cell_key * Z => 1 < p.2)
      (map_to_list
         (foldl (fun m slot => <[cell slot := default 0 (m !! cell slot) + 1]> m)
                (∅ : gmap cell_key Z) rows)) = []).
  { apply filter_none. intros [k c] Hkc%elem_of_map_to_list.
    apply slot_count_distinct in Hkc as [Hkc | ->]; cbn [snd]; [done|lia| |done].
    by eapply distinct_cells_global. }
  clearbody rows. cbn zeta. rewrite Hdom, Hcount, difference_diag_L.
  reflexivity.
Qed.

(** The store after a request. *)
Lemma serve_storage st q :
  (serve st q).2
  = match q with
    | Reserve _ tid ids => update_is_global (named_slot tid ids) true st.2
    | Release _ tid => update_is_global (global_slot_of tid) false st.2
    end.
Proof. by destruct st, q. Qed.

(** A request changes no cell, timetable or department. *)
Lemma serve_rows st q r' :
  r' ∈ scheduled_slots (serve st q).2 ->
  exists r, r ∈ scheduled_slots st.2 /\ cell r' = cell r
            /\ dept_timetable_id r' = dept_timetable_id r
            /\ slot_department r' = slot_department r.
Proof.
  rewrite serve_storage.
  destruct q as [d tid ids | d tid];
    intros (r & Hr & [[_ ->] | [_ ->]])%elem_of_update_is_global;
    exists r; done.
Qed.

Lemma named_by_set_global rs b r : named_by rs (set_global b r) = named_by rs r.
Proof. reflexivity. Qed.

Lemma serve_distinct_cells st q rs :
  distinct_cells (q :: rs) st.2 -> distinct_cells rs (serve st q).2.
Proof.
  unfold distinct_cells, reserved_rows. rewrite serve_storage.
  destruct q as [d tid ids | d tid];
    rewrite scheduled_slots_update_is_global;
    apply NoDup_fmap_filter_update.
  - intros r _. by destruct (named_slot tid ids r).
  - intros r _.
    change (named_by (Reserve d tid ids :: rs) r)
      with (named_slot tid ids r || named_by rs r).
    destruct (named_slot tid ids r) eqn:Hsel; [by rewrite orb_true_r|].
    done.
  - intros r _. by destruct (global_slot_of tid r).
  - intros r _.
    change (named_by (Release d tid :: rs) r) with (named_by rs r).
    destruct (global_slot_of tid r) eqn:Hsel; [|done].
    rewrite named_by_set_global. cbn [set_global is_global_slot orb].
    intros ->. by rewrite orb_true_r.
Qed.

Lemma serve_own_department st q rs :
  own_department rs st.2 -> own_department rs (serve st q).2.
Proof.
  intros Hown q' r' Hq' Hr' Htid.
  apply serve_rows in Hr' as (r & Hr & _ & Ht & Hd).
  rewrite Hd. apply Hown; [done..|]. by rewrite <- Ht.
Qed.

Lemma serve_consistent st q rs :
  distinct_cells (q :: rs) st.2 -> consistent st.1 st.2 ->
  (forall r, r ∈ scheduled_slots st.2 ->
     dept_timetable_id r = request_timetable q ->
     slot_department r = request_department q) ->
  consistent (serve st q).1 (serve st q).2.
Proof.
  destruct st as [self db], q as [d tid ids | d tid]; cbn [fst snd].
  - apply consistent_reserve.
  - apply consistent_release.
Qed.

Lemma serve_all_consistent rs st :
  distinct_cells rs st.2 -> consistent st.1 st.2 -> own_department rs st.2 ->
  distinct_cells [] (serve_all st rs).2
  /\ consistent (serve_all st rs).1 (serve_all st rs).2.
Proof.
  revert st. induction rs as [|q rs IH]; intros st Hnd Hinv Hown; [done|].
  cbn [serve_all foldl]. apply IH.
  - by apply serve_distinct_cells.
  - apply (serve_consistent _ _ rs); [done..|].
    intros r Hr. apply Hown; [left|done].
  - apply serve_own_department. intros q' r Hq'. apply Hown. by right.
Qed.

(** A coordinator loaded from a store of distinct cells is consistent
    with it. *)
Lemma load_global_state_consistent rs db :
  distinct_cells rs db -> consistent (load_global_state init db) db.
Proof.
  intros Hnd k d. unfold load_global_state, init. cbn [global_slots].
  rewrite (foldl_insert_union cell slot_department).
  rewrite (right_id_L ∅ (∪)).
  rewrite <- elem_of_list_to_map.
  - rewrite elem_of_reverse, list_elem_of_fmap. split.
    + intros (r & [= -> ->] & [Hg Hr]%list_elem_of_filter). eauto.
    + intros (r & Hr & Hg & <- & <-). exists r. split; [done|].
      by apply list_elem_of_filter.
  - rewrite <- fmap_reverse, <- list_fmap_compose. cbn [compose fst].
    rewrite fmap_reverse, reverse_Permutation. by eapply distinct_cells_global.
Qed.

(** C4. [reserve_global_slots] tests neither the cell nor the department
    of what it reserves. From a store and an index that validate, reserving
    the rows of two timetables that lie in one cell succeeds twice and leaves
    a state that [validate_global_state] reports as double-booked; and a
    request that names another department than the one of the rows records
    that department in the index. *)
Theorem double_reservation_not_prevented :
  validate_global_state init two_timetables_db = (true, [])
  /\ validate_global_state
       (serve_all (init, two_timetables_db)
                  [Reserve "CS" 1 [1]; Reserve "CS" 2 [2]]).1
       (serve_all (init, two_timetables_db)
                  [Reserve "CS" 1 [1]; Reserve "CS" 2 [2]]).2
     = (false, ["Found 1 double-booked slots"])
  /\ scheduled_slots
       (serve_all (init, two_timetables_db) [Reserve "Mathematics" 1 [1]]).2
     = [set_global true (monday_first 1 1); monday_first 2 2]
  /\ slot_department (monday_first 1 1) = "CS"
  /\ global_slots
       (serve_all (init, two_timetables_db) [Reserve "Mathematics" 1 [1]]).1
       !! cell (monday_first 1 1)
     = Some "Mathematics".
Proof. repeat split; vm_compute; reflexivity. Qed.

(** What does hold. Provided no two of the rows that are reserved or that
    the requests name occupy the same (classroom, day, slot) cell, the index
    agrees with the store to begin with, and every request names the
    department of the rows of the timetable it names: after any finite
    sequence of reserve and release requests [validate_global_state] returns
    ok with no error, and the index maps the cell of every row with
    [is_global_slot = true] to the department of that row. *)
Lemma coordinator_consistency (self : t) (db : Storage) (rs : list request) :
  distinct_cells rs db -> consistent self db -> own_department rs db ->
  validate_global_state (serve_all (self, db) rs).1 (serve_all (self, db) rs).2
  = (true, [])
  /\ forall r, r ∈ scheduled_slots (serve_all (self, db) rs).2 ->
       is_global_slot r = true ->
       global_slots (serve_all (self, db) rs).1 !! cell r
       = Some (slot_department r).
Proof.
  intros Hnd Hinv Hown.
  destruct (serve_all_consistent rs (self, db) Hnd Hinv Hown) as [Hnd' Hinv'].
  split; [by eapply validate_consistent|].
  intros r Hr Hg. apply Hinv'. eauto.
Qed.

Lemma coordinator_consistency_witness :
  let st := serve_all (load_global_state init two_timetables_db, two_timetables_db)
                      reserve_release_reserve in
  validate_global_state st.1 st.2 = (true, [])
  /\ forall r, r ∈ scheduled_slots st.2 -> is_global_slot r = true ->
       global_slots st.1 !! cell r = Some (slot_department r).
Proof.
  assert (Hnd : distinct_cells reserve_release_reserve two_timetables_db).
  { apply (bool_decide_unpack _). vm_compute. exact I. }
  apply (coordinator_consistency (load_global_state init two_timetables_db)
           two_timetables_db reserve_release_reserve).
  - exact Hnd.
  - apply (load_global_state_consistent _ _ Hnd).
  - intros q r Hq Hr _.
    assert (slot_department r = "CS") as ->.
    { repeat (apply elem_of_cons in Hr as [->|Hr]; [reflexivity|]).
      by apply elem_of_nil in Hr. }
    repeat (apply elem_of_cons in Hq as [->|Hq]; [reflexivity|]).
    by apply elem_of_nil in Hq.
Defined.

(** ** The keys of [schedule_vars] *)

Lemma dict_set_NoDup {K} `{EqDecision K} (k : K) (d : list K) :
  NoDup d -> NoDup (dict_set k d).
Proof.
  intros Hd. unfold dict_set. case_bool_decide as Hk; [done|].
  apply NoDup_app. repeat split; [done| |apply NoDup_singleton].
  intros x Hx ->%list_elem_of_singleton. done.
Qed.

Lemma create_decision_variables_NoDup sn vars :
  create_decision_variables sn = Some vars -> NoDup vars.
Proof.
  unfold create_decision_variables.
  apply (for_each_inv (@NoDup key)); [apply NoDup_nil_2|].
  intros vars0 a vars1 _ Hnd.
  apply (for_each_inv (@NoDup key)); [done|].
  intros vars2 c vars3 _ Hnd2 Hbody.
  destruct (next_course sn (assignment_course_id a)) as [course|];
    cbn [mbind option_bind] in Hbody; [|discriminate].
  destruct (_is_room_compatible _ _);
    apply (inj Some) in Hbody; subst vars3; [|done].
  apply (foldl_inv (@NoDup key)); [done|]. intros vars4 d _ Hnd4.
  apply (foldl_inv (@NoDup key)); [done|]. intros vars5 s _ Hnd5.
  by apply dict_set_NoDup.
Qed.

(** The parts of a built model. *)
Lemma build_model_parts sn vars m :
  build_model sn = Some (vars, m) ->
  exists c1 soft,
    create_decision_variables sn = Some vars
    /\ session_count_constraints vars sn = Some c1
    /\ add_soft_constraints vars sn = Some (soft, objective m)
    /\ constraints m
       = (c1 ++ teacher_overlap_constraints vars sn
             ++ room_overlap_constraints vars sn
             ++ availability_constraints vars sn
             ++ daily_load_constraints vars sn
             ++ group_constraints vars sn) ++ soft.
Proof.
  unfold build_model.
  destruct (create_decision_variables sn) as [vars0|] eqn:Hv;
    cbn [mbind option_bind]; [|discriminate].
  unfold add_hard_constraints.
  destruct (session_count_constraints vars0 sn) as [c1|] eqn:Hc;
    cbn [mbind option_bind]; [|discriminate].
  destruct (add_soft_constraints vars0 sn) as [[soft obj]|] eqn:Hs;
    cbn [mbind option_bind]; [|discriminate].
  intros Hm. apply (inj Some) in Hm. injection Hm as <- <-.
  exists c1, soft. by rewrite Hc, Hs.
Qed.

(** ** The slots extracted from a solution *)

Lemma extract_solution_loop sn (v : valuation) vars acc :
  for_each vars (fun (scheduled_slots : list scheduled) (k : key) =>
    if v (schedule_var k)
    then
      let '(assignment_id, classroom_id, day, slot) := k in
      assignment ← next_assignment sn assignment_id;
      classroom ← next_classroom sn classroom_id;
      course ← next_course sn (assignment_course_id assignment);
      let start_time := _slot_to_time slot in
      let end_time := _add_minutes_to_time start_time (duration_minutes course) in
      Some (scheduled_slots ++
            [{| sch_assignment_id := assignment_id;
                sch_classroom_id := classroom_id;
                sch_day_of_week := day;
                sch_start_time := start_time;
                sch_end_time := end_time;
                sch_course_name := course_name course;
                sch_room_id := room_id classroom |}])
    else Some scheduled_slots) acc
  = (fun out => acc ++ out) <$> mapM (scheduled_of sn) (chosen vars v).
Proof.
  revert acc. induction vars as [|k vars IH]; intros acc.
  { cbn. by rewrite app_nil_r. }
  cbn [for_each]. unfold chosen. rewrite filter_cons. fold (chosen vars v).
  destruct (v (schedule_var k)) eqn:Hv.
  - rewrite decide_True by done. cbn [mapM].
    destruct k as [[[aid cid] d] sl]. cbn [scheduled_of].
    destruct (next_assignment sn aid) as [a|]; cbn [mbind option_bind]; [|done].
    destruct (next_classroom sn cid) as [c|]; cbn [mbind option_bind]; [|done].
    destruct (next_course sn (assignment_course_id a)) as [course|];
      cbn [mbind option_bind]; [|done].
    rewrite IH. destruct (mapM _ _) as [out|]; cbn; [|done].
    by rewrite <- (assoc_L (++)).
  - rewrite decide_False by done. apply IH.
Qed.

(** The extracted dicts are those of the chosen keys, one for one and in
    order. *)
Lemma extract_solution_chosen vars sn v out :
  extract_solution vars sn v = Some out ->
  Forall2 (fun k s => scheduled_of sn k = Some s) (chosen vars v) out.
Proof.
  unfold extract_solution. rewrite extract_solution_loop.
  destruct (mapM _ _) as [out'|] eqn:Hm; [|discriminate].
  cbn. intros [= <-]. by apply mapM_Some.
Qed.

Lemma scheduled_of_fields sn k s :
  scheduled_of sn k = Some s ->
  sch_assignment_id s = k.1.1.1 /\ sch_classroom_id s = k.1.1.2
  /\ sch_day_of_week s = k.1.2 /\ sch_start_time s = _slot_to_time k.2.
Proof.
  destruct k as [[[aid cid] d] sl]. cbn [scheduled_of].
  destruct (next_assignment sn aid) as [a|]; cbn [mbind option_bind]; [|done].
  destruct (next_classroom sn cid) as [c|]; cbn [mbind option_bind]; [|done].
  destruct (next_course sn (assignment_course_id a)) as [course|];
    cbn [mbind option_bind]; [|done].
  intros Hs. apply (inj Some) in Hs. by subst s.
Qed.

Lemma _slot_to_time_inj s1 s2 :
  0 <= s1 < num_slots_per_day -> 0 <= s2 < num_slots_per_day ->
  _slot_to_time s1 = _slot_to_time s2 -> s1 = s2.
Proof.
  intros H1 H2 Heq. apply (f_equal time_minutes) in Heq.
  rewrite !_slot_to_time_minutes in Heq by done. lia.
Qed.

(** ** Counting the variables at 1 *)

Lemma sum_vars_nonneg (v : valuation) (l : list var) : 0 <= sum_vars v l.
Proof.
  induction l as [|x l IH]; [done|].
  change (0 <= value v x + sum_vars v l). unfold value. destruct (v x); lia.
Qed.

Lemma filter_all {A} (P : A -> Prop) `{forall x, Decision (P x)} (l : list A) :
  (forall x, x ∈ l -> P x) -> filter P l = l.
Proof.
  induction l as [|x l IH]; intros Hl; [done|].
  rewrite filter_cons, decide_True by (apply Hl; left).
  f_equal. apply IH. intros y Hy. apply Hl. by right.
Qed.

Lemma length_filter_ne {A} `{EqDecision A} (y : A) (xs : list A) :
  NoDup xs -> y ∈ xs ->
  length xs = S (length (filter (fun x => x <> y) xs)).
Proof.
  induction xs as [|x xs IH]; intros Hnd Hy; [by apply elem_of_nil in Hy|].
  apply NoDup_cons in Hnd as [Hx Hnd]. rewrite filter_cons.
  destruct (decide (x = y)) as [->|Hne].
  - rewrite decide_False by (intros H; by apply H).
    cbn [length]. f_equal. symmetry. f_equal. apply filter_all.
    intros x Hxin ->. done.
  - rewrite decide_True by done. cbn [length]. f_equal. apply IH; [done|].
    apply elem_of_cons in Hy as [->|Hy]; done.
Qed.

(** The sum of a list of variables is at least the number of distinct
    variables of the list that have value 1. *)
Lemma sum_vars_ge_distinct (v : valuation) (l xs : list var) :
  NoDup xs -> (forall x, x ∈ xs -> x ∈ l /\ v x = true) ->
  len xs <= sum_vars v l.
Proof.
  revert xs. induction l as [|y l IH]; intros xs Hnd Hxs.
  { destruct xs as [|x xs]; [done|]. destruct (Hxs x) as [[]%elem_of_nil _]. left. }
  change (len xs <= value v y + sum_vars v l).
  destruct (decide (y ∈ xs)) as [Hy|Hy].
  - assert (len (filter (fun x => x <> y) xs) <= sum_vars v l) as Hrest.
    { apply IH; [by apply NoDup_filter|].
      intros x [Hne Hx]%list_elem_of_filter. destruct (Hxs x Hx) as [Hin Hv].
      split; [|done]. apply elem_of_cons in Hin as [->|Hin]; done. }
    unfold len in *. rewrite (length_filter_ne y xs) by done.
    destruct (Hxs y Hy) as [_ Hv]. unfold value. rewrite Hv. lia.
  - assert (len xs <= sum_vars v l) as Hrest.
    { apply IH; [done|]. intros x Hx. destruct (Hxs x Hx) as [Hin Hv].
      split; [|done]. apply elem_of_cons in Hin as [->|Hin]; done. }
    unfold value. destruct (v y); lia.
Qed.

Lemma sum_vars_schedule (v : valuation) (ks : list key) :
  sum_vars v (schedule_var <$> ks) = len (chosen ks v).
Proof.
  induction ks as [|k ks IH]; [done|].
  rewrite fmap_cons. change (value v (schedule_var k)
    + sum_vars v (schedule_var <$> ks) = len (chosen (k :: ks) v)).
  rewrite IH. unfold chosen, value, len. rewrite filter_cons.
  destruct (v (schedule_var k)).
  - rewrite decide_True by done. cbn [length]. lia.
  - rewrite decide_False by done. lia.
Qed.

(** The part of a block of constraints in a model. *)
Lemma feasible_block sn vars m v c :
  build_model sn = Some (vars, m) ->
  feasible v m = true ->
  c ∈ teacher_overlap_constraints vars sn
  \/ c ∈ room_overlap_constraints vars sn
  \/ c ∈ availability_constraints vars sn
  \/ c ∈ daily_load_constraints vars sn
  \/ c ∈ group_constraints vars sn ->
  holds v c = true.
Proof.
  intros (c1 & soft & _ & _ & _ & Hcs)%build_model_parts Hv Hc.
  apply (feasible_holds v m); [done|]. rewrite Hcs, !elem_of_app. tauto.
Qed.

(** Two chosen keys of one classroom and cell are the same key: the room
    holds one class at a time. *)
Lemma room_holds_one sn vars m v k1 k2 :
  build_model sn = Some (vars, m) ->
  feasible v m = true ->
  k1 ∈ chosen vars v -> k2 ∈ chosen vars v ->
  k1.1.1.2 = k2.1.1.2 -> k1.1.2 = k2.1.2 -> k1.2 = k2.2 ->
  k1 = k2.
Proof.
  intros Hm Hv [Hv1 Hk1]%list_elem_of_filter [Hv2 Hk2]%list_elem_of_filter
    Hc Hd Hs.
  destruct (decide (k1 = k2)) as [|Hne]; [done|exfalso].
  pose proof Hm as (c1 & soft & Hvars & _)%build_model_parts.
  destruct (create_decision_variables_origin _ _ Hvars k1 Hk1)
    as (a1 & c & _ & Ha1 & Hcin & _ & _ & Hka1 & Hkc1 & Hday & Hslot).
  destruct (create_decision_variables_origin _ _ Hvars k2 Hk2)
    as (a2 & _ & _ & Ha2 & _ & _ & _ & Hka2 & _ & _ & _).
  destruct k1 as [[[x1 y1] d1] s1], k2 as [[[x2 y2] d2] s2].
  cbn [fst snd] in *. subst y2 d2 s2 x1 x2 y1.
  set (l := a ← self_assignments sn;
            let k := (assignment_id a, classroom_id c, d1, s1) in
            if has_key vars k then [schedule_var k] else []).
  assert (Hin : forall a, a ∈ self_assignments sn ->
            (assignment_id a, classroom_id c, d1, s1) ∈ vars ->
            schedule_var (assignment_id a, classroom_id c, d1, s1) ∈ l).
  { intros a Ha Hk. apply list_elem_of_bind. exists a. split; [|done].
    cbv zeta. unfold has_key. rewrite bool_decide_eq_true_2 by done. left. }
  assert (Hsum : 2 <= sum_vars v l).
  { apply (sum_vars_ge_distinct v l
             [schedule_var (assignment_id a1, classroom_id c, d1, s1);
              schedule_var (assignment_id a2, classroom_id c, d1, s1)]).
    - apply NoDup_cons. split; [|apply NoDup_singleton].
      intros Heq%list_elem_of_singleton. apply Hne. congruence.
    - intros x [->|Hx]%elem_of_cons;
        [|apply list_elem_of_singleton in Hx as ->]; split; auto. }
  assert (Hle : holds v (SumLe l 1) = true).
  { apply (feasible_block sn vars m v); [done..|]. right. left.
    unfold room_overlap_constraints.
    apply list_elem_of_bind. exists c. split; [|done].
    apply list_elem_of_bind. exists d1. split; [|done].
    apply list_elem_of_bind. exists s1. split; [|done].
    fold l. destruct l as [|x l'] eqn:Hl; [|left].
    cbn in Hsum. lia. }
  cbn [holds] in Hle. apply Z.leb_le in Hle. lia.
Qed.

(** The key behind the dict at a position of the extracted list. *)
Lemma extracted_key sn vars m v out i s :
  build_model sn = Some (vars, m) ->
  extract_solution vars sn v = Some out ->
  out !! i = Some s ->
  exists k,
    chosen vars v !! i = Some k /\ k ∈ vars /\ v (schedule_var k) = true
    /\ var_origin sn k /\ scheduled_of sn k = Some s
    /\ sch_assignment_id s = k.1.1.1 /\ sch_classroom_id s = k.1.1.2
    /\ sch_day_of_week s = k.1.2 /\ sch_start_time s = _slot_to_time k.2.
Proof.
  intros (c1 & soft & Hvars & _)%build_model_parts Hout Hs.
  apply extract_solution_chosen in Hout.
  destruct (Forall2_lookup_r _ _ _ _ _ Hout Hs) as (k & Hk & Hks).
  exists k. split; [done|].
  pose proof (list_elem_of_lookup_2 _ _ _ Hk) as [Hv Hin]%list_elem_of_filter.
  repeat split; try done.
  - by eapply create_decision_variables_origin.
  - by apply scheduled_of_fields in Hks as (? & ? & ? & ?).
  - by apply scheduled_of_fields in Hks as (? & ? & ? & ?).
  - by apply scheduled_of_fields in Hks as (? & ? & ? & ?).
  - by apply scheduled_of_fields in Hks as (? & ? & ? & ?).
Qed.

Lemma chosen_NoDup sn vars m v :
  build_model sn = Some (vars, m) -> NoDup (chosen vars v).
Proof.
  intros (c1 & soft & Hvars & _)%build_model_parts.
  apply NoDup_filter. by eapply create_decision_variables_NoDup.
Qed.

(** X1. In the slots extracted from a feasible solution no two share a
    classroom, a day and a start time. *)
Theorem extracted_rooms_never_overlap sn vars m v out i j s1 s2 :
  build_model sn = Some (vars, m) ->
  feasible v m = true ->
  extract_solution vars sn v = Some out ->
  out !! i = Some s1 -> out !! j = Some s2 ->
  sch_classroom_id s1 = sch_classroom_id s2 ->
  sch_day_of_week s1 = sch_day_of_week s2 ->
  sch_start_time s1 = sch_start_time s2 ->
  i = j.
Proof.
  intros Hm Hv Hout H1 H2 Hc Hd Ht.
  destruct (extracted_key _ _ _ _ _ _ _ Hm Hout H1)
    as (k1 & Hk1 & Hin1 & Hv1 & Ho1 & _ & _ & Hc1 & Hd1 & Ht1).
  destruct (extracted_key _ _ _ _ _ _ _ Hm Hout H2)
    as (k2 & Hk2 & Hin2 & Hv2 & Ho2 & _ & _ & Hc2 & Hd2 & Ht2).
  assert (k1 = k2) as ->.
  { apply (room_holds_one sn vars m v); try done.
    - by eapply list_elem_of_lookup_2.
    - by eapply list_elem_of_lookup_2.
    - congruence.
    - congruence.
    - destruct Ho1 as (_ & _ & _ & _ & _ & _ & _ & _ & _ & _ & Hs1).
      destruct Ho2 as (_ & _ & _ & _ & _ & _ & _ & _ & _ & _ & Hs2).
      apply elem_of_range in Hs1, Hs2.
      apply _slot_to_time_inj; [done..|congruence]. }
  by eapply NoDup_lookup; [eapply chosen_NoDup|..].
Qed.

(** Two chosen keys of one teacher and cell are the same key: the teacher
    is in one place at a time. *)
Lemma teacher_holds_one sn vars m v t a1 a2 k1 k2 :
  build_model sn = Some (vars, m) ->
  feasible v m = true ->
  t ∈ self_teachers sn ->
  a1 ∈ self_assignments sn -> a2 ∈ self_assignments sn ->
  assignment_teacher_id a1 = teacher_id t ->
  assignment_teacher_id a2 = teacher_id t ->
  k1 ∈ chosen vars v -> k2 ∈ chosen vars v ->
  k1.1.1.1 = assignment_id a1 -> k2.1.1.1 = assignment_id a2 ->
  k1.1.2 = k2.1.2 -> k1.2 = k2.2 ->
  k1 = k2.
Proof.
  intros Hm Hv Ht Ha1 Ha2 Ht1 Ht2
    [Hv1 Hk1]%list_elem_of_filter [Hv2 Hk2]%list_elem_of_filter
    Hid1 Hid2 Hd Hs.
  destruct (decide (k1 = k2)) as [|Hne]; [done|exfalso].
  pose proof Hm as (c1 & soft & Hvars & _)%build_model_parts.
  destruct (create_decision_variables_origin _ _ Hvars k1 Hk1)
    as (_ & r1 & _ & _ & Hr1 & _ & _ & _ & Hkc1 & Hday & Hslot).
  destruct (create_decision_variables_origin _ _ Hvars k2 Hk2)
    as (_ & r2 & _ & _ & Hr2 & _ & _ & _ & Hkc2 & _ & _).
  destruct k1 as [[[x1 y1] d1] s1], k2 as [[[x2 y2] d2] s2].
  cbn [fst snd] in *. subst d2 s2 x1 x2 y1 y2.
  assert (Hin : forall a r, a ∈ self_assignments sn -> r ∈ self_classrooms sn ->
            assignment_teacher_id a = teacher_id t ->
            (assignment_id a, classroom_id r, d1, s1) ∈ vars ->
            schedule_var (assignment_id a, classroom_id r, d1, s1)
            ∈ teacher_slot_vars vars sn t d1 s1).
  { intros a r Ha Hr Hta Hk. unfold teacher_slot_vars.
    apply list_elem_of_bind. exists a. split; [|done].
    rewrite bool_decide_eq_true_2 by done. unfold classroom_vars.
    apply list_elem_of_bind. exists r. split; [|done].
    cbv zeta. unfold has_key. rewrite bool_decide_eq_true_2 by done. left. }
  assert (Hsum : 2 <= sum_vars v (teacher_slot_vars vars sn t d1 s1)).
  { apply (sum_vars_ge_distinct v _
             [schedule_var (assignment_id a1, classroom_id r1, d1, s1);
              schedule_var (assignment_id a2, classroom_id r2, d1, s1)]).
    - apply NoDup_cons. split; [|apply NoDup_singleton].
      intros Heq%list_elem_of_singleton. apply Hne. congruence.
    - intros x [->|Hx]%elem_of_cons;
        [|apply list_elem_of_singleton in Hx as ->]; split; auto. }
  assert (Hle : holds v (SumLe (teacher_slot_vars vars sn t d1 s1) 1) = true).
  { apply (feasible_block sn vars m v); [done..|]. left.
    unfold teacher_overlap_constraints.
    apply list_elem_of_bind. exists t. split; [|done].
    apply list_elem_of_bind. exists d1. split; [|done].
    apply list_elem_of_bind. exists s1. split; [|done].
    destruct (teacher_slot_vars vars sn t d1 s1) as [|x l'] eqn:Hl; [|left].
    cbn in Hsum. lia. }
  cbn [holds] in Hle. apply Z.leb_le in Hle. lia.
Qed.

(** X2. In the slots extracted from a feasible solution no two slots of
    assignments of one teacher of the snapshot share a day and a start
    time. *)
Theorem extracted_teachers_never_overlap sn vars m v out t a1 a2 i j s1 s2 :
  build_model sn = Some (vars, m) ->
  feasible v m = true ->
  extract_solution vars sn v = Some out ->
  t ∈ self_teachers sn ->
  a1 ∈ self_assignments sn -> a2 ∈ self_assignments sn ->
  assignment_teacher_id a1 = teacher_id t ->
  assignment_teacher_id a2 = teacher_id t ->
  out !! i = Some s1 -> out !! j = Some s2 ->
  sch_assignment_id s1 = assignment_id a1 ->
  sch_assignment_id s2 = assignment_id a2 ->
  sch_day_of_week s1 = sch_day_of_week s2 ->
  sch_start_time s1 = sch_start_time s2 ->
  i = j.
Proof.
  intros Hm Hv Hout Ht Ha1 Ha2 Ht1 Ht2 H1 H2 Hid1 Hid2 Hd Hst.
  destruct (extracted_key _ _ _ _ _ _ _ Hm Hout H1)
    as (k1 & Hk1 & Hin1 & Hv1 & Ho1 & _ & Hi1 & _ & Hd1 & Hs1).
  destruct (extracted_key _ _ _ _ _ _ _ Hm Hout H2)
    as (k2 & Hk2 & Hin2 & Hv2 & Ho2 & _ & Hi2 & _ & Hd2 & Hs2).
  assert (k1 = k2) as ->.
  { apply (teacher_holds_one sn vars m v t a1 a2); try done.
    - by eapply list_elem_of_lookup_2.
    - by eapply list_elem_of_lookup_2.
    - congruence.
    - congruence.
    - congruence.
    - destruct Ho1 as (_ & _ & _ & _ & _ & _ & _ & _ & _ & _ & Hsl1).
      destruct Ho2 as (_ & _ & _ & _ & _ & _ & _ & _ & _ & _ & Hsl2).
      apply elem_of_range in Hsl1, Hsl2.
      apply _slot_to_time_inj; [done..|congruence]. }
  by eapply NoDup_lookup; [eapply chosen_NoDup|..].
Qed.

(** ** Counting extracted slots *)

Lemma Forall2_filter_length {A B} (R : A -> B -> Prop) (P : A -> Prop)
    (Q : B -> Prop) `{forall x, Decision (P x)} `{forall y, Decision (Q y)}
    (l : list A) (k : list B) :
  Forall2 R l k -> (forall x y, R x y -> (P x <-> Q y)) ->
  length (filter P l) = length (filter Q k).
Proof.
  intros HF HR. induction HF as [|x y l k Hxy HF IH]; [done|].
  rewrite !filter_cons. destruct (decide (P x)) as [Hp|Hp].
  - rewrite decide_True by (by apply (HR x y)). cbn [length]. by f_equal.
  - rewrite decide_False by (by rewrite <- (HR x y)). done.
Qed.

Lemma filter_filter_comm {A} (P Q : A -> Prop) `{forall x, Decision (P x)}
    `{forall x, Decision (Q x)} (l : list A) :
  filter P (filter Q l) = filter Q (filter P l).
Proof. rewrite !list_filter_filter. apply list_filter_iff. tauto. Qed.

(** X3. An assignment that has a schedule variable gets exactly
    [sessions_per_week] slots in what is extracted from a feasible
    solution. *)
Theorem extracted_session_count sn vars m v out a course k0 :
  build_model sn = Some (vars, m) ->
  feasible v m = true ->
  extract_solution vars sn v = Some out ->
  a ∈ self_assignments sn ->
  next_course sn (assignment_course_id a) = Some course ->
  k0 ∈ vars -> k0.1.1.1 = assignment_id a ->
  len (filter (fun s => sch_assignment_id s = assignment_id a) out)
  = sessions_per_week course.
Proof.
  intros Hm Hv Hout Ha Hcourse Hk0 Hid.
  destruct (filter (fun k : key => k.1.1.1 = assignment_id a) vars)
    as [|k ks] eqn:Hf.
  { assert (k0 ∈ filter (fun k : key => k.1.1.1 = assignment_id a) vars)
      as Hin by by apply list_elem_of_filter.
    rewrite Hf in Hin. by apply elem_of_nil in Hin. }
  rewrite <- (session_count_enforced_with_room sn vars m v a course k ks)
    by done.
  rewrite <- Hf, sum_vars_schedule. unfold chosen, len. f_equal.
  rewrite filter_filter_comm.
  apply extract_solution_chosen in Hout. symmetry.
  apply (Forall2_filter_length _ _ _ _ _ Hout).
  intros k' s Hks. apply scheduled_of_fields in Hks as (-> & _). done.
Qed.

(** ** Availability *)

Lemma index_Some_lt {A} (l : list A) (i : Z) (x : A) :
  index l i = Some x -> 0 <= i < len l.
Proof.
  unfold index, len. case_bool_decide; [|done].
  intros Hl%lookup_lt_Some. lia.
Qed.

Lemma teacher_slot_vars_elem vars sn t a c d s :
  a ∈ self_assignments sn -> c ∈ self_classrooms sn ->
  assignment_teacher_id a = teacher_id t ->
  (assignment_id a, classroom_id c, d, s) ∈ vars ->
  schedule_var (assignment_id a, classroom_id c, d, s)
  ∈ teacher_slot_vars vars sn t d s.
Proof.
  intros Ha Hc Hta Hk. unfold teacher_slot_vars.
  apply list_elem_of_bind. exists a. split; [|done].
  rewrite bool_decide_eq_true_2 by done. unfold classroom_vars.
  apply list_elem_of_bind. exists c. split; [|done].
  cbv zeta. unfold has_key. rewrite bool_decide_eq_true_2 by done. left.
Qed.

(** A cell the matrix marks unavailable, on a day that is not a day off,
    holds no session of the teacher. *)
Lemma unavailable_cell_respected sn vars m v teacher a c day slot
    row matrix day_row :
  build_model sn = Some (vars, m) ->
  feasible v m = true ->
  teacher ∈ self_teachers sn -> a ∈ self_assignments sn ->
  c ∈ self_classrooms sn ->
  assignment_teacher_id a = teacher_id teacher ->
  availability teacher = Some (row :: matrix) ->
  day ∈ days -> day ∉ teacher_days_off teacher -> slot ∈ slots ->
  index (row :: matrix) day = Some day_row ->
  index day_row slot = Some false ->
  (assignment_id a, classroom_id c, day, slot) ∈ vars ->
  v (schedule_var (assignment_id a, classroom_id c, day, slot)) = false.
Proof.
  intros Hm Hv Ht Ha Hc Hat Hav Hday Hoff Hslot Hrow Hcell Hk.
  assert (Hin : VarZero (schedule_var (assignment_id a, classroom_id c, day, slot))
                ∈ availability_constraints vars sn).
  { unfold availability_constraints.
    apply list_elem_of_bind. exists teacher. split; [|done]. rewrite Hav.
    apply list_elem_of_bind. exists day. split; [|done].
    rewrite bool_decide_eq_false_2 by done.
    pose proof (index_Some_lt _ _ _ Hrow) as Hlt.
    rewrite bool_decide_eq_true_2 by lia. rewrite Hrow.
    apply list_elem_of_bind. exists slot. split.
    - rewrite Hcell. apply list_elem_of_fmap_2.
      by apply teacher_slot_vars_elem.
    - pose proof (index_Some_lt _ _ _ Hcell) as Hlt2.
      apply elem_of_range in Hslot. apply elem_of_range. lia. }
  assert (Hh : holds v (VarZero (schedule_var
                  (assignment_id a, classroom_id c, day, slot))) = true).
  { apply (feasible_block sn vars m v); [done..|tauto]. }
  cbn [holds] in Hh. unfold value in Hh. by destruct (v _).
Qed.

(** X4. For a teacher of the snapshot with a non-empty availability matrix,
    no slot extracted from a feasible solution for one of the teacher's
    assignments falls on a day off, nor on a cell that the matrix marks
    unavailable. *)
Theorem extracted_respects_availability sn vars m v out teacher a
    row matrix i s :
  build_model sn = Some (vars, m) ->
  feasible v m = true ->
  extract_solution vars sn v = Some out ->
  teacher ∈ self_teachers sn -> a ∈ self_assignments sn ->
  assignment_teacher_id a = teacher_id teacher ->
  availability teacher = Some (row :: matrix) ->
  out !! i = Some s ->
  sch_assignment_id s = assignment_id a ->
  (sch_day_of_week s ∉ teacher_days_off teacher)
  /\ (forall day_row slot,
        index (row :: matrix) (sch_day_of_week s) = Some day_row ->
        slot ∈ slots -> sch_start_time s = _slot_to_time slot ->
        index day_row slot <> Some false).
Proof.
  intros Hm Hv Hout Ht Ha Hat Hav Hs Hid.
  destruct (extracted_key _ _ _ _ _ _ _ Hm Hout Hs)
    as (k & _ & Hin & Hvk & Ho & _ & Hka & Hkc & Hkd & Hks).
  destruct Ho as (_ & c & _ & _ & Hc & _ & _ & _ & Hc' & Hday & Hslot).
  destruct k as [[[x y] d] sl]. cbn [fst snd] in *.
  rewrite Hid in Hka. subst x y. rewrite Hkd.
  assert (Hoff : d ∈ teacher_days_off teacher -> False).
  { intros Hoff.
    assert (v (schedule_var (assignment_id a, classroom_id c, d, sl)) = false)
      by (eapply days_off_respected_with_matrix; eauto).
    congruence. }
  split; [done|].
  intros day_row slot Hrow Hslot' Hst Hcell.
  assert (slot = sl) as ->.
  { apply elem_of_range in Hslot, Hslot'.
    apply _slot_to_time_inj; [done..|congruence]. }
  assert (v (schedule_var (assignment_id a, classroom_id c, d, sl)) = false)
    by (eapply unavailable_cell_respected; eauto).
  congruence.
Qed.

(** ** Daily load *)

Lemma taught_by_elem sn t aid :
  taught_by sn t aid = true ->
  exists a, a ∈ self_assignments sn /\ assignment_id a = aid
            /\ assignment_teacher_id a = teacher_id t.
Proof.
  unfold taught_by. rewrite existsb_exists.
  intros (a & Ha%list_elem_of_In & [H1 H2]%andb_prop).
  apply bool_decide_eq_true in H1, H2. eauto.
Qed.

(** X5. For a teacher of the snapshot, the slots extracted from a feasible
    solution for the teacher's assignments on one day number at most
    [max_hours_per_day * 60 // 55]. *)
Theorem extracted_daily_load sn vars m v out t d :
  build_model sn = Some (vars, m) ->
  feasible v m = true ->
  extract_solution vars sn v = Some out ->
  t ∈ self_teachers sn ->
  0 <= max_hours_per_day t ->
  len (filter (fun s => sch_day_of_week s = d
                        /\ taught_by sn t (sch_assignment_id s) = true) out)
  <= max_hours_per_day t * 60 / slot_duration.
Proof.
  intros Hm Hv Hout Ht Hpos.
  set (ks := filter (fun k : key => k.1.2 = d /\ taught_by sn t k.1.1.1 = true)
                    (chosen vars v)).
  assert (Hlen : len (filter (fun s => sch_day_of_week s = d
                    /\ taught_by sn t (sch_assignment_id s) = true) out)
                 = len ks).
  { unfold len. f_equal. symmetry.
    apply (Forall2_filter_length _ _ _ _ _ (extract_solution_chosen _ _ _ _ Hout)).
    intros k s (Ha & _ & Hd & _)%scheduled_of_fields. by rewrite Ha, Hd. }
  rewrite Hlen. clear Hlen.
  assert (Hcap : 0 <= max_hours_per_day t * 60 / slot_duration).
  { apply Z.div_pos; [lia|done]. }
  destruct ks as [|k0 ks0] eqn:Hks; [done|]. rewrite <- Hks.
  pose proof Hm as (c1 & soft & Hvars & _)%build_model_parts.
  assert (Hk : forall k, k ∈ ks ->
            k ∈ vars /\ v (schedule_var k) = true /\ k.1.2 = d
            /\ taught_by sn t k.1.1.1 = true).
  { intros k [[Hd Ht'] [Hvk Hin]%list_elem_of_filter]%list_elem_of_filter. done. }
  assert (Hd : d ∈ days).
  { destruct (Hk k0) as (Hin & _ & <- & _); [rewrite Hks; left|].
    by destruct (create_decision_variables_origin _ _ Hvars k0 Hin)
      as (_ & _ & _ & _ & _ & _ & _ & _ & _ & ? & _). }
  set (l := a ← self_assignments sn;
            if bool_decide (assignment_teacher_id a = teacher_id t)
            then
              c ← self_classrooms sn; slot ← slots;
              let k := (assignment_id a, classroom_id c, d, slot) in
              if has_key vars k then [schedule_var k] else []
            else []).
  assert (Hsum : len ks <= sum_vars v l).
  { replace (len ks) with (len (schedule_var <$> ks))
      by (unfold len; by rewrite length_fmap).
    apply sum_vars_ge_distinct.
    - assert (Inj (=) (=) schedule_var) by (intros ?? [=]; done).
      apply (NoDup_fmap_2 _). apply NoDup_filter. by eapply chosen_NoDup.
    - intros x (k & -> & Hkin)%list_elem_of_fmap.
      destruct (Hk k Hkin) as (Hin & Hvk & Hkd & Htb). split; [|done].
      destruct (taught_by_elem _ _ _ Htb) as (a & Ha & Hid & Hta).
      destruct (create_decision_variables_origin _ _ Hvars k Hin)
        as (_ & c & _ & _ & Hc & _ & _ & _ & Hkc & _ & Hslot).
      destruct k as [[[x y] d'] sl]. cbn [fst snd] in *. subst x y d'.
      apply list_elem_of_bind. exists a. split; [|done].
      rewrite bool_decide_eq_true_2 by done.
      apply list_elem_of_bind. exists c. split; [|done].
      apply list_elem_of_bind. exists sl. split; [|done].
      cbv zeta. unfold has_key. rewrite bool_decide_eq_true_2 by done. left. }
  assert (Hle : holds v (SumLe l (max_hours_per_day t * 60 / slot_duration))
                = true).
  { apply (feasible_block sn vars m v); [done..|]. right. right. right. left.
    unfold daily_load_constraints.
    apply list_elem_of_bind. exists t. split; [|done]. cbv zeta.
    apply list_elem_of_bind. exists d. split; [|done].
    fold l. destruct l as [|x l'] eqn:Hl; [|left].
    rewrite Hks in Hsum. unfold len in Hsum. cbn in Hsum. lia. }
  cbn [holds] in Hle. apply Z.leb_le in Hle. lia.
Qed.

Lemma extracted_rooms_never_overlap_witness :
  build_model eng_snapshot = Some (eng_vars, eng_model)
  /\ feasible gapped eng_model = true
  /\ extract_solution eng_vars eng_snapshot gapped = Some gapped_slots
  /\ len gapped_slots = 2
  /\ 1%nat = 1%nat.
Proof.
  assert (H1 : build_model eng_snapshot = Some (eng_vars, eng_model))
    by (vm_compute; reflexivity).
  assert (H2 : feasible gapped eng_model = true) by (vm_compute; reflexivity).
  assert (H3 : extract_solution eng_vars eng_snapshot gapped = Some gapped_slots)
    by (vm_compute; reflexivity).
  do 3 (split; [assumption|]). split; [vm_compute; reflexivity|].
  apply (extracted_rooms_never_overlap eng_snapshot eng_vars eng_model gapped
           gapped_slots 1 1
           (mk_scheduled 4 4 0 (mk_time 10 45) (mk_time 11 40) "Statics" "E1")
           (mk_scheduled 4 4 0 (mk_time 10 45) (mk_time 11 40) "Statics" "E1"));
    try assumption; vm_compute; reflexivity.
Defined.

Lemma extracted_teachers_never_overlap_witness :
  build_model eng_snapshot = Some (eng_vars, eng_model)
  /\ feasible gapped eng_model = true
  /\ extract_solution eng_vars eng_snapshot gapped = Some gapped_slots
  /\ eng_teacher ∈ self_teachers eng_snapshot
  /\ eng_assignment ∈ self_assignments eng_snapshot
  /\ 0%nat = 0%nat.
Proof.
  assert (H1 : build_model eng_snapshot = Some (eng_vars, eng_model))
    by (vm_compute; reflexivity).
  assert (H2 : feasible gapped eng_model = true) by (vm_compute; reflexivity).
  assert (H3 : extract_solution eng_vars eng_snapshot gapped = Some gapped_slots)
    by (vm_compute; reflexivity).
  assert (H4 : eng_teacher ∈ self_teachers eng_snapshot) by left.
  assert (H5 : eng_assignment ∈ self_assignments eng_snapshot) by left.
  do 5 (split; [assumption|]).
  apply (extracted_teachers_never_overlap eng_snapshot eng_vars eng_model gapped
           gapped_slots eng_teacher eng_assignment eng_assignment 0 0
           (mk_scheduled 4 4 0 (mk_time 8 55) (mk_time 9 50) "Statics" "E1")
           (mk_scheduled 4 4 0 (mk_time 8 55) (mk_time 9 50) "Statics" "E1"));
    try assumption; vm_compute; reflexivity.
Defined.

Lemma extracted_session_count_witness :
  build_model eng_snapshot = Some (eng_vars, eng_model)
  /\ feasible gapped eng_model = true
  /\ extract_solution eng_vars eng_snapshot gapped = Some gapped_slots
  /\ len (filter (fun s => sch_assignment_id s = assignment_id eng_assignment)
                 gapped_slots)
     = sessions_per_week eng_course.
Proof.
  assert (H1 : build_model eng_snapshot = Some (eng_vars, eng_model))
    by (vm_compute; reflexivity).
  assert (H2 : feasible gapped eng_model = true) by (vm_compute; reflexivity).
  assert (H3 : extract_solution eng_vars eng_snapshot gapped = Some gapped_slots)
    by (vm_compute; reflexivity).
  do 3 (split; [assumption|]).
  apply (extracted_session_count eng_snapshot eng_vars eng_model gapped
           gapped_slots eng_assignment eng_course (4, 4, 0, 0));
    try assumption.
  - left.
  - vm_compute; reflexivity.
  - apply (list_elem_of_lookup_2 _ 0%nat). vm_compute; reflexivity.
  - reflexivity.
Defined.

Lemma extracted_respects_availability_witness :
  build_model chem_snapshot = Some (chem_vars, chem_model)
  /\ feasible tuesday_valuation chem_model = true
  /\ extract_solution chem_vars chem_snapshot tuesday_valuation
     = Some tuesday_slots
  /\ tuesday_slots
     = [mk_scheduled 5 5 1 (mk_time 8 0) (mk_time 8 55) "Kinetics" "C1"]
  /\ (1 ∉ teacher_days_off chem_teacher)
  /\ (forall day_row slot,
        index (replicate 10 false :: replicate 4 (replicate 10 true)) 1
        = Some day_row ->
        slot ∈ slots -> mk_time 8 0 = _slot_to_time slot ->
        index day_row slot <> Some false).
Proof.
  assert (H1 : build_model chem_snapshot = Some (chem_vars, chem_model))
    by (vm_compute; reflexivity).
  assert (H2 : feasible tuesday_valuation chem_model = true)
    by (vm_compute; reflexivity).
  assert (H3 : extract_solution chem_vars chem_snapshot tuesday_valuation
               = Some tuesday_slots) by (vm_compute; reflexivity).
  do 3 (split; [assumption|]). split; [vm_compute; reflexivity|].
  apply (extracted_respects_availability chem_snapshot chem_vars chem_model
           tuesday_valuation tuesday_slots chem_teacher chem_assignment
           (replicate 10 false) (replicate 4 (replicate 10 true)) 0
           (mk_scheduled 5 5 1 (mk_time 8 0) (mk_time 8 55) "Kinetics" "C1"));
    try assumption.
  - left.
  - left.
  - reflexivity.
  - reflexivity.
  - vm_compute; reflexivity.
  - reflexivity.
Defined.

Lemma extracted_daily_load_witness :
  build_model chem_snapshot = Some (chem_vars, chem_model)
  /\ feasible tuesday_valuation chem_model = true
  /\ extract_solution chem_vars chem_snapshot tuesday_valuation
     = Some tuesday_slots
  /\ len (filter (fun s => sch_day_of_week s = 1
                 /\ taught_by chem_snapshot chem_teacher (sch_assignment_id s)
                    = true) tuesday_slots)
     <= max_hours_per_day chem_teacher * 60 / slot_duration.
Proof.
  assert (H1 : build_model chem_snapshot = Some (chem_vars, chem_model))
    by (vm_compute; reflexivity).
  assert (H2 : feasible tuesday_valuation chem_model = true)
    by (vm_compute; reflexivity).
  assert (H3 : extract_solution chem_vars chem_snapshot tuesday_valuation
               = Some tuesday_slots) by (vm_compute; reflexivity).
  do 3 (split; [assumption|]).
  apply (extracted_daily_load chem_snapshot chem_vars chem_model
           tuesday_valuation tuesday_slots chem_teacher 1);
    try assumption.
  - left.
  - vm_compute. congruence.
Defined.

(** ** Every compatible combination has a variable *)

(** What the body of a loop establishes at one element of the list, and
    every later turn preserves, holds at the end. *)
Lemma for_each_elem {A S} (Q : S -> Prop) (x : A) (l : list A)
    (body : S -> A -> option S) (st st' : S) :
  x ∈ l ->
  (forall s s', body s x = Some s' -> Q s') ->
  (forall s y s', body s y = Some s' -> Q s -> Q s') ->
  for_each l body st = Some st' -> Q st'.
Proof.
  intros Hx Hat Hkeep. revert st.
  induction l as [|y l IH]; intros st Hrun; [by apply elem_of_nil in Hx|].
  cbn [for_each] in Hrun. destruct (body st y) as [st1|] eqn:Hb; [|discriminate].
  apply elem_of_cons in Hx as [->|Hx]; [|by eapply IH].
  assert (Hq : Q st1) by eauto. clear IH Hb.
  revert st1 Hq Hrun. induction l as [|z l IH]; intros st1 Hq Hrun.
  - cbn in Hrun. by apply (inj Some) in Hrun; subst.
  - cbn [for_each] in Hrun.
    destruct (body st1 z) as [st2|] eqn:Hb; [|discriminate]. eauto.
Qed.

Lemma foldl_elem {A S} (Q : S -> Prop) (x : A) (l : list A)
    (body : S -> A -> S) (st : S) :
  x ∈ l ->
  (forall s, Q (body s x)) ->
  (forall s y, Q s -> Q (body s y)) ->
  Q (foldl body st l).
Proof.
  intros Hx Hat Hkeep. revert st.
  induction l as [|y l IH]; intros st; [by apply elem_of_nil in Hx|].
  cbn [foldl]. apply elem_of_cons in Hx as [->|Hx]; [|by apply IH].
  generalize (Hat st). generalize (body st y). clear IH.
  induction l as [|z l IH]; intros s Hq; [done|]. cbn [foldl]. eauto.
Qed.

Lemma foldl_keep {A S} (Q : S -> Prop) (l : list A) (body : S -> A -> S)
    (st : S) :
  (forall s y, Q s -> Q (body s y)) -> Q st -> Q (foldl body st l).
Proof.
  intros Hkeep. revert st. induction l as [|y l IH]; intros st Hq; [done|].
  cbn [foldl]. eauto.
Qed.

Lemma create_decision_variables_complete sn vars a c course d s :
  create_decision_variables sn = Some vars ->
  a ∈ self_assignments sn -> c ∈ self_classrooms sn ->
  next_course sn (assignment_course_id a) = Some course ->
  _is_room_compatible (course_room_type course) (classroom_room_type c) = true ->
  d ∈ days -> s ∈ slots ->
  (assignment_id a, classroom_id c, d, s) ∈ vars.
Proof.
  intros Hvars Ha Hc Hcourse Hcompat Hd Hs. revert Hvars.
  unfold create_decision_variables.
  set (k := (assignment_id a, classroom_id c, d, s)).
  assert (Hgrid : forall (a' : Assignment) (c' : Classroom) vars0,
            k ∈ vars0 ->
            k ∈ foldl (fun vars day =>
                   foldl (fun vars slot =>
                     dict_set (assignment_id a', classroom_id c', day, slot) vars)
                     vars slots) vars0 days).
  { intros a' c' vars0 Hin. apply (foldl_keep (fun vars => k ∈ vars)); [|done].
    intros vars1 d' Hin1. apply (foldl_keep (fun vars => k ∈ vars)); [|done].
    intros vars2 s' Hin2. apply elem_of_dict_set. by right. }
  assert (Hinner : forall (a' : Assignment) (c' : Classroom) vars0 vars1,
            (course ← next_course sn (assignment_course_id a');
             if _is_room_compatible (course_room_type course)
                                    (classroom_room_type c')
             then Some (foldl (fun vars day =>
                          foldl (fun vars slot =>
                            dict_set (assignment_id a', classroom_id c', day, slot)
                                     vars) vars slots) vars0 days)
             else Some vars0) = Some vars1 ->
            k ∈ vars0 -> k ∈ vars1).
  { intros a' c' vars0 vars1 Hbody Hin.
    destruct (next_course sn (assignment_course_id a')) as [course'|];
      cbn [mbind option_bind] in Hbody; [|discriminate].
    destruct (_is_room_compatible (course_room_type course')
                                  (classroom_room_type c'));
      apply (inj Some) in Hbody; subst vars1; [by apply Hgrid | done]. }
  apply (for_each_elem (fun vars => k ∈ vars) a); [done| |].
  - intros vars0 vars1.
    apply (for_each_elem (fun vars => k ∈ vars) c); [done| |].
    + intros vars2 vars3 Hbody. rewrite Hcourse in Hbody.
      cbn [mbind option_bind] in Hbody. rewrite Hcompat in Hbody.
      apply (inj Some) in Hbody. subst vars3.
      apply (foldl_elem (fun vars => k ∈ vars) d); [done| |].
      * intros vars4.
        apply (foldl_elem (fun vars => k ∈ vars) s); [done| |].
        -- intros vars5. apply elem_of_dict_set. by left.
        -- intros vars5 s' Hin. apply elem_of_dict_set. by right.
      * intros vars4 d' Hin. apply (foldl_keep (fun vars => k ∈ vars)); [|done].
        intros vars5 s' Hin5. apply elem_of_dict_set. by right.
    + intros vars2 c' vars3. apply Hinner.
  - intros vars0 a' vars1 Hrun Hin. revert Hrun.
    apply (for_each_inv (fun vars => k ∈ vars)); [done|].
    intros vars2 c' vars3 _ Hin2 Hbody. by eapply Hinner.
Qed.

(** X6. The keys of [schedule_vars] are exactly the combinations of an
    assignment and a classroom of the snapshot with compatible room types
    and a cell of the grid. *)
Theorem schedule_vars_exactly_compatible sn vars k :
  create_decision_variables sn = Some vars ->
  k ∈ vars <-> var_origin sn k.
Proof.
  intros Hvars. split; [by apply create_decision_variables_origin|].
  intros (a & c & course & Ha & Hc & Hcourse & Hcompat & Hka & Hkc & Hd & Hs).
  destruct k as [[[x y] d] s]. cbn [fst snd] in *. subst x y.
  by eapply create_decision_variables_complete.
Qed.

Lemma schedule_vars_exactly_compatible_witness :
  create_decision_variables cs_snapshot = Some cs_vars
  /\ ((1, 1, 0, 1) ∈ cs_vars <-> var_origin cs_snapshot (1, 1, 0, 1)).
Proof.
  assert (H : create_decision_variables cs_snapshot = Some cs_vars)
    by (vm_compute; reflexivity).
  split; [exact H|].
  exact (schedule_vars_exactly_compatible cs_snapshot cs_vars (1, 1, 0, 1) H).
Defined.

(** ** Groups *)

Lemma group_append_fst g a groups :
  (group_append g a groups).*1
  = if bool_decide (g ∈ groups.*1) then groups.*1 else groups.*1 ++ [g].
Proof.
  induction groups as [|[g' l] rest IH]; [done|].
  cbn [group_append]. destruct (String.eqb_spec g' g) as [->|Hne].
  - cbn [fmap list_fmap fst]. rewrite bool_decide_eq_true_2 by left. done.
  - cbn [fmap list_fmap fst]. fold (rest.*1). fold ((group_append g a rest).*1).
    rewrite IH. case_bool_decide as Hin.
    + rewrite bool_decide_eq_true_2 by (by right). done.
    + rewrite bool_decide_eq_false_2; [done|].
      intros [?|?]%elem_of_cons; [by apply Hne|done].
Qed.

Lemma group_append_new g a groups :
  exists l, (g, l) ∈ group_append g a groups /\ a ∈ l.
Proof.
  induction groups as [|[g' l] rest IH].
  - exists [a]. split; left.
  - cbn [group_append]. destruct (String.eqb_spec g' g) as [->|Hne].
    + exists (l ++ [a]). split; [left|]. apply elem_of_app. right. left.
    + destruct IH as (l' & Hin & Ha). exists l'. split; [by right|done].
Qed.

Lemma group_append_keep g a groups g0 l0 :
  (g0, l0) ∈ groups ->
  exists l', (g0, l') ∈ group_append g a groups /\ forall x, x ∈ l0 -> x ∈ l'.
Proof.
  induction groups as [|[g' l] rest IH]; [by intros ?%elem_of_nil|].
  intros Hin. cbn [group_append]. destruct (String.eqb_spec g' g) as [->|Hne].
  - apply elem_of_cons in Hin as [[= -> ->]|Hin].
    + exists (l ++ [a]). split; [left|]. intros x Hx. apply elem_of_app. by left.
    + exists l0. split; [by right|done].
  - apply elem_of_cons in Hin as [[= -> ->]|Hin].
    + exists l. split; [left|done].
    + destruct (IH Hin) as (l' & Hin' & Hsub). exists l'. split; [by right|done].
Qed.

Lemma group_assignments_NoDup sn : NoDup (group_assignments sn).*1.
Proof.
  unfold group_assignments.
  apply (foldl_keep (fun groups => NoDup groups.*1)); [|constructor].
  intros groups a Hnd. destruct (group_id a) as [g|]; [|done].
  destruct (String.eqb g ""); [done|].
  rewrite group_append_fst. case_bool_decide as Hin; [done|].
  apply NoDup_app. split; [done|]. split; [|apply NoDup_singleton].
  intros x Hx ->%list_elem_of_singleton. done.
Qed.

Lemma group_assignments_elem sn a g :
  a ∈ self_assignments sn -> group_id a = Some g -> g <> "" ->
  exists l, (g, l) ∈ group_assignments sn /\ a ∈ l.
Proof.
  intros Ha Hg Hne. unfold group_assignments.
  apply (foldl_elem (fun groups => exists l, (g, l) ∈ groups /\ a ∈ l) a);
    [done| |].
  - intros groups. rewrite Hg.
    destruct (String.eqb_spec g "") as [->|_]; [done|]. apply group_append_new.
  - intros groups a' (l & Hin & Hal). destruct (group_id a') as [g'|]; [|eauto].
    destruct (String.eqb g' ""); [eauto|].
    destruct (group_append_keep g' a' groups g l Hin) as (l' & Hin' & Hsub).
    eauto.
Qed.

Lemma two_distinct_len {A} (x y : A) (l : list A) :
  x ∈ l -> y ∈ l -> x <> y -> 1 < len l.
Proof.
  intros Hx Hy Hne. unfold len.
  destruct l as [|a [|b l]]; cbn [length]; [by apply elem_of_nil in Hx| |lia].
  apply list_elem_of_singleton in Hx, Hy. congruence.
Qed.

(** [group_vars[i] == group_vars[i + 1]] for every [i] makes all the
    variables of the list equal. *)
Lemma adjacent_all_equal (v : valuation) (xs : list var) :
  (forall p, p ∈ adjacent xs -> holds v (VarEq p.1 p.2) = true) ->
  forall x y, x ∈ xs -> y ∈ xs -> v x = v y.
Proof.
  intros Hadj.
  assert (Hhead : forall x0 rest, xs = x0 :: rest ->
            forall x, x ∈ xs -> v x = v x0).
  { intros x0 rest Hxs. subst xs. revert x0 Hadj.
    induction rest as [|x1 rest IH]; intros x0 Hadj x Hx.
    - apply list_elem_of_singleton in Hx. by subst.
    - apply elem_of_cons in Hx as [->|Hx]; [done|].
      assert (H01 : v x1 = v x0).
      { specialize (Hadj (x0, x1)). cbn [holds fst snd] in Hadj.
        unfold value in Hadj. unfold adjacent in Hadj. cbn in Hadj.
        assert (Hh : ((if v x0 then 1 else 0) =? (if v x1 then 1 else 0)) = true)
          by (apply Hadj; left).
        apply Z.eqb_eq in Hh. destruct (v x0), (v x1); done. }
      rewrite <- H01. apply IH; [|done].
      intros p Hp. apply Hadj. unfold adjacent in *. cbn [tail zip zip_with].
      cbn [tail] in Hp. by right. }
  intros x y Hx Hy. destruct xs as [|x0 rest]; [by apply elem_of_nil in Hx|].
  rewrite (Hhead x0 rest eq_refl x Hx), (Hhead x0 rest eq_refl y Hy). done.
Qed.

Lemma classroom_vars_elem vars sn a c d s :
  c ∈ self_classrooms sn ->
  (assignment_id a, classroom_id c, d, s) ∈ vars ->
  schedule_var (assignment_id a, classroom_id c, d, s)
  ∈ classroom_vars vars sn a d s.
Proof.
  intros Hc Hk. unfold classroom_vars. apply list_elem_of_bind.
  exists c. split; [|done]. cbv zeta. unfold has_key.
  rewrite bool_decide_eq_true_2 by done. left.
Qed.

(** In a feasible valuation the variables of the assignments of a group at
    one cell all have the same value. *)
Lemma group_vars_equal sn vars m v g group d s x y :
  build_model sn = Some (vars, m) ->
  feasible v m = true ->
  (g, group) ∈ group_assignments sn -> 1 < len group ->
  d ∈ days -> s ∈ slots ->
  x ∈ (a ← group; classroom_vars vars sn a d s) ->
  y ∈ (a ← group; classroom_vars vars sn a d s) ->
  v x = v y.
Proof.
  intros Hm Hv Hg Hlen Hd Hs Hx Hy.
  destruct (decide (x = y)) as [->|Hne]; [done|].
  apply (adjacent_all_equal v (a ← group; classroom_vars vars sn a d s));
    [|done..].
  intros p Hp. apply (feasible_block sn vars m v); [done..|].
  do 4 right. unfold group_constraints.
  apply list_elem_of_bind. exists (g, group). split; [|done].
  rewrite bool_decide_eq_true_2 by done.
  apply list_elem_of_bind. exists d. split; [|done].
  apply list_elem_of_bind. exists s. split; [|done]. cbv zeta.
  rewrite bool_decide_eq_true_2 by (apply (two_distinct_len x y); done).
  apply list_elem_of_fmap. by exists p.
Qed.

(** X7. Two assignments of one group that can use a common classroom can
    never be scheduled: when the course of one of them meets at least once
    a week, no valuation satisfies the model. *)
Theorem grouped_assignments_sharing_a_room_unschedulable
    sn vars m v a1 a2 g c course1 course2 :
  build_model sn = Some (vars, m) ->
  a1 ∈ self_assignments sn -> a2 ∈ self_assignments sn ->
  assignment_id a1 <> assignment_id a2 ->
  group_id a1 = Some g -> group_id a2 = Some g -> g <> "" ->
  c ∈ self_classrooms sn ->
  next_course sn (assignment_course_id a1) = Some course1 ->
  next_course sn (assignment_course_id a2) = Some course2 ->
  _is_room_compatible (course_room_type course1) (classroom_room_type c) = true ->
  _is_room_compatible (course_room_type course2) (classroom_room_type c) = true ->
  sessions_per_week course1 <> 0 ->
  feasible v m = false.
Proof.
  intros Hm Ha1 Ha2 Hne Hg1 Hg2 Hg Hc Hc1 Hc2 Hr1 Hr2 Hsess.
  destruct (feasible v m) eqn:Hv; [exfalso; apply Hsess|done].
  pose proof Hm as (c1 & soft & Hvars & _)%build_model_parts.
  destruct (group_assignments_elem sn a1 g Ha1 Hg1 Hg) as (group & Hin & Hm1).
  destruct (group_assignments_elem sn a2 g Ha2 Hg2 Hg) as (group' & Hin' & Hm2).
  assert (group' = group) as ->.
  { pose proof (NoDup_fmap_elem_eq fst _ _ _ (group_assignments_NoDup sn)
                  Hin' Hin eq_refl) as Heq. congruence. }
  assert (Hlen : 1 < len group).
  { apply (two_distinct_len a1 a2); [done..|]. by intros ->. }
  assert (Hzero : forall k, k ∈ vars -> k.1.1.1 = assignment_id a1 ->
            v (schedule_var k) = false).
  { intros [[[x y] d] s] Hk Hid. cbn [fst snd] in Hid. subst x.
    destruct (create_decision_variables_origin _ _ Hvars _ Hk)
      as (_ & c' & _ & _ & Hc' & _ & _ & _ & Hy & Hd & Hs).
    cbn [fst snd] in Hy, Hd, Hs. subst y.
    set (k1 := (assignment_id a1, classroom_id c, d, s)).
    set (k2 := (assignment_id a2, classroom_id c, d, s)).
    assert (Hk1 : k1 ∈ vars) by (by eapply create_decision_variables_complete).
    assert (Hk2 : k2 ∈ vars) by (by eapply create_decision_variables_complete).
    assert (Hgv : forall a c0, a ∈ group -> c0 ∈ self_classrooms sn ->
              (assignment_id a, classroom_id c0, d, s) ∈ vars ->
              schedule_var (assignment_id a, classroom_id c0, d, s)
              ∈ (a ← group; classroom_vars vars sn a d s)).
    { intros a c0 Ha Hc0 Hk0. apply list_elem_of_bind. exists a.
      split; [|done]. by apply classroom_vars_elem. }
    assert (H12 : v (schedule_var k1) = v (schedule_var k2)).
    { eapply (group_vars_equal sn vars m v g group d s); eauto. }
    assert (Hk1k : v (schedule_var (assignment_id a1, classroom_id c', d, s))
                   = v (schedule_var k1)).
    { eapply (group_vars_equal sn vars m v g group d s); eauto. }
    rewrite Hk1k. destruct (v (schedule_var k1)) eqn:Hv1; [exfalso|done].
    assert (k1 = k2) as Heq; [|by inversion Heq].
    apply (room_holds_one sn vars m v); try done.
    - apply list_elem_of_filter. done.
    - apply list_elem_of_filter. split; [by rewrite <- H12|done]. }
  destruct (filter (fun k : key => k.1.1.1 = assignment_id a1) vars)
    as [|k ks] eqn:Hf.
  { assert ((assignment_id a1, classroom_id c, 0, 0)
            ∈ filter (fun k : key => k.1.1.1 = assignment_id a1) vars) as Hin0.
    { apply list_elem_of_filter. split; [done|].
      eapply create_decision_variables_complete; eauto;
        apply elem_of_range; done. }
    rewrite Hf in Hin0. by apply elem_of_nil in Hin0. }
  rewrite <- (session_count_enforced_with_room sn vars m v a1 course1 k ks)
    by done.
  rewrite <- Hf, sum_vars_schedule. unfold chosen, len.
  rewrite filter_none; [done|].
  intros k' [Hid Hk']%list_elem_of_filter. rewrite (Hzero k' Hk' Hid). done.
Qed.

Lemma grouped_assignments_sharing_a_room_unschedulable_witness :
  build_model art_snapshot = Some (art_vars, art_model)
  /\ feasible monday_valuation art_model = false.
Proof.
  assert (H : build_model art_snapshot = Some (art_vars, art_model))
    by (vm_compute; reflexivity).
  split; [exact H|].
  apply (grouped_assignments_sharing_a_room_unschedulable art_snapshot art_vars
           art_model monday_valuation art_drawing art_painting "studio"
           art_room art_course art_course); try exact H.
  - left.
  - right; left.
  - vm_compute; congruence.
  - reflexivity.
  - reflexivity.
  - congruence.
  - left.
  - vm_compute; reflexivity.
  - vm_compute; reflexivity.
  - vm_compute; reflexivity.
  - vm_compute; reflexivity.
  - vm_compute; congruence.
Defined.

(** ** Rules *)

Lemma for_each_keep {A S} (Q : S -> Prop) (l : list A)
    (body : S -> A -> option S) (st st' : S) :
  (forall s y s', body s y = Some s' -> Q s -> Q s') ->
  Q st -> for_each l body st = Some st' -> Q st'.
Proof.
  intros Hkeep Hq. apply (for_each_inv Q); [done|]. intros s y s' _ Hs Hb. eauto.
Qed.

(** The loop over the classrooms for one forbidden pair. *)
Lemma forbidden_pair_loop vars sn (ja jd js : json) :
  let body := fun (cs : list constraint) (c : Classroom) =>
    a ← hashable_int ja; d ← hashable_int jd; s ← hashable_int js;
    match a, d, s with
    | Some a, Some d, Some s =>
        let k := (a, classroom_id c, d, s) in
        Some (if has_key vars k then cs ++ [VarZero (schedule_var k)] else cs)
    | _, _, _ => Some cs
    end in
  forall cs cs', for_each (self_classrooms sn) body cs = Some cs' ->
    (forall x, x ∈ cs -> x ∈ cs')
    /\ forall a d s c,
         ja = JInt a -> jd = JInt d -> js = JInt s ->
         c ∈ self_classrooms sn -> (a, classroom_id c, d, s) ∈ vars ->
         VarZero (schedule_var (a, classroom_id c, d, s)) ∈ cs'.
Proof.
  intros body cs cs' Hrun.
  assert (Hkeep : forall s y s', body s y = Some s' ->
            forall x, x ∈ s -> x ∈ s').
  { intros s0 y s' Hb x Hx. unfold body in Hb.
    destruct (hashable_int ja) as [[a|]|]; cbn [mbind option_bind] in Hb;
      [| |discriminate];
      (destruct (hashable_int jd) as [[d|]|]; cbn [mbind option_bind] in Hb;
       [| |discriminate]);
      (destruct (hashable_int js) as [[s|]|]; cbn [mbind option_bind] in Hb;
       [| |discriminate]);
      apply (inj Some) in Hb; subst s'; try done.
    destruct (has_key vars _); [|done]. apply elem_of_app. by left. }
  split.
  - intros x Hx. revert Hrun.
    apply (for_each_keep (fun cs0 => x ∈ cs0)); [|done].
    intros s0 y s' Hb Hin. by eapply Hkeep.
  - intros a d s c -> -> -> Hc Hk. revert Hrun.
    apply (for_each_elem
             (fun cs0 => VarZero (schedule_var (a, classroom_id c, d, s)) ∈ cs0) c);
      [done| |].
    + intros s0 s' Hb. unfold body in Hb. cbn in Hb.
      apply (inj Some) in Hb. subst s'. unfold has_key.
      rewrite bool_decide_eq_true_2 by done. apply elem_of_app. right. left.
    + intros s0 y s' Hb Hin. by eapply Hkeep.
Qed.

Lemma _add_forbidden_time_pairs_constraint_spec vars sn data cs cs' :
  _add_forbidden_time_pairs_constraint vars sn data cs = Some cs' ->
  (forall x, x ∈ cs -> x ∈ cs')
  /\ forall pairs o a d s c,
       obj_get data "pairs" = Some (JList pairs) -> JObj o ∈ pairs ->
       obj_get o "assignment_id" = Some (JInt a) -> a <> 0 ->
       obj_get o "day" = Some (JInt d) -> obj_get o "slot" = Some (JInt s) ->
       c ∈ self_classrooms sn -> (a, classroom_id c, d, s) ∈ vars ->
       VarZero (schedule_var (a, classroom_id c, d, s)) ∈ cs'.
Proof.
  unfold _add_forbidden_time_pairs_constraint. intros Hrun.
  destruct (iterate (default (JList []) (obj_get data "pairs")))
    as [forbidden_pairs|] eqn:Hit; cbn [mbind option_bind] in Hrun;
    [|discriminate].
  set (body := fun (cs : list constraint) (pair : json) => _) in Hrun.
  assert (Hkeep : forall s y s', body s y = Some s' ->
            forall x, x ∈ s -> x ∈ s').
  { intros s0 y s' Hb x Hx. unfold body in Hb. destruct y as [| | | | |o]; try done.
    destruct (truthy _ && _ && _).
    - by apply (forbidden_pair_loop vars sn _ _ _ s0 s' Hb).
    - apply (inj Some) in Hb. by subst. }
  split.
  - intros x Hx. revert Hrun.
    apply (for_each_keep (fun cs0 => x ∈ cs0)); [|done].
    intros s0 y s' Hb Hin. by eapply Hkeep.
  - intros pairs o a d s c Hp Ho Ha Hne Hd Hs Hc Hk.
    rewrite Hp in Hit. cbn in Hit. apply (inj Some) in Hit. subst forbidden_pairs.
    revert Hrun.
    apply (for_each_elem
             (fun cs0 => VarZero (schedule_var (a, classroom_id c, d, s)) ∈ cs0)
             (JObj o)); [done| |].
    + intros s0 s' Hb. unfold body in Hb. rewrite Ha, Hd, Hs in Hb.
      cbn [default from_option id truthy is_None negb andb] in Hb.
      assert (Hz : (a =? 0) = false) by (by apply Z.eqb_neq).
      rewrite Hz in Hb. cbn [negb andb] in Hb.
      by apply (forbidden_pair_loop vars sn _ _ _ s0 s' Hb).
    + intros s0 y s' Hb Hin. by eapply Hkeep.
Qed.

(** The constraints a rule of type [forbidden_time_pairs] leaves in the
    list returned by [add_soft_constraints]. *)
Lemma add_soft_constraints_forbidden vars sn soft obj rule pairs o a d s c :
  add_soft_constraints vars sn = Some (soft, obj) ->
  rule ∈ self_rules sn -> rule_type rule = "forbidden_time_pairs" ->
  obj_get (rule_data rule) "pairs" = Some (JList pairs) -> JObj o ∈ pairs ->
  obj_get o "assignment_id" = Some (JInt a) -> a <> 0 ->
  obj_get o "day" = Some (JInt d) -> obj_get o "slot" = Some (JInt s) ->
  c ∈ self_classrooms sn -> (a, classroom_id c, d, s) ∈ vars ->
  VarZero (schedule_var (a, classroom_id c, d, s)) ∈ soft.
Proof.
  unfold add_soft_constraints. intros Hrun Hr Hty Hp Ho Ha Hne Hd Hs Hc Hk.
  cbv zeta in Hrun.
  match type of Hrun with
  | context [for_each ?l ?b ?i] =>
      destruct (for_each l b i) as [[cs terms]|] eqn:Hloop
  end; cbn [mbind option_bind] in Hrun; [|discriminate].
  apply (inj Some) in Hrun. injection Hrun as <- _.
  revert Hloop.
  apply (for_each_elem
           (fun st : list constraint * list (var * Z) =>
              VarZero (schedule_var (a, classroom_id c, d, s)) ∈ st.1) rule);
    [done| |].
  - intros [cs0 t0] [cs1 t1] Hb. rewrite Hty in Hb. cbn [String.eqb] in Hb.
    vm_compute (String.eqb _ _) in Hb.
    destruct (_add_forbidden_time_pairs_constraint vars sn (rule_data rule) cs0)
      as [cs'|] eqn:Hf; cbn [mbind option_bind] in Hb; [|discriminate].
    apply (inj Some) in Hb. injection Hb as <- <-. cbn [fst].
    by eapply (_add_forbidden_time_pairs_constraint_spec vars sn _ cs0 cs' Hf).
  - intros [cs0 t0] y [cs1 t1] Hb Hin. cbn [fst] in *.
    destruct (String.eqb (rule_type y) "lunch_window").
    { destruct (_add_lunch_window_constraint vars sn (rule_data y) t0);
        cbn [mbind option_bind] in Hb; [|discriminate].
      apply (inj Some) in Hb. by injection Hb as <- <-. }
    destruct (String.eqb (rule_type y) "gap_preference").
    { apply (inj Some) in Hb. by injection Hb as <- <-. }
    destruct (String.eqb (rule_type y) "forbidden_time_pairs").
    { destruct (_add_forbidden_time_pairs_constraint vars sn (rule_data y) cs0)
        as [cs'|] eqn:Hf; cbn [mbind option_bind] in Hb; [|discriminate].
      apply (inj Some) in Hb. injection Hb as <- <-.
      by apply (_add_forbidden_time_pairs_constraint_spec vars sn _ cs0 cs' Hf). }
    apply (inj Some) in Hb. by injection Hb as <- <-.
Qed.

(** X8. A pair of a [forbidden_time_pairs] rule with integer fields and a
    non-zero assignment id is respected: no slot extracted from a feasible
    solution puts that assignment in that cell. *)
Theorem forbidden_pair_respected sn vars m v out rule pairs o a d s sl :
  build_model sn = Some (vars, m) ->
  feasible v m = true ->
  extract_solution vars sn v = Some out ->
  rule ∈ self_rules sn -> rule_type rule = "forbidden_time_pairs" ->
  obj_get (rule_data rule) "pairs" = Some (JList pairs) -> JObj o ∈ pairs ->
  obj_get o "assignment_id" = Some (JInt a) -> a <> 0 ->
  obj_get o "day" = Some (JInt d) -> obj_get o "slot" = Some (JInt s) ->
  s ∈ slots ->
  sl ∈ out ->
  ~ (sch_assignment_id sl = a /\ sch_day_of_week sl = d
     /\ sch_start_time sl = _slot_to_time s).
Proof.
  intros Hm Hv Hout Hr Hty Hp Ho Ha Hne Hd Hs Hslot Hsl (Hsa & Hsd & Hst).
  apply list_elem_of_lookup in Hsl as [i Hi].
  destruct (extracted_key sn vars m v out i sl Hm Hout Hi)
    as (k & _ & Hk & Hvk & Horig & _ & Hka & Hkc & Hkd & Hks).
  pose proof Hm as (c1 & soft & Hvars & _ & Hsoft & Hcs)%build_model_parts.
  destruct Horig as (_ & c & _ & _ & Hc & _ & _ & _ & Hkc' & _ & Hk2).
  destruct k as [[[x y] d'] s']. cbn [fst snd] in *.
  assert (s' = s) as Hss.
  { apply _slot_to_time_inj;
      [apply elem_of_range; exact Hk2|apply elem_of_range; exact Hslot
      |congruence]. }
  assert (Heqk : (x, y, d', s') = (a, classroom_id c, d, s)) by congruence.
  rewrite Heqk in Hk, Hvk.
  assert (Hz : holds v (VarZero (schedule_var (a, classroom_id c, d, s))) = true).
  { apply (feasible_holds v m); [done|]. rewrite Hcs. apply elem_of_app. right.
    by eapply (add_soft_constraints_forbidden vars sn soft (objective m) rule). }
  cbn [holds] in Hz. unfold value in Hz. rewrite Hvk in Hz. done.
Qed.

Lemma forbidden_pair_respected_witness :
  build_model forbidden_snapshot = Some (cs_vars, forbidden_model)
  /\ feasible tuesday_second forbidden_model = true
  /\ feasible monday_valuation forbidden_model = false
  /\ tuesday_second_slots
     = [mk_scheduled 1 1 1 (mk_time 8 55) (mk_time 9 50) "Algorithms" "R1"]
  /\ ~ (sch_assignment_id
          (mk_scheduled 1 1 1 (mk_time 8 55) (mk_time 9 50) "Algorithms" "R1") = 1
        /\ sch_day_of_week
             (mk_scheduled 1 1 1 (mk_time 8 55) (mk_time 9 50) "Algorithms" "R1") = 0
        /\ sch_start_time
             (mk_scheduled 1 1 1 (mk_time 8 55) (mk_time 9 50) "Algorithms" "R1")
           = _slot_to_time 1).
Proof.
  assert (H1 : build_model forbidden_snapshot = Some (cs_vars, forbidden_model))
    by (vm_compute; reflexivity).
  assert (H2 : feasible tuesday_second forbidden_model = true)
    by (vm_compute; reflexivity).
  assert (H3 : extract_solution cs_vars forbidden_snapshot tuesday_second
               = Some tuesday_second_slots) by (vm_compute; reflexivity).
  do 2 (split; [assumption|]). split; [vm_compute; reflexivity|].
  split; [vm_compute; reflexivity|].
  apply (forbidden_pair_respected forbidden_snapshot cs_vars forbidden_model
           tuesday_second tuesday_second_slots forbidden_monday_rule
           [JObj [("assignment_id", JInt 1); ("day", JInt 0); ("slot", JInt 1)]]
           [("assignment_id", JInt 1); ("day", JInt 0); ("slot", JInt 1)]
           1 0 1); try assumption.
  - left.
  - reflexivity.
  - reflexivity.
  - left.
  - reflexivity.
  - lia.
  - reflexivity.
  - reflexivity.
  - apply elem_of_range. vm_compute. split; congruence.
  - vm_compute. left.
Defined.

(** A loop skips the elements on which its body does nothing. *)
Lemma for_each_filter_skip {A S} (P : A -> Prop) `{forall x, Decision (P x)}
    (l : list A) (body : S -> A -> option S) (st : S) :
  (forall s x, ~ P x -> body s x = Some s) ->
  for_each (filter P l) body st = for_each l body st.
Proof.
  intros Hskip. revert st. induction l as [|x l IH]; intros st; [done|].
  rewrite filter_cons. destruct (decide (P x)) as [Hp|Hp].
  - cbn [for_each]. destruct (body st x); [apply IH|done].
  - cbn [for_each]. rewrite (Hskip st x Hp). apply IH.
Qed.

(** X9. Rules of a type other than [lunch_window] and
    [forbidden_time_pairs] change nothing: the model built with them is the
    model built without them. *)
Theorem other_rule_types_are_ignored sn :
  build_model
    (with_self_rules (filter (fun r => acting_rule r = true) (self_rules sn)) sn)
  = build_model sn.
Proof.
  unfold build_model.
  change (create_decision_variables (with_self_rules _ sn))
    with (create_decision_variables sn).
  destruct (create_decision_variables sn) as [vars|]; [|done].
  cbn [mbind option_bind].
  change (add_hard_constraints vars (with_self_rules _ sn))
    with (add_hard_constraints vars sn).
  destruct (add_hard_constraints vars sn) as [hard|]; [|done].
  cbn [mbind option_bind].
  assert (Hsoft : add_soft_constraints vars
            (with_self_rules
               (filter (fun r => acting_rule r = true) (self_rules sn)) sn)
          = add_soft_constraints vars sn); [|by rewrite Hsoft].
  unfold add_soft_constraints. cbv zeta.
  change (gap_terms vars (with_self_rules _ sn)) with (gap_terms vars sn).
  change (time_preference_terms vars (with_self_rules _ sn))
    with (time_preference_terms vars sn).
  change (self_rules (with_self_rules ?rs sn)) with rs.
  f_equal.
  apply (for_each_filter_skip (fun r => acting_rule r = true)).
  intros [cs terms] r Hr. unfold acting_rule in Hr.
  destruct (String.eqb (rule_type r) "lunch_window"); [by destruct Hr|].
  destruct (String.eqb (rule_type r) "gap_preference"); [done|].
  destruct (String.eqb (rule_type r) "forbidden_time_pairs"); [by destruct Hr|].
  done.
Qed.

(** ** [generate_timetable] *)

Lemma load_data_update_timetable tid f db department user_id :
  load_data (update_timetable tid f db) department user_id
  = load_data db department user_id.
Proof. reflexivity. Qed.









(** X10. A generation that reports failure changes nothing but the row of
    the timetable: the scheduled slots and every other table are as
    before, and the rows of the other timetables are untouched. *)
Theorem generate_timetable_failure_frame
    solve now department user_id tid db msg db' :
  generate_timetable solve now department user_id tid db = (false, msg, db') ->
  scheduled_slots db' = scheduled_slots db /\ slot_seq db' = slot_seq db
  /\ teachers db' = teachers db /\ courses db' = courses db
  /\ classrooms db' = classrooms db /\ assignments db' = assignments db
  /\ rules db' = rules db /\ rule_seq db' = rule_seq db
  /\ length (dept_timetables db') = length (dept_timetables db)
  /\ forall i t, dept_timetables db !! i = Some t -> timetable_id t <> tid ->
       dept_timetables db' !! i = Some t.
Proof.
  assert (Hupd : forall f g d0,
            d0 = update_timetable tid f (update_timetable tid g db) ->
            scheduled_slots d0 = scheduled_slots db /\ slot_seq d0 = slot_seq db
            /\ teachers d0 = teachers db /\ courses d0 = courses db
            /\ classrooms d0 = classrooms db /\ assignments d0 = assignments db
            /\ rules d0 = rules db /\ rule_seq d0 = rule_seq db
            /\ length (dept_timetables d0) = length (dept_timetables db)
            /\ forall i t, dept_timetables db !! i = Some t ->
                 timetable_id t <> tid -> dept_timetables d0 !! i = Some t).
  { intros f g d0 ->. do 8 (split; [reflexivity|]).
    cbn [update_timetable with_dept_timetables dept_timetables].
    split; [by rewrite !length_fmap|]. intros i t Hi Hne.
    rewrite !list_lookup_fmap, Hi. cbn [fmap option_fmap option_map].
    repeat (rewrite (bool_decide_eq_false_2 (timetable_id t = tid)) by done;
            cbv beta iota).
    done. }
  assert (Hone : forall g d0,
            d0 = update_timetable tid g db ->
            scheduled_slots d0 = scheduled_slots db /\ slot_seq d0 = slot_seq db
            /\ teachers d0 = teachers db /\ courses d0 = courses db
            /\ classrooms d0 = classrooms db /\ assignments d0 = assignments db
            /\ rules d0 = rules db /\ rule_seq d0 = rule_seq db
            /\ length (dept_timetables d0) = length (dept_timetables db)
            /\ forall i t, dept_timetables db !! i = Some t ->
                 timetable_id t <> tid -> dept_timetables d0 !! i = Some t).
  { intros g d0 ->. do 8 (split; [reflexivity|]).
    cbn [update_timetable with_dept_timetables dept_timetables].
    split; [by rewrite !length_fmap|]. intros i t Hi Hne.
    rewrite !list_lookup_fmap, Hi. cbn [fmap option_fmap option_map].
    by rewrite (bool_decide_eq_false_2 (timetable_id t = tid)). }
  unfold generate_timetable, generation_failed. cbv zeta.
  change (load_data (mark_generating tid now db) department user_id)
    with (load_data db department user_id).
  unfold mark_generating.
  destruct (build_model (load_data db department user_id)) as [[vars model]|].
  2: { intros [= <- <-]. by eapply Hupd. }
  destruct (success (res_status (solve model))).
  - destruct (extract_solution vars (load_data db department user_id)
                (res_value (solve model))) as [out|].
    2: { intros [= <- <-]. by eapply Hupd. }
    unfold save_solution.
    destruct (List.find _ (dept_timetables (update_timetable tid _ db)))
      as [row|]; [|cbv beta iota; intros H; discriminate H].
    destruct (res_stats (solve model)) as [dumped|]; cbv beta iota.
    + intros H; discriminate H.
    + intros [= <- <-]. by eapply Hone.
  - destruct (List.find _ (dept_timetables (update_timetable tid _ db)))
      as [row|].
    + destruct (res_stats (solve model)) as [dumped|].
      * intros [= <- <-]. by eapply Hupd.
      * intros [= <- <-]. by eapply Hupd.
    + intros [= <- <-]. by eapply Hone.
Qed.

Lemma generate_timetable_failure_frame_witness :
  let r := generate_timetable (answering UNKNOWN monday_valuation)
             5 "CS" 7 1 cs_db in
  r.1.1 = false
  /\ scheduled_slots r.2 = scheduled_slots cs_db /\ slot_seq r.2 = slot_seq cs_db
  /\ teachers r.2 = teachers cs_db /\ courses r.2 = courses cs_db
  /\ classrooms r.2 = classrooms cs_db /\ assignments r.2 = assignments cs_db
  /\ rules r.2 = rules cs_db /\ rule_seq r.2 = rule_seq cs_db
  /\ length (dept_timetables r.2) = length (dept_timetables cs_db)
  /\ forall i t, dept_timetables cs_db !! i = Some t -> timetable_id t <> 1 ->
       dept_timetables r.2 !! i = Some t.
Proof.
  cbv zeta. split; [vm_compute; reflexivity|].
  apply (generate_timetable_failure_frame
           (answering UNKNOWN monday_valuation) 5 "CS" 7 1 cs_db
           (generate_timetable (answering UNKNOWN monday_valuation)
              5 "CS" 7 1 cs_db).1.2).
  vm_compute. reflexivity.
Defined.



(** ** From the solver to the store *)





(** ** Releasing *)

(** X13. [release_global_slots] leaves no global row in the timetable and
    touches no row of another timetable; the index only loses keys, and a
    key it loses was held under the given department for a global row of
    the timetable. *)
Theorem release_global_slots_post (self : t) (db : Storage)
    (department : string) (tid : Z) :
  exists self' db',
    release_global_slots self db department tid = (true, self', db')
    /\ (forall r, r ∈ scheduled_slots db' -> dept_timetable_id r = tid ->
          is_global_slot r = false)
    /\ (forall i r, scheduled_slots db !! i = Some r ->
          dept_timetable_id r <> tid -> scheduled_slots db' !! i = Some r)
    /\ (forall k d, global_slots self' !! k = Some d ->
          global_slots self !! k = Some d)
    /\ (forall k d, global_slots self !! k = Some d ->
          global_slots self' !! k = None ->
          d = department
          /\ exists r, r ∈ scheduled_slots db /\ dept_timetable_id r = tid
                       /\ is_global_slot r = true /\ cell r = k)
    /\ department_timetables self' = department_timetables self
    /\ shared_resources self' = shared_resources self.
Proof.
  unfold release_global_slots. eexists _, _. split; [reflexivity|].
  cbn [with_global_slots global_slots department_timetables shared_resources].
  split; [|split; [|split; [|split; [|done]]]].
  - intros r' (r & Hr & Hcase)%elem_of_update_is_global Hid.
    destruct Hcase as [[_ ->]|[Hw ->]]; [done|].
    unfold global_slot_of in Hw. rewrite bool_decide_eq_true_2 in Hw by done.
    done.
  - intros i r Hi Hne. rewrite scheduled_slots_update_is_global.
    rewrite list_lookup_fmap, Hi. cbn [fmap option_fmap option_map].
    unfold global_slot_of. by rewrite bool_decide_eq_false_2.
  - intros k d. rewrite (lookup_foldl_delete cell department).
    case_bool_decide; [done|done].
  - intros k d Hk. rewrite (lookup_foldl_delete cell department).
    case_bool_decide as Hin; [|by rewrite Hk].
    intros _. destruct Hin as [(r & -> & [Hg Hr]%list_elem_of_filter)
                                 %list_elem_of_fmap Hd].
    split; [congruence|]. exists r.
    unfold global_slot_of in Hg. apply andb_prop in Hg as [Hid Hg].
    apply bool_decide_eq_true in Hid. done.
Qed.

(** ** Reserving, then releasing *)

Lemma set_global_same r : set_global (is_global_slot r) r = r.
Proof. by destruct r. Qed.

Lemma with_scheduled_slots_same db :
  with_scheduled_slots (scheduled_slots db) (slot_seq db) db = db.
Proof. by destruct db. Qed.

(** X14. From a coordinator that agrees with the store, reserving slots of
    a timetable that has no global row and releasing the timetable gives
    back the coordinator and the store as they were, provided the reserved
    rows collide with no global row and with each other. *)
Theorem reserve_then_release_round_trip (self : t) (db : Storage)
    (department : string) (tid : Z) (slot_ids : list Z) :
  consistent self db ->
  distinct_cells [Reserve department tid slot_ids] db ->
  (forall r, r ∈ scheduled_slots db -> dept_timetable_id r = tid ->
     is_global_slot r = false) ->
  serve_all (self, db) [Reserve department tid slot_ids; Release department tid]
  = (self, db).
Proof.
  intros Hcons Hnd Hfree.
  unfold serve_all. cbn [foldl serve fst snd].
  unfold reserve_global_slots. cbn [fst snd].
  unfold release_global_slots. cbn [with_global_slots global_slots
    department_timetables shared_resources].
  set (db1 := update_is_global (named_slot tid slot_ids) true db).
  assert (Hnamed : forall r, r ∈ scheduled_slots db ->
            named_slot tid slot_ids r = true -> is_global_slot r = false).
  { intros r Hr [Hid _]%andb_prop. apply bool_decide_eq_true in Hid. eauto. }
  (* the store *)
  assert (Hdb : update_is_global (global_slot_of tid) false db1 = db).
  { unfold update_is_global. subst db1.
    rewrite scheduled_slots_update_is_global.
    change (slot_seq (update_is_global _ true db)) with (slot_seq db).
    rewrite <- list_fmap_compose.
    rewrite <- (with_scheduled_slots_same db) at 4.
    unfold with_scheduled_slots. cbn [teachers courses classrooms assignments
      rules dept_timetables rule_seq update_is_global with_scheduled_slots].
    f_equal. rewrite <- (list_fmap_id (scheduled_slots db)) at 2.
    apply list_fmap_ext. intros _ r Hr%list_elem_of_lookup_2. cbn [compose id].
    destruct (named_slot tid slot_ids r) eqn:Hn.
    - pose proof (Hnamed r Hr Hn) as Hg.
      apply andb_prop in Hn as [Hid _].
      unfold global_slot_of. cbn [set_global dept_timetable_id is_global_slot].
      rewrite Hid. cbn [andb]. rewrite <- Hg at 1.
      destruct r. cbn in *. by subst.
    - unfold global_slot_of. destruct (decide (dept_timetable_id r = tid)) as [Hid|Hid].
      + rewrite (Hfree r Hr Hid), andb_false_r. done.
      + by rewrite bool_decide_eq_false_2.
  }
  rewrite Hdb. f_equal.
  (* the index *)
  destruct self as [g reg sh]. unfold with_global_slots.
  cbn [global_slots department_timetables shared_resources] in *. f_equal.
  apply map_eq. intros k.
  rewrite (lookup_foldl_delete cell department).
  rewrite (lookup_foldl_insert cell department).
  set (reserved := filter (fun r => named_slot tid slot_ids r && is_global_slot r = true)
                          (scheduled_slots db1)).
  set (released := filter (fun r => global_slot_of tid r = true)
                          (scheduled_slots db1)).
  assert (Hres : forall k, k ∈ cell <$> reserved ->
            exists r, r ∈ scheduled_slots db /\ named_slot tid slot_ids r = true
                      /\ cell r = k).
  { intros k0 (r' & -> & [Hp Hr']%list_elem_of_filter)%list_elem_of_fmap.
    apply elem_of_update_is_global in Hr' as (r & Hr & [[Hw ->]|[Hw ->]]).
    - exists r. done.
    - apply andb_prop in Hp as [Hp _]. congruence. }
  assert (Hrel : forall k, k ∈ cell <$> released -> k ∈ cell <$> reserved).
  { intros k0 (r' & -> & [Hp Hr']%list_elem_of_filter)%list_elem_of_fmap.
    apply list_elem_of_fmap. exists r'. split; [done|].
    apply list_elem_of_filter. split; [|done].
    pose proof Hr' as (r & Hr & [[Hw ->]|[Hw ->]])%elem_of_update_is_global.
    - unfold named_slot in *. cbn [set_global dept_timetable_id slot_id
        is_global_slot]. by rewrite Hw.
    - apply andb_prop in Hp as [Hid Hg]. apply bool_decide_eq_true in Hid.
      rewrite (Hfree r Hr Hid) in Hg. done. }
  assert (Hnone : forall k, k ∈ cell <$> reserved -> g !! k = None).
  { intros k0 (r & Hr & Hn & <-)%Hres.
    destruct (g !! cell r) as [d|] eqn:Hg; [exfalso|done].
    apply Hcons in Hg as (r0 & Hr0 & Hg0 & Hc0 & _).
    assert (r0 = r) as ->.
    { apply (distinct_cells_eq [Reserve department tid slot_ids] db);
        try done.
      - by rewrite Hg0.
      - cbn [named_by existsb]. rewrite Hn. by rewrite orb_true_r. }
    rewrite (Hnamed r Hr Hn) in Hg0. done. }
  destruct (decide (k ∈ cell <$> reserved)) as [Hin|Hin].
  - rewrite (bool_decide_eq_true_2 (k ∈ cell <$> reserved)) by done.
    rewrite (Hnone k Hin). case_bool_decide as Hcase; [done|].
    exfalso. apply Hcase. split; [|done].
    pose proof Hin
      as (r' & Hk & [Hp Hr']%list_elem_of_filter)%list_elem_of_fmap.
    apply list_elem_of_fmap. exists r'. split; [done|].
    apply list_elem_of_filter. split; [|done].
    apply andb_prop in Hp as [Hn Hg]. unfold named_slot in Hn.
    apply andb_prop in Hn as [Hid _]. unfold global_slot_of.
    by rewrite Hid, Hg.
  - rewrite (bool_decide_eq_false_2 (k ∈ cell <$> reserved)) by done.
    rewrite bool_decide_eq_false_2; [done|]. intros [Hk _]. by apply Hin, Hrel.
Qed.

Lemma reserve_then_release_round_trip_witness :
  serve_all (init, two_timetables_db) [Reserve "CS" 1 [1]; Release "CS" 1]
  = (init, two_timetables_db).
Proof.
  apply (reserve_then_release_round_trip init two_timetables_db "CS" 1 [1]).
  - intros k d. split.
    + intros Hk. vm_compute in Hk. discriminate.
    + intros (r & Hr & Hg & _).
      repeat (apply elem_of_cons in Hr as [->|Hr]; [discriminate|]).
      by apply elem_of_nil in Hr.
  - apply (bool_decide_unpack _). vm_compute. exact I.
  - intros r Hr _.
    repeat (apply elem_of_cons in Hr as [->|Hr]; [reflexivity|]).
    by apply elem_of_nil in Hr.
Defined.

(** ** What the validation checks *)

Section counting.
Context {A K : Type} `{Countable K} (f : A -> K).

Lemma occurrences_cons k x l :
  occurrences f k (x :: l)
  = (if bool_decide (f x = k) then 1 else 0) + occurrences f k l.
Proof.
  unfold occurrences, len. rewrite filter_cons.
  case_bool_decide; [rewrite decide_True by done|rewrite decide_False by done];
    cbn [length]; lia.
Qed.

Lemma occurrences_nonneg k l : 0 <= occurrences f k l.
Proof. unfold occurrences, len. lia. Qed.

Lemma occurrences_zero k l : occurrences f k l = 0 <-> k ∉ f <$> l.
Proof.
  induction l as [|x l IH].
  - split; [intros _ []%elem_of_nil|done].
  - rewrite occurrences_cons, fmap_cons, not_elem_of_cons, <- IH.
    pose proof (occurrences_nonneg k l). case_bool_decide; split; try lia.
    + intros [? _]. congruence.
    + intros ?. split; [congruence|lia].
Qed.

Lemma NoDup_occurrences l :
  NoDup (f <$> l) <-> forall k, occurrences f k l <= 1.
Proof.
  induction l as [|x l IH].
  - split; [intros _ k; unfold occurrences, len; cbn; lia|constructor].
  - rewrite fmap_cons, NoDup_cons, IH. split.
    + intros [Hx Hl] k. rewrite occurrences_cons. case_bool_decide as Hk.
      * subst k. apply occurrences_zero in Hx. lia.
      * specialize (Hl k). lia.
    + intros Hall. split.
      * apply occurrences_zero. specialize (Hall (f x)).
        rewrite occurrences_cons, bool_decide_eq_true_2 in Hall by done.
        pose proof (occurrences_nonneg (f x) l). lia.
      * intros k. specialize (Hall k). rewrite occurrences_cons in Hall.
        case_bool_decide; lia.
Qed.

(** [slot_count[key] = slot_count.get(key, 0) + 1] over a list. *)
Lemma lookup_foldl_count (l : list A) (m : gmap K Z) (k : K) :
  foldl (fun m x => <[f x := default 0 (m !! f x) + 1]> m) m l !! k
  = if bool_decide (k ∈ f <$> l)
    then Some (default 0 (m !! k) + occurrences f k l)
    else m !! k.
Proof.
  revert m. induction l as [|x l IH]; intros m; [done|].
  cbn [foldl]. rewrite IH, occurrences_cons, fmap_cons.
  destruct (decide (f x = k)) as [<-|Hne].
  - rewrite lookup_insert. rewrite (bool_decide_eq_true_2 (f x = f x)) by done.
    rewrite (bool_decide_eq_true_2 (f x ∈ f x :: _)) by left.
    rewrite decide_True by done. cbn [default from_option id].
    case_bool_decide as Hin.
    + apply (f_equal Some). lia.
    + apply occurrences_zero in Hin. rewrite Hin. apply (f_equal Some). lia.
  - rewrite lookup_insert_ne by done.
    rewrite (bool_decide_eq_false_2 (f x = k)) by done.
    case_bool_decide as Hin.
    + rewrite bool_decide_eq_true_2 by (by right). apply (f_equal Some). lia.
    + rewrite bool_decide_eq_false_2; [done|].
      intros [?|?]%elem_of_cons; [congruence|done].
Qed.

End counting.

Lemma difference_both_empty {K} `{Countable K} (X Y : gset K) :
  X ∖ Y = ∅ /\ Y ∖ X = ∅ <-> X = Y.
Proof.
  split.
  - intros [H1 H2]. apply set_eq. intros x. split; intros Hx.
    + destruct (decide (x ∈ Y)) as [|Hn]; [done|].
      assert (x ∈ X ∖ Y) as Hd by (by apply elem_of_difference).
      rewrite H1 in Hd. by apply elem_of_empty in Hd.
    + destruct (decide (x ∈ X)) as [|Hn]; [done|].
      assert (x ∈ Y ∖ X) as Hd by (by apply elem_of_difference).
      rewrite H2 in Hd. by apply elem_of_empty in Hd.
  - intros ->. by rewrite difference_diag_L.
Qed.

Lemma one_error_nil (b : bool) (x : string) :
  (if b then [] else [x]) = [] <-> b = true.
Proof. by destruct b. Qed.

(** X15. [validate_global_consistency] answers [True] exactly when the
    keys of the index are the cells of the global rows of the store and no
    two global rows share a cell. *)
Theorem validate_global_consistency_iff (self : t) (db : Storage) :
  (validate_global_consistency self db).1 = true
  <-> dom (global_slots self)
      = list_to_set
          (cell <$> filter (fun s => is_global_slot s = true) (scheduled_slots db))
      /\ NoDup (cell <$> filter (fun s => is_global_slot s = true)
                                (scheduled_slots db)).
Proof.
  unfold validate_global_consistency. cbv zeta. cbn [fst].
  set (rows := filter (fun s => is_global_slot s = true) (scheduled_slots db)).
  set (D := list_to_set (cell <$> rows) : gset cell_key).
  set (M := dom (global_slots self)).
  set (counts := foldl (fun m slot => <[cell slot := default 0 (m !! cell slot) + 1]> m)
                       ∅ rows).
  set (double := filter (fun p : cell_key * Z => 1 < p.2) (map_to_list counts)).
  assert (Hdouble : double = [] <-> NoDup (cell <$> rows)).
  { rewrite (NoDup_occurrences cell). split.
    - intros Hnil k.
      destruct (decide (k ∈ cell <$> rows)) as [Hin|Hin].
      + destruct (decide (occurrences cell k rows <= 1)) as [|Hgt]; [done|].
        exfalso.
        assert (Hk : (k, occurrences cell k rows) ∈ double).
        { apply list_elem_of_filter. split; [cbn; lia|].
          apply elem_of_map_to_list. unfold counts.
          rewrite (lookup_foldl_count cell), bool_decide_eq_true_2 by done.
          rewrite lookup_empty. cbn. f_equal. }
        rewrite Hnil in Hk. by apply elem_of_nil in Hk.
      + apply (occurrences_zero cell) in Hin. lia.
    - intros Hall. apply filter_none. intros [k c] Hkc%elem_of_map_to_list.
      unfold counts in Hkc. rewrite (lookup_foldl_count cell) in Hkc.
      case_bool_decide; [|by rewrite lookup_empty in Hkc].
      rewrite lookup_empty in Hkc. cbn in Hkc. apply (inj Some) in Hkc.
      subst c. cbn. specialize (Hall k). lia. }
  rewrite bool_decide_eq_true.
  assert (Hlen : forall l : list string, len l = 0 <-> l = []).
  { intros [|x l]; unfold len; cbn [length]; split; try done; lia. }
  rewrite Hlen. rewrite !app_nil. rewrite !one_error_nil, !bool_decide_eq_true.
  rewrite <- Hdouble.
  assert (Hd3 : match double with
                | [] => []
                | _ :: _ => ["Found " +:+ pretty (length double)
                              +:+ " double-booked slots"]
                end = [] <-> double = []) by (by destruct double).
  rewrite Hd3, <- (difference_both_empty M D). tauto.
Qed.

(** X16. The validation never looks at the department recorded for a
    cell: two indexes with the same keys get the same answer. *)
Theorem validation_ignores_departments (self1 self2 : t) (db : Storage) :
  dom (global_slots self1) = dom (global_slots self2) ->
  validate_global_consistency self1 db = validate_global_consistency self2 db.
Proof.
  intros Hdom. unfold validate_global_consistency. cbv zeta.
  rewrite Hdom. reflexivity.
Qed.

Lemma validation_ignores_departments_witness :
  global_slots cs_held !! (1, 0, 0) = Some "CS"
  /\ global_slots math_held !! (1, 0, 0) = Some "Mathematics"
  /\ validate_global_consistency cs_held reserved_db
     = validate_global_consistency math_held reserved_db.
Proof.
  split; [reflexivity|]. split; [reflexivity|].
  apply (validation_ignores_departments cs_held math_held reserved_db).
  unfold cs_held, math_held, with_global_slots. cbn [global_slots].
  by rewrite !dom_singleton_L.
Defined.

(** ** Moving a slot *)

Lemma elem_of_free_cells self teacher matrix classroom day ts :
  (day, ts) ∈ free_cells self teacher matrix classroom ->
  day ∈ range 0 5 /\ (day ∉ teacher_days_off teacher)
  /\ (exists day_row, index matrix day = Some day_row
                      /\ index day_row ts = Some true)
  /\ 0 <= ts
  /\ global_slots self !! (classroom, day, ts) = None.
Proof.
  unfold free_cells. intros (d & Hin & Hd)%list_elem_of_bind.
  case_bool_decide as Hoff; [by apply elem_of_nil in Hin|].
  case_bool_decide as Hlen; [|by apply elem_of_nil in Hin].
  destruct (index matrix d) as [day_row|] eqn:Hrow; [|by apply elem_of_nil in Hin].
  apply list_elem_of_bind in Hin as (s & Hin & Hs).
  destruct (index day_row s) as [[|]|] eqn:Hcell;
    try by apply elem_of_nil in Hin.
  case_bool_decide as Hfree; [|by apply elem_of_nil in Hin].
  apply list_elem_of_singleton in Hin. injection Hin as -> ->.
  apply elem_of_range in Hs.
  repeat split; try done; [by exists day_row|lia].
Qed.

(** X17. The row [_attempt_reschedule] creates keeps the timetable, the
    assignment, the classroom, the department and the global flag of the
    slot. It starts at the time of an index [ts] of the availability row of
    a day that is not one of the teacher's days off, where the row says
    available and where the index has no key (classroom, day, [ts]). Up to
    [ts = 17] that key is the cell of the new row; beyond, the start time
    wraps around midnight and the cell of the row is another key, about
    which nothing is tested. The store loses the rows with the id of the
    slot and gains this row. *)
Theorem _attempt_reschedule_post (self : t) (db : Storage)
    (slot new : ScheduledSlot) (db' : Storage) :
  _attempt_reschedule self db slot = Some (new, db') ->
  exists assignment teacher matrix day_row ts,
    assignment ∈ assignments db
    /\ assignment_id assignment = slot_assignment_id slot
    /\ teacher ∈ teachers db
    /\ teacher_id teacher = assignment_teacher_id assignment
    /\ availability teacher = Some matrix
    /\ day_of_week new ∈ range 0 5
    /\ (day_of_week new ∉ teacher_days_off teacher)
    /\ index matrix (day_of_week new) = Some day_row
    /\ index day_row ts = Some true
    /\ start_time new = _slot_to_time ts
    /\ 0 <= ts
    /\ global_slots self !! (slot_classroom_id slot, day_of_week new, ts) = None
    /\ (ts <= 17 ->
        cell new = (slot_classroom_id slot, day_of_week new, ts))
    /\ dept_timetable_id new = dept_timetable_id slot
    /\ slot_assignment_id new = slot_assignment_id slot
    /\ slot_classroom_id new = slot_classroom_id slot
    /\ slot_department new = slot_department slot
    /\ is_global_slot new = is_global_slot slot
    /\ slot_id new = slot_seq db
    /\ scheduled_slots db'
       = filter (fun r => slot_id r <> slot_id slot) (scheduled_slots db) ++ [new].
Proof.
  unfold _attempt_reschedule. intros Hrun.
  destruct (List.find _ (assignments db)) as [assignment|] eqn:Ha;
    cbn [mbind option_bind] in Hrun; [|discriminate].
  destruct (List.find _ (teachers db)) as [teacher|] eqn:Ht;
    cbn [mbind option_bind] in Hrun; [|discriminate].
  destruct (availability teacher) as [matrix|] eqn:Hm;
    cbn [mbind option_bind] in Hrun; [|discriminate].
  destruct (head (free_cells self teacher matrix (slot_classroom_id slot)))
    as [[day ts]|] eqn:Hh; cbn [mbind option_bind] in Hrun; [|discriminate].
  apply (inj Some) in Hrun. injection Hrun as <- <-.
  apply find_Some_elem in Ha as [Ha Hida]. apply bool_decide_eq_true in Hida.
  apply find_Some_elem in Ht as [Ht Hidt]. apply bool_decide_eq_true in Hidt.
  apply head_Some_elem_of, elem_of_free_cells in Hh
    as (Hday & Hoff & (day_row & Hrow & Hcell) & Hts & Hfree).
  exists assignment, teacher, matrix, day_row, ts.
  assert (Hkey : ts <= 17 -> _time_to_slot (_slot_to_time ts) = ts).
  { intros Hle. unfold _time_to_slot. cbv zeta.
    change (hour (_slot_to_time ts) * 60 + minute (_slot_to_time ts))
      with (time_minutes (_slot_to_time ts)).
    unfold _slot_to_time, start_hour, slot_duration. cbv zeta.
    rewrite time_minutes_of_minutes by lia.
    replace (8 * 60 + ts * 55 - 8 * 60) with (ts * 55) by lia.
    by apply Z.div_mul. }
  unfold cell.
  cbn [day_of_week start_time dept_timetable_id slot_assignment_id
       slot_classroom_id slot_department is_global_slot slot_id
       scheduled_slots with_scheduled_slots].
  do 12 (split; [done|]). split; [|repeat split; done].
  intros Hle. by rewrite (Hkey Hle).
Qed.

(** ** Loading *)

(** X18. Loading never drops a reservation: afterwards the keys of the
    index are those it had together with the cells of the global rows of
    the store. *)
Theorem load_global_state_keys (self : t) (db : Storage) :
  dom (global_slots (load_global_state self db))
  = dom (global_slots self)
    ∪ list_to_set
        (cell <$> filter (fun s => is_global_slot s = true) (scheduled_slots db)).
Proof.
  unfold load_global_state. cbn [global_slots].
  rewrite (foldl_insert_union cell slot_department).
  rewrite dom_union_L, dom_list_to_map_L.
  rewrite <- fmap_reverse, <- list_fmap_compose.
  rewrite (union_comm_L (dom (global_slots self))). f_equal.
  apply set_eq. intros k. rewrite !elem_of_list_to_set, !list_elem_of_fmap.
  split; intros (r & -> & Hr); exists r; (split; [done|]).
  - by apply elem_of_reverse.
  - by apply elem_of_reverse.
Qed.

Lemma _attempt_reschedule_post_witness :
  _attempt_reschedule init math_db math_slot
  = Some (math_slot_moved, with_scheduled_slots [math_slot_moved] 7 math_db)
  /\ exists assignment teacher matrix day_row ts,
       assignment ∈ assignments math_db
       /\ assignment_id assignment = slot_assignment_id math_slot
       /\ teacher ∈ teachers math_db
       /\ teacher_id teacher = assignment_teacher_id assignment
       /\ availability teacher = Some matrix
       /\ day_of_week math_slot_moved ∈ range 0 5
       /\ (day_of_week math_slot_moved ∉ teacher_days_off teacher)
       /\ index matrix (day_of_week math_slot_moved) = Some day_row
       /\ index day_row ts = Some true
       /\ start_time math_slot_moved = _slot_to_time ts
       /\ 0 <= ts
       /\ global_slots init
            !! (slot_classroom_id math_slot, day_of_week math_slot_moved, ts)
          = None
       /\ (ts <= 17 ->
           cell math_slot_moved
           = (slot_classroom_id math_slot, day_of_week math_slot_moved, ts))
       /\ dept_timetable_id math_slot_moved = dept_timetable_id math_slot
       /\ slot_assignment_id math_slot_moved = slot_assignment_id math_slot
       /\ slot_classroom_id math_slot_moved = slot_classroom_id math_slot
       /\ slot_department math_slot_moved = slot_department math_slot
       /\ is_global_slot math_slot_moved = is_global_slot math_slot
       /\ slot_id math_slot_moved = slot_seq math_db
       /\ scheduled_slots (with_scheduled_slots [math_slot_moved] 7 math_db)
          = filter (fun r => slot_id r <> slot_id math_slot)
                   (scheduled_slots math_db) ++ [math_slot_moved].
Proof.
  assert (H : _attempt_reschedule init math_db math_slot
              = Some (math_slot_moved,
                      with_scheduled_slots [math_slot_moved] 7 math_db))
    by (vm_compute; reflexivity).
  split; [exact H|].
  exact (_attempt_reschedule_post init math_db math_slot math_slot_moved
           (with_scheduled_slots [math_slot_moved] 7 math_db) H).
Defined.

(** ** Slots and times *)

(** X19. On the grid and as long as the day does not wrap,
    [_time_to_slot] undoes [_slot_to_time]. *)
Theorem _time_to_slot_of_slot_to_time (slot : Z) :
  -8 <= slot <= 17 -> _time_to_slot (_slot_to_time slot) = slot.
Proof.
  intros Hs. unfold _time_to_slot. cbv zeta.
  change (hour (_slot_to_time slot) * 60 + minute (_slot_to_time slot))
    with (time_minutes (_slot_to_time slot)).
  unfold _slot_to_time, start_hour, slot_duration. cbv zeta.
  rewrite time_minutes_of_minutes by lia.
  replace (8 * 60 + slot * 55 - 8 * 60) with (slot * 55) by lia.
  by apply Z.div_mul.
Qed.

Lemma _time_to_slot_of_slot_to_time_witness :
  _time_to_slot (_slot_to_time 3) = 3.
Proof. apply (_time_to_slot_of_slot_to_time 3). lia. Defined.

(** ** Conflicts with the index *)

(** X20. After [reserve_global_slots] for a department,
    [check_resource_conflicts] for that department and timetable reports
    none of the slots that were named. *)
Theorem reserved_slots_never_conflict (self : t) (db : Storage)
    (department : string) (tid : Z) (slot_ids : list Z) (c : conflict) :
  let r := reserve_global_slots self db department tid slot_ids in
  c ∈ (check_resource_conflicts r.1.2 r.2 department tid).2 ->
  conflict_slot_id c ∉ slot_ids.
Proof.
  cbv zeta. unfold reserve_global_slots, check_resource_conflicts.
  cbn [fst snd with_global_slots global_slots].
  intros (r' & Hc & [Hid Hr']%list_elem_of_filter)%list_elem_of_bind Hin.
  rewrite (lookup_foldl_insert cell department) in Hc.
  case_bool_decide as Hcell.
  - rewrite bool_decide_eq_false_2 in Hc by (by intros ?).
    by apply elem_of_nil in Hc.
  - destruct (global_slots self !! cell r') as [occ|];
      [|by apply elem_of_nil in Hc].
    case_bool_decide; [|by apply elem_of_nil in Hc].
    apply list_elem_of_singleton in Hc. subst c. cbn [conflict_slot_id] in Hin.
    apply Hcell, list_elem_of_fmap. exists r'. split; [done|].
    apply list_elem_of_filter. split; [|done].
    assert (Hn : named_slot tid slot_ids r' = true).
    { unfold named_slot. by rewrite !bool_decide_eq_true_2. }
    rewrite Hn. cbn [andb].
    apply elem_of_update_is_global in Hr' as (r0 & _ & [[_ ->]|[Hw ->]]);
      [done|congruence].
Qed.

Lemma reserved_slots_never_conflict_witness :
  (check_resource_conflicts
     (reserve_global_slots math_held_both two_rows_db "CS" 1 [1]).1.2
     (reserve_global_slots math_held_both two_rows_db "CS" 1 [1]).2
     "CS" 1).2 = [second_row_conflict]
  /\ (conflict_slot_id second_row_conflict ∉ [1]).
Proof.
  assert (H : (check_resource_conflicts
     (reserve_global_slots math_held_both two_rows_db "CS" 1 [1]).1.2
     (reserve_global_slots math_held_both two_rows_db "CS" 1 [1]).2
     "CS" 1).2 = [second_row_conflict]) by (vm_compute; reflexivity).
  split; [exact H|].
  apply (reserved_slots_never_conflict math_held_both two_rows_db "CS" 1 [1]
           second_row_conflict).
  cbv zeta. rewrite H. left.
Defined.

(** ** Data needed for scheduling *)

Lemma len_zero_nil {A} (l : list A) : len l = 0 <-> l = [].
Proof. destruct l; unfold len; cbn [length]; split; try done; lia. Qed.

Lemma one_error_when_nil (b : bool) (x : string) :
  (if b then [x] else []) = [] <-> b = false.
Proof. by destruct b. Qed.

(** X21. [validate_scheduling_data] accepts exactly when the data that
    [load_data] reads for the department and user has at least one
    assignment, teacher, classroom and course. *)
Theorem validate_scheduling_data_iff (db : Storage) (department : string)
    (user_id : Z) :
  (validate_scheduling_data db department user_id).1 = true
  <-> self_assignments (load_data db department user_id) <> []
      /\ self_teachers (load_data db department user_id) <> []
      /\ self_classrooms (load_data db department user_id) <> []
      /\ self_courses (load_data db department user_id) <> [].
Proof.
  unfold validate_scheduling_data, load_data. cbv zeta.
  cbn [fst self_assignments self_teachers self_classrooms self_courses].
  rewrite bool_decide_eq_true, len_zero_nil, !app_nil, !one_error_when_nil.
  rewrite !bool_decide_eq_false, !len_zero_nil. done.
Qed.

(** ** Conflicts between departments *)

Lemma usage_append_fst k u su :
  (usage_append k u su).*1
  = if bool_decide (k ∈ su.*1) then su.*1 else su.*1 ++ [k].
Proof.
  induction su as [|[k' l] rest IH]; [done|].
  cbn [usage_append]. destruct (decide (k' = k)) as [Hk|Hk].
  - rewrite (bool_decide_eq_true_2 (k' = k)) by done.
    subst k'. cbn [fmap list_fmap fst].
    rewrite bool_decide_eq_true_2 by left. done.
  - rewrite (bool_decide_eq_false_2 (k' = k)) by done.
    cbn [fmap list_fmap fst]. fold (rest.*1). fold ((usage_append k u rest).*1).
    rewrite IH. case_bool_decide as Hin.
    + rewrite bool_decide_eq_true_2 by (by right). done.
    + rewrite bool_decide_eq_false_2; [done|].
      intros [?|?]%elem_of_cons; [by apply Hk|done].
Qed.

Lemma usage_append_elem k u su k' l' :
  NoDup su.*1 ->
  (k', l') ∈ usage_append k u su
  <-> (k' <> k /\ (k', l') ∈ su)
      \/ (k' = k /\ ((exists l, (k, l) ∈ su /\ l' = l ++ [u])
                     \/ ((k ∉ su.*1) /\ l' = [u]))).
Proof.
  induction su as [|[k0 l0] rest IH]; intros Hnd.
  - cbn [usage_append]. rewrite list_elem_of_singleton. split.
    + intros [= -> ->]. right. split; [done|]. right. split; [|done].
      by intros ?%elem_of_nil.
    + intros [[_ []%elem_of_nil]|[-> [(l & []%elem_of_nil & _)|[_ ->]]]]. done.
  - cbn [fmap list_fmap fst] in Hnd. apply NoDup_cons in Hnd as [Hk0 Hnd].
    cbn [usage_append]. destruct (decide (k0 = k)) as [Hk|Hk].
    + rewrite (bool_decide_eq_true_2 (k0 = k)) by done.
      subst k0. rewrite !elem_of_cons. split.
      * intros [[= -> ->]|Hin].
        -- right. split; [done|]. left. exists l0. split; [left|done].
        -- left. split; [|by right]. intros ->. apply Hk0.
           apply list_elem_of_fmap. by exists (k, l').
      * intros [[Hne [[= ? ?]|Hin]]|[-> [(l & Hin & ->)|[Hnot _]]]].
        -- done.
        -- by right.
        -- apply elem_of_cons in Hin as [[= ->]|Hin]; [by left|].
           exfalso. apply Hk0. apply list_elem_of_fmap. by exists (k, l).
        -- exfalso. apply Hnot. left.
    + rewrite (bool_decide_eq_false_2 (k0 = k)) by done.
      rewrite elem_of_cons, (IH Hnd). split.
      * intros [[= -> ->]|[[Hne Hin]|[-> Hcase]]].
        -- left. split; [done|left].
        -- left. split; [done|by right].
        -- right. split; [done|]. destruct Hcase as [(l & Hin & ->)|[Hnot ->]].
           ++ left. exists l. split; [by right|done].
           ++ right. split; [|done]. cbn [fmap list_fmap fst].
              intros [?|?]%elem_of_cons; [by apply Hk|done].
      * intros [[Hne [[= -> ->]|Hin]%elem_of_cons]|[-> Hcase]].
        -- by left.
        -- right. left. done.
        -- right. right. split; [done|].
           destruct Hcase as [(l & Hin & ->)|[Hnot ->]].
           ++ apply elem_of_cons in Hin as [[= ? ?]|Hin]; [by exfalso; apply Hk|].
              left. by exists l.
           ++ right. split; [|done]. intros Hin. apply Hnot.
              cbn [fmap list_fmap fst]. by right.
Qed.

Lemma usages_at_snoc k us u :
  usages_at k (us ++ [u])
  = usages_at k us ++ (if bool_decide (cell (usage_slot u) = k) then [u] else []).
Proof.
  unfold usages_at. rewrite filter_app. f_equal.
  rewrite filter_cons, filter_nil. case_bool_decide.
  - by rewrite decide_True.
  - by rewrite decide_False.
Qed.

Lemma grouped_nil : grouped [] [].
Proof.
  split; [constructor|]. intros k l. split; [by intros ?%elem_of_nil|].
  intros [-> Hne]. done.
Qed.

Lemma grouped_key su us k :
  grouped su us -> k ∈ su.*1 <-> usages_at k us <> [].
Proof.
  intros [_ Hg]. split.
  - intros ([k' l] & -> & Hin)%list_elem_of_fmap. cbn [fst].
    apply Hg in Hin as [<- ?]. done.
  - intros Hne. apply list_elem_of_fmap. exists (k, usages_at k us).
    split; [done|]. by apply Hg.
Qed.

Lemma grouped_step su us u :
  grouped su us ->
  grouped (usage_append (cell (usage_slot u)) u su) (us ++ [u]).
Proof.
  intros Hg. pose proof Hg as [Hnd Hiff]. split.
  - rewrite usage_append_fst. case_bool_decide as Hin; [done|].
    apply NoDup_app. split; [done|]. split; [|apply NoDup_singleton].
    intros x Hx ->%list_elem_of_singleton. done.
  - intros k l. rewrite (usage_append_elem _ _ _ _ _ Hnd), usages_at_snoc.
    case_bool_decide as Hk.
    + subst k. split.
      * intros [[Hne _]|[_ [(l0 & Hin & ->)|[Hnot ->]]]]; [done| |].
        -- apply Hiff in Hin as [-> _]. split; [done|].
           intros [_ ?]%app_eq_nil. done.
        -- assert (usages_at (cell (usage_slot u)) us = []) as ->.
           { destruct (usages_at (cell (usage_slot u)) us) eqn:E; [done|].
             exfalso. apply Hnot. apply (grouped_key su us _ Hg).
             by rewrite E. }
           done.
      * intros [-> _]. right. split; [done|].
        destruct (decide (usages_at (cell (usage_slot u)) us = [])) as [E|E].
        -- right. rewrite E. split; [|done].
           intros Hin%(grouped_key su us _ Hg). done.
        -- left. exists (usages_at (cell (usage_slot u)) us). split; [|done].
           by apply Hiff.
    + rewrite app_nil_r. split.
      * intros [[_ Hin]|[-> _]]; [by apply Hiff|done].
      * intros Hl. left. split; [congruence|]. by apply Hiff.
Qed.

Lemma grouped_foldl us0 su0 us :
  grouped su0 us0 ->
  grouped (foldl (fun su u => usage_append (cell (usage_slot u)) u su) su0 us)
          (us0 ++ us).
Proof.
  revert us0 su0. induction us as [|u us IH]; intros us0 su0 Hg.
  - by rewrite app_nil_r.
  - cbn [foldl]. rewrite (cons_middle u us0 us), app_assoc.
    apply IH. by apply grouped_step.
Qed.

Lemma slot_usage_of_flat ds :
  slot_usage_of ds
  = foldl (fun su u => usage_append (cell (usage_slot u)) u su) [] (usages_of ds).
Proof.
  unfold slot_usage_of, usages_of. generalize (@nil (cell_key * list usage)).
  induction ds as [|[d slots] ds IH]; intros su; [done|].
  cbn [foldl mbind list_bind]. rewrite foldl_app, IH. f_equal.
  clear IH. revert su. induction slots as [|s slots IH]; intros su; [done|].
  cbn [foldl fmap list_fmap]. apply IH.
Qed.

Lemma slot_usage_of_grouped ds : grouped (slot_usage_of ds) (usages_of ds).
Proof.
  rewrite slot_usage_of_flat.
  apply (grouped_foldl [] [] (usages_of ds)), grouped_nil.
Qed.

(** X22. [_detect_inter_department_conflicts] reports a cell exactly when
    more than one of the given slots lies in it, whether or not the slots
    belong to different departments; the conflict lists the departments
    and slots of that cell in the order of the input, and no cell is
    reported twice. *)
Theorem detected_conflicts_are_shared_cells
    (department_slots : list (string * list ScheduledSlot)) :
  NoDup (ic_key <$> _detect_inter_department_conflicts department_slots)
  /\ forall c,
       c ∈ _detect_inter_department_conflicts department_slots
       <-> exists k,
             1 < len (usages_at k (usages_of department_slots))
             /\ c = {| ic_classroom_id := k.1.1; ic_day_of_week := k.1.2;
                       ic_time_slot := k.2;
                       conflicting_departments :=
                         usage_department
                           <$> usages_at k (usages_of department_slots);
                       conflicting_slots :=
                         usage_slot
                           <$> usages_at k (usages_of department_slots) |}.
Proof.
  pose proof (slot_usage_of_grouped department_slots) as [Hnd Hiff].
  unfold _detect_inter_department_conflicts. split.
  - apply (sublist_NoDup _ (slot_usage_of department_slots).*1); [done|].
    clear. induction (slot_usage_of department_slots) as [|[[[a b] c] l] su IH];
      [done|].
    cbn [mbind list_bind fmap list_fmap fst]. rewrite fmap_app.
    case_bool_decide.
    + cbn [fmap list_fmap app]. by apply sublist_skip.
    + cbn [fmap list_fmap app]. by apply sublist_cons.
  - intros c. rewrite list_elem_of_bind. split.
    + intros ([[[a b] d] l] & Hc & [-> Hne]%Hiff).
      case_bool_decide as Hlen; [|by apply elem_of_nil in Hc].
      apply list_elem_of_singleton in Hc. by exists (a, b, d).
    + intros ([[a b] d] & Hlen & ->).
      exists (a, b, d, usages_at (a, b, d) (usages_of department_slots)).
      split.
      * rewrite bool_decide_eq_true_2 by done. by left.
      * apply Hiff. split; [done|]. intros E. rewrite E in Hlen. done.
Qed.

(** ** Storing rules *)

Lemma create_rules_step6_created department user_id data db db' :
  Schemas.create_rules_step6 department user_id data db = (201, db') ->
  exists o rules_request,
    data = JObj o
    /\ Schemas.validate_Step6RulesRequest o = Some rules_request
    /\ db' = foldl (add_rule department user_id) db rules_request.
Proof.
  unfold Schemas.create_rules_step6.
  destruct (negb (truthy data)); [intros H; discriminate H|].
  destruct data as [| | | | |o]; try (intros H; discriminate H).
  destruct (Schemas.validate_Step6RulesRequest o) as [rules_request|] eqn:Hv;
    [|intros H; discriminate H].
  intros H. injection H as <-. exists o, rules_request.
  split; [reflexivity|]. split; [exact Hv|reflexivity].
Qed.

(** The rule is stored under the caller: the test of [create_rules_step6]. *)
Lemma add_rule_cases department user_id db rc :
  ((exists r, r ∈ rules db
       /\ rule_owner_name r = (Schemas.rc_name rc, department, user_id))
   /\ add_rule department user_id db rc = db)
  \/ ((forall r, r ∈ rules db ->
         rule_owner_name r <> (Schemas.rc_name rc, department, user_id))
      /\ exists r, rule_owner_name r = (Schemas.rc_name rc, department, user_id)
           /\ rule_id r = rule_seq db
           /\ add_rule department user_id db rc
              = with_rules (rules db ++ [r]) (rule_seq db + 1) db).
Proof.
  unfold add_rule.
  destruct (List.find _ (rules db)) as [r|] eqn:Hf.
  - left. split; [|done]. apply find_Some_elem in Hf as [Hr Hp].
    apply andb_prop in Hp as [[H1 H2]%andb_prop H3].
    apply bool_decide_eq_true in H1, H2, H3. exists r. split; [done|].
    unfold rule_owner_name. congruence.
  - right. split.
    + intros r Hr Heq. rewrite find_None_iff in Hf. specialize (Hf r Hr).
      unfold rule_owner_name in Heq. injection Heq as H1 H2 H3.
      by rewrite !bool_decide_eq_true_2 in Hf.
    + eexists. split; [|split; [|reflexivity]]; reflexivity.
Qed.

Lemma add_rule_prefix department user_id db rc :
  rules db `prefix_of` rules (add_rule department user_id db rc).
Proof.
  destruct (add_rule_cases department user_id db rc)
    as [[_ ->]|[_ (r & _ & _ & ->)]]; [done|].
  cbn [with_rules rules]. by apply prefix_app_r.
Qed.

Lemma foldl_add_rule_prefix department user_id l db :
  rules db `prefix_of` rules (foldl (add_rule department user_id) db l).
Proof.
  revert db. induction l as [|rc l IH]; intros db; [done|].
  cbn [foldl]. etrans; [apply add_rule_prefix|apply IH].
Qed.

(** After the loop every rule of the request is stored under the caller. *)
Lemma foldl_add_rule_known department user_id l db rc :
  rc ∈ l ->
  exists r, r ∈ rules (foldl (add_rule department user_id) db l)
            /\ rule_owner_name r = (Schemas.rc_name rc, department, user_id).
Proof.
  revert db. induction l as [|rc0 l IH]; intros db Hin;
    [by apply elem_of_nil in Hin|].
  cbn [foldl]. apply elem_of_cons in Hin as [->|Hin]; [|by apply IH].
  assert (exists r, r ∈ rules (add_rule department user_id db rc0)
            /\ rule_owner_name r = (Schemas.rc_name rc0, department, user_id))
    as (r & Hr & Hname).
  { destruct (add_rule_cases department user_id db rc0)
      as [[(r & Hr & Hn) ->]|[_ (r & Hn & _ & ->)]]; [by exists r|].
    exists r. split; [|done]. cbn [with_rules rules].
    apply elem_of_app. right. left. }
  exists r. split; [|done].
  apply (elem_of_prefix _ _ _ Hr), foldl_add_rule_prefix.
Qed.

(** A request whose rules are all stored adds nothing. *)
Lemma foldl_add_rule_nothing department user_id l db :
  (forall rc, rc ∈ l ->
     exists r, r ∈ rules db
               /\ rule_owner_name r = (Schemas.rc_name rc, department, user_id)) ->
  foldl (add_rule department user_id) db l = db.
Proof.
  induction l as [|rc l IH]; intros Hall; [done|]. cbn [foldl].
  assert (add_rule department user_id db rc = db) as ->.
  { destruct (add_rule_cases department user_id db rc)
      as [[_ ->]|[Hnone _]]; [done|].
    destruct (Hall rc) as (r & Hr & Hn); [left|]. by destruct (Hnone r Hr). }
  apply IH. intros rc' Hin. apply Hall. by right.
Qed.

(** X23. Sending the same request to [create_rules_step6] a second time
    stores nothing: after a first call that answered 201, the call answers
    201 again and the store is unchanged. *)
Theorem create_rules_step6_twice department user_id data db db' :
  Schemas.create_rules_step6 department user_id data db = (201, db') ->
  Schemas.create_rules_step6 department user_id data db' = (201, db').
Proof.
  intros Hfirst.
  pose proof Hfirst as (o & rules_request & -> & Hv & ->)
    %create_rules_step6_created.
  pose proof Hfirst as Hsecond. unfold Schemas.create_rules_step6 in Hsecond |- *.
  destruct (negb (truthy (JObj o))); [discriminate|].
  rewrite Hv in Hsecond |- *. clear Hsecond Hfirst. f_equal.
  change (foldl (add_rule department user_id)
            (foldl (add_rule department user_id) db rules_request) rules_request
          = foldl (add_rule department user_id) db rules_request).
  apply foldl_add_rule_nothing. intros rc Hin.
  by apply foldl_add_rule_known.
Qed.

Lemma create_rules_step6_twice_witness :
  let db' := (Schemas.create_rules_step6 "CS" 7
                (JObj [("rules", JList [inverted_lunch_window])]) cs_db).2 in
  len (rules db') = 1
  /\ Schemas.create_rules_step6 "CS" 7
       (JObj [("rules", JList [inverted_lunch_window])]) db' = (201, db').
Proof.
  cbv zeta. split; [vm_compute; reflexivity|].
  apply (create_rules_step6_twice "CS" 7
           (JObj [("rules", JList [inverted_lunch_window])]) cs_db).
  vm_compute. reflexivity.
Defined.

Lemma add_rule_NoDup department user_id db rc :
  NoDup (rule_owner_name <$> rules db) ->
  NoDup (rule_owner_name <$> rules (add_rule department user_id db rc)).
Proof.
  intros Hnd. destruct (add_rule_cases department user_id db rc)
    as [[_ ->]|[Hnone (r & Hn & _ & ->)]]; [done|].
  cbn [with_rules rules]. rewrite fmap_app. apply NoDup_app.
  split; [done|]. split; [|apply NoDup_singleton].
  intros x (r0 & -> & Hr0)%list_elem_of_fmap Hx.
  apply list_elem_of_singleton in Hx. apply (Hnone r0 Hr0). congruence.
Qed.

(** X24. [create_rules_step6] keeps the stored rules, in order, before
    those it adds, touches no other table, and keeps the names of the rules
    of each department and user distinct when they were. *)
Theorem create_rules_step6_keeps_names_distinct
    department user_id data db st db' :
  NoDup (rule_owner_name <$> rules db) ->
  Schemas.create_rules_step6 department user_id data db = (st, db') ->
  rules db `prefix_of` rules db'
  /\ NoDup (rule_owner_name <$> rules db')
  /\ teachers db' = teachers db /\ courses db' = courses db
  /\ classrooms db' = classrooms db /\ assignments db' = assignments db
  /\ dept_timetables db' = dept_timetables db
  /\ scheduled_slots db' = scheduled_slots db /\ slot_seq db' = slot_seq db.
Proof.
  intros Hnd Hrun.
  assert (Hsame : db' = db ->
            rules db `prefix_of` rules db'
            /\ NoDup (rule_owner_name <$> rules db')
            /\ teachers db' = teachers db /\ courses db' = courses db
            /\ classrooms db' = classrooms db /\ assignments db' = assignments db
            /\ dept_timetables db' = dept_timetables db
            /\ scheduled_slots db' = scheduled_slots db
            /\ slot_seq db' = slot_seq db).
  { intros ->. repeat split; done. }
  destruct (decide (st = 201)) as [->|Hst].
  - apply create_rules_step6_created in Hrun as (o & l & -> & _ & ->).
    clear Hsame. split; [apply foldl_add_rule_prefix|].
    revert db Hnd. induction l as [|rc l IH]; intros db Hnd; [done|].
    cbn [foldl].
    destruct (IH (add_rule department user_id db rc))
      as (H1 & H2 & H3 & H4 & H5 & H6 & H7 & H8);
      [by apply add_rule_NoDup|].
    split; [done|].
    assert (Hframe : teachers (add_rule department user_id db rc) = teachers db
              /\ courses (add_rule department user_id db rc) = courses db
              /\ classrooms (add_rule department user_id db rc) = classrooms db
              /\ assignments (add_rule department user_id db rc) = assignments db
              /\ dept_timetables (add_rule department user_id db rc)
                 = dept_timetables db
              /\ scheduled_slots (add_rule department user_id db rc)
                 = scheduled_slots db
              /\ slot_seq (add_rule department user_id db rc) = slot_seq db).
    { destruct (add_rule_cases department user_id db rc)
        as [[_ ->]|[_ (r & _ & _ & ->)]]; repeat split; done. }
    destruct Hframe as (F1 & F2 & F3 & F4 & F5 & F6 & F7).
    repeat split; congruence.
  - apply Hsame. revert Hrun. unfold Schemas.create_rules_step6.
    destruct (negb (truthy data)); [by intros [= _ <-]|].
    destruct data as [| | | | |o]; try by intros [= _ <-].
    destruct (Schemas.validate_Step6RulesRequest o); [|by intros [= _ <-]].
    intros [= <- _]. done.
Qed.

Lemma create_rules_step6_keeps_names_distinct_witness :
  let r := Schemas.create_rules_step6 "CS" 7
             (JObj [("rules", JList [inverted_lunch_window;
                                     inverted_lunch_window])]) cs_db in
  r.1 = 201 /\ len (rules r.2) = 1
  /\ rules cs_db `prefix_of` rules r.2
  /\ NoDup (rule_owner_name <$> rules r.2)
  /\ teachers r.2 = teachers cs_db /\ courses r.2 = courses cs_db
  /\ classrooms r.2 = classrooms cs_db /\ assignments r.2 = assignments cs_db
  /\ dept_timetables r.2 = dept_timetables cs_db
  /\ scheduled_slots r.2 = scheduled_slots cs_db
  /\ slot_seq r.2 = slot_seq cs_db.
Proof.
  cbv zeta. split; [vm_compute; reflexivity|].
  split; [vm_compute; reflexivity|].
  apply (create_rules_step6_keeps_names_distinct "CS" 7
           (JObj [("rules", JList [inverted_lunch_window;
                                   inverted_lunch_window])]) cs_db 201).
  - vm_compute. constructor.
  - vm_compute. reflexivity.
Defined.

(** ** An inverted lunch window, from the request to the model *)

Lemma for_each_app {A S} (l1 l2 : list A) (body : S -> A -> option S) (st : S) :
  for_each (l1 ++ l2) body st = for_each l1 body st ≫= for_each l2 body.
Proof.
  revert st. induction l1 as [|x l1 IH]; intros st; [done|].
  cbn [app for_each]. destruct (body st x) as [st'|]; [apply IH|done].
Qed.

Lemma for_each_snoc_skip {A S} (l : list A) (x : A)
    (body : S -> A -> option S) (st : S) :
  (forall s, body s x = Some s) ->
  for_each (l ++ [x]) body st = for_each l body st.
Proof.
  intros Hskip. rewrite for_each_app.
  destruct (for_each l body st) as [st'|]; [|done].
  cbn [mbind option_bind for_each]. by rewrite Hskip.
Qed.

(** C9, amended. Validation of a rule looks at the name and the rule type
    only. A lunch-window rule whose [start_slot] is greater than its
    [end_slot] is accepted with its data unchanged; unless the caller has a
    rule of that name already, [create_rules_step6] stores it and answers
    201; [load_data] hands it to the model builder, where its slot range is
    empty: the model built is the one built without the rule. *)
Theorem inverted_lunch_window_adds_nothing (name : string)
    (data : list (string * json)) (lo hi : Z) (department : string)
    (user_id : Z) (db : Storage) :
  2 <= str_len name <= 100 ->
  obj_get data "start_slot" = Some (JInt lo) ->
  obj_get data "end_slot" = Some (JInt hi) ->
  hi < lo ->
  (forall r, r ∈ rules db -> rule_owner_name r <> (name, department, user_id)) ->
  let raw := JObj [("name", JStr name); ("rule_type", JStr "lunch_window");
                   ("rule_data", JObj data)] in
  let stored := {| rule_id := rule_seq db; rule_name := name;
                   rule_type := "lunch_window"; rule_data := data;
                   rule_department := department; rule_user_id := user_id |} in
  let db' := with_rules (rules db ++ [stored]) (rule_seq db + 1) db in
  Schemas.validate_RuleCreate raw
  = Some (Schemas.mk_RuleCreate name "lunch_window" data)
  /\ Schemas.create_rules_step6 department user_id
       (JObj [("rules", JList [raw])]) db = (201, db')
  /\ stored ∈ self_rules (load_data db' department user_id)
  /\ build_model (load_data db' department user_id)
     = build_model (load_data db department user_id).
Proof.
  intros Hname Hlo Hhi Hlt Hfresh raw stored db'.
  assert (Hvalid : Schemas.validate_RuleCreate raw
                   = Some (Schemas.mk_RuleCreate name "lunch_window" data)).
  { unfold raw, Schemas.validate_RuleCreate.
    cbn [obj_get String.eqb Ascii.eqb Bool.eqb].
    rewrite bool_decide_eq_true_2 by exact Hname. reflexivity. }
  assert (Hrules : self_rules (load_data db' department user_id)
                   = self_rules (load_data db department user_id) ++ [stored]).
  { unfold load_data, db'. cbn [self_rules with_rules rules].
    rewrite filter_app. f_equal.
    rewrite filter_cons, filter_nil. by rewrite decide_True. }
  split; [exact Hvalid|]. split; [|split].
  - unfold Schemas.create_rules_step6. cbn [truthy negb].
    unfold Schemas.validate_Step6RulesRequest.
    cbn [obj_get String.eqb Ascii.eqb Bool.eqb mapM]. fold raw.
    rewrite Hvalid. cbn [mbind option_bind mret option_ret foldl].
    assert (Hnone : List.find
              (fun r => bool_decide (rule_name r = name)
                        && bool_decide (rule_department r = department)
                        && bool_decide (rule_user_id r = user_id))
              (rules db) = None).
    { apply find_None_iff. intros r Hr.
      destruct (bool_decide (rule_name r = name)) eqn:E1; [|done].
      destruct (bool_decide (rule_department r = department)) eqn:E2; [|done].
      destruct (bool_decide (rule_user_id r = user_id)) eqn:E3; [|done].
      apply bool_decide_eq_true in E1, E2, E3. exfalso.
      apply (Hfresh r Hr). unfold rule_owner_name. congruence. }
    cbn [Schemas.rc_name Schemas.rc_rule_type Schemas.rc_rule_data].
    rewrite Hnone. reflexivity.
  - rewrite Hrules. apply elem_of_app. right. left.
  - set (sn := load_data db department user_id).
    assert (Hsn : load_data db' department user_id
                  = with_self_rules (self_rules sn ++ [stored]) sn).
    { unfold with_self_rules. subst sn. rewrite <- Hrules. reflexivity. }
    rewrite Hsn. unfold build_model.
    change (create_decision_variables (with_self_rules _ sn))
      with (create_decision_variables sn).
    destruct (create_decision_variables sn) as [vars|]; [|done].
    cbn [mbind option_bind].
    change (add_hard_constraints vars (with_self_rules _ sn))
      with (add_hard_constraints vars sn).
    destruct (add_hard_constraints vars sn) as [hard|]; [|done].
    cbn [mbind option_bind].
    assert (Hsoft : add_soft_constraints vars
                      (with_self_rules (self_rules sn ++ [stored]) sn)
                    = add_soft_constraints vars sn); [|by rewrite Hsoft].
    unfold add_soft_constraints. cbv zeta.
    change (gap_terms vars (with_self_rules _ sn)) with (gap_terms vars sn).
    change (time_preference_terms vars (with_self_rules _ sn))
      with (time_preference_terms vars sn).
    change (self_rules (with_self_rules ?rs sn)) with rs.
    rewrite for_each_snoc_skip; [reflexivity|].
    intros [cs terms]. cbn [rule_type rule_data stored].
    cbn [String.eqb Ascii.eqb Bool.eqb].
    rewrite (_add_lunch_window_constraint_inverted vars _ data lo hi terms)
      by done.
    reflexivity.
Qed.

Lemma inverted_lunch_window_adds_nothing_witness :
  let stored := {| rule_id := rule_seq cs_db; rule_name := "Lunch";
                   rule_type := "lunch_window";
                   rule_data := [("start_slot", JInt 6); ("end_slot", JInt 4)];
                   rule_department := "CS"; rule_user_id := 7 |} in
  let db' := with_rules (rules cs_db ++ [stored]) (rule_seq cs_db + 1) cs_db in
  Schemas.validate_RuleCreate inverted_lunch_window
  = Some (Schemas.mk_RuleCreate "Lunch" "lunch_window"
            [("start_slot", JInt 6); ("end_slot", JInt 4)])
  /\ Schemas.create_rules_step6 "CS" 7
       (JObj [("rules", JList [inverted_lunch_window])]) cs_db = (201, db')
  /\ stored ∈ self_rules (load_data db' "CS" 7)
  /\ build_model (load_data db' "CS" 7) = build_model (load_data cs_db "CS" 7).
Proof.
  apply (inverted_lunch_window_adds_nothing "Lunch"
           [("start_slot", JInt 6); ("end_slot", JInt 4)] 6 4 "CS" 7 cs_db).
  - vm_compute. split; congruence.
  - reflexivity.
  - reflexivity.
  - lia.
  - intros r Hr. by apply elem_of_nil in Hr.
Defined.
